(** * Dataset pipelines of con_net: a shallow embedding

    The development follows [con_net/dataset/dataset2.py] and
    [con_net/dataset/dataset_laionhuman_w_control.py].  Pictures are
    modelled by what the geometric steps of the pipelines act on: their
    size, the value range of their samples, the list of steps applied so
    far, and the affine map that sends a position of the current frame to
    the position of the picture it was read from.  Pixel values (bilinear
    interpolation, edge detection) are left out. *)

From Stdlib Require Import ZArith QArith Qround Qpower Lia Lqa Ascii String.
From stdpp Require Import gmap strings list pretty.

Local Open Scope Z_scope.

(** ** Python exceptions and the effect monad *)

Inductive exn :=
| IndexError | KeyError | OSError | ValueError | TypeError
| ZeroDivisionError | RuntimeError | NotImplementedError | RecursionError.

Inductive result (A : Type) :=
| Ok (a : A)
| Raise (e : exn).
Arguments Ok {A} a.
Arguments Raise {A} e.

(** The world a [__getitem__] call runs in: the files that decode to a
    picture (path to (width, height)), the directories that can be listed
    (path to entry names), the draws still to come from torch's generator
    and from Python's [random] module. *)
Record world := {
  fs : string -> option (Z * Z);
  dirs : string -> option (list string);
  torch_rng : nat -> Z;
  py_rng : nat -> Z
}.

Definition M (A : Type) := world -> result A * world.

Definition ret {A} (a : A) : M A := fun w => (Ok a, w).
Definition raise {A} (e : exn) : M A := fun w => (Raise e, w).
Definition bind {A B} (c : M A) (k : A -> M B) : M B :=
  fun w => match c w with
           | (Ok a, w') => k a w'
           | (Raise e, w') => (Raise e, w')
           end.
Definition lift {A} (r : result A) : M A := fun w => (r, w).

Notation "x <- c ;; k" := (bind c (fun x => k))
  (at level 100, c at next level, right associativity).

(** [torch.randint(lo, hi, size=(1,)).item()]: the next draw of the
    generator brought into [lo, hi); an empty range is an error. *)
Definition torch_randint (lo hi : Z) : M Z :=
  fun w =>
    if hi <=? lo then (Raise RuntimeError, w)
    else (Ok (lo + torch_rng w 0%nat mod (hi - lo)),
          {| fs := fs w; dirs := dirs w;
             torch_rng := fun n => torch_rng w (S n);
             py_rng := py_rng w |}).

(** The next raw draw of Python's generator. *)
Definition py_draw : M Z :=
  fun w => (Ok (py_rng w 0%nat),
            {| fs := fs w; dirs := dirs w;
               torch_rng := torch_rng w;
               py_rng := fun n => py_rng w (S n) |}).

(** [random.randint(a, b)]: both ends included; [ValueError] on an empty
    range. *)
Definition random_randint (a b : Z) : M Z :=
  if b <? a then raise ValueError
  else d <- py_draw ;; ret (a + d mod (b - a + 1)).

(** ** Pictures *)

(** Position of the source picture, in fractions of its width and height,
    as a function of the position in the current frame, in fractions too:
    [x_src = gx_scale * x + gx_off], and the same for y. *)
Record geometry := {
  gx_scale : Q; gx_off : Q;
  gy_scale : Q; gy_off : Q
}.

Definition geom_id : geometry :=
  {| gx_scale := 1; gx_off := 0; gy_scale := 1; gy_off := 0 |}.

Inductive value_range :=
| Bytes    (* a PIL picture, 0..255 *)
| Unit     (* after ToTensor, [0,1] *)
| Signed.  (* after Normalize([0.5],[0.5]), [-1,1] *)

Inductive op :=
| PilResize (w h : Z)
| TvResize (h w : Z)
| TvPad (l t r b : Z)
| TvCrop (top left h w : Z)
| ToTensorOp
| NormalizeOp
| CannyOp (lo hi : Z)
| HedOp.

Record picture := {
  source : string;
  width : Z;
  height : Z;
  geom : geometry;
  range : value_range;
  history : list op
}.

(** Window [left, left + w) x [top, top + h) of a frame [W] x [H], seen
    through the map of that frame. *)
Definition window_geom (g : geometry) (W H top left h w : Z) : geometry :=
  {| gx_scale := (gx_scale g * (inject_Z w / inject_Z W))%Q;
     gx_off := (gx_off g + gx_scale g * (inject_Z left / inject_Z W))%Q;
     gy_scale := (gy_scale g * (inject_Z h / inject_Z H))%Q;
     gy_off := (gy_off g + gy_scale g * (inject_Z top / inject_Z H))%Q |}.

(** Source position (fractions of the source) of the centre of pixel
    (x, y) of a picture. *)
Definition src_loc (img : picture) (x y : Z) : Q * Q :=
  let u := ((inject_Z x + (1 # 2)) / inject_Z (width img))%Q in
  let v := ((inject_Z y + (1 # 2)) / inject_Z (height img))%Q in
  (gx_scale (geom img) * u + gx_off (geom img),
   gy_scale (geom img) * v + gy_off (geom img))%Q.

(** Two pictures are pixel-aligned: same size, and every pixel shows the
    same place of the source. *)
Definition aligned (a b : picture) : Prop :=
  width a = width b /\ height a = height b /\
  forall x y, 0 <= x < width a -> 0 <= y < height a ->
    (fst (src_loc a x y) == fst (src_loc b x y))%Q /\
    (snd (src_loc a x y) == snd (src_loc b x y))%Q.

(** ** PIL *)
Module PIL.

(** [Image.open(path).convert("RGB")] *)
Definition open (path : string) : M picture :=
  fun w => match fs w path with
           | Some (wd, ht) =>
               (Ok {| source := path; width := wd; height := ht;
                      geom := geom_id; range := Bytes; history := [] |}, w)
           | None => (Raise OSError, w)
           end.

(** [img.resize((w, h))]: a copy when the size is unchanged, otherwise
    both sides must be at least 1. *)
Definition resize (img : picture) (w h : Z) : result picture :=
  if (width img =? w) && (height img =? h) then
    Ok {| source := source img; width := w; height := h;
          geom := geom img; range := range img;
          history := history img ++ [PilResize w h] |}
  else if (w <? 1) || (h <? 1) then Raise ValueError
  else
    Ok {| source := source img; width := w; height := h;
          geom := geom img; range := range img;
          history := history img ++ [PilResize w h] |}.

End PIL.

(** ** torchvision.transforms *)
Module transforms.

(** A size argument: one number or an (h, w) pair. *)
Inductive size_spec :=
| SizeInt (s : Z)
| SizePair (h w : Z).

Definition setup_size (s : size_spec) : Z * Z :=
  match s with
  | SizeInt s => (s, s)
  | SizePair h w => (h, w)
  end.

(** Output (h, w) of Resize: a single number is the length of the
    shorter side, the longer one is [int(size * long / short)]. *)
Definition compute_resized_output_size (h w : Z) (size : size_spec)
  : result (Z * Z) :=
  match size with
  | SizeInt s =>
      let short := if w <=? h then w else h in
      let long := if w <=? h then h else w in
      if short =? 0 then Raise ZeroDivisionError
      else
        let new_short := s in
        let new_long := (s * long) ÷ short in
        Ok (if w <=? h then (new_long, new_short) else (new_short, new_long))
  | SizePair h' w' => Ok (h', w')
  end.

Definition Resize (size : size_spec) (img : picture) : result picture :=
  match compute_resized_output_size (height img) (width img) size with
  | Raise e => Raise e
  | Ok (nh, nw) =>
      if (nw <? 1) || (nh <? 1) then Raise ValueError
      else Ok {| source := source img; width := nw; height := nh;
                 geom := geom img; range := range img;
                 history := history img ++ [TvResize nh nw] |}
  end.

(** [F.pad(img, [l, t, r, b], fill=0)] *)
Definition pad (img : picture) (l t r b : Z) : picture :=
  {| source := source img;
     width := width img + l + r;
     height := height img + t + b;
     geom := window_geom (geom img) (width img) (height img)
               (- t) (- l) (height img + t + b) (width img + l + r);
     range := range img;
     history := history img ++ [TvPad l t r b] |}.

(** [F.crop(img, top, left, h, w)] *)
Definition crop (img : picture) (top left h w : Z) : result picture :=
  if (h <? 0) || (w <? 0) then Raise ValueError
  else Ok {| source := source img; width := w; height := h;
             geom := window_geom (geom img) (width img) (height img)
                       top left h w;
             range := range img;
             history := history img ++ [TvCrop top left h w] |}.

(** [int(round(d / 2.0))]: Python rounds halves to the even neighbour. *)
Definition round_half (d : Z) : Z :=
  let k := d / 2 in
  if d mod 2 =? 0 then k else if Z.even k then k else k + 1.

(** [F.center_crop]: pad a side that is too short, then cut the middle. *)
Definition CenterCrop (size : size_spec) (img : picture) : result picture :=
  let '(crop_height, crop_width) := setup_size size in
  let image_width := width img in
  let image_height := height img in
  let padded := (crop_width >? image_width) || (crop_height >? image_height) in
  let img1 :=
    if padded then
      pad img
        (if crop_width >? image_width then (crop_width - image_width) / 2 else 0)
        (if crop_height >? image_height then (crop_height - image_height) / 2 else 0)
        (if crop_width >? image_width then (crop_width - image_width + 1) / 2 else 0)
        (if crop_height >? image_height then (crop_height - image_height + 1) / 2 else 0)
    else img in
  if padded && (crop_width =? width img1) && (crop_height =? height img1)
  then Ok img1
  else crop img1 (round_half (height img1 - crop_height))
                 (round_half (width img1 - crop_width))
                 crop_height crop_width.

(** [RandomCrop.get_params(img, output_size)] *)
Definition get_params (img : picture) (output_size : Z * Z)
  : M (Z * Z * Z * Z) :=
  let h := height img in
  let w := width img in
  let '(th, tw) := output_size in
  if (h <? th) || (w <? tw) then raise ValueError
  else if (w =? tw) && (h =? th) then ret (0, 0, h, w)
  else
    i <- torch_randint 0 (h - th + 1) ;;
    j <- torch_randint 0 (w - tw + 1) ;;
    ret (i, j, th, tw).

(** [RandomCrop(size)(img)] *)
Definition RandomCrop (size : size_spec) (img : picture) : M picture :=
  p <- get_params img (setup_size size) ;;
  let '(i, j, h, w) := p in
  lift (crop img i j h w).

Definition ToTensor (img : picture) : picture :=
  {| source := source img; width := width img; height := height img;
     geom := geom img; range := Unit;
     history := history img ++ [ToTensorOp] |}.

(** [Normalize([0.5], [0.5])] *)
Definition Normalize (img : picture) : picture :=
  {| source := source img; width := width img; height := height img;
     geom := geom img; range := Signed;
     history := history img ++ [NormalizeOp] |}.

End transforms.

(** ** Python containers *)

(** A record of the index file: a JSON object with string values. *)
Abbreviation item := (gmap string string).

(** [l[idx]]: negative positions count from the end. *)
Definition list_getitem {A} (l : list A) (idx : Z) : result A :=
  let n := Z.of_nat (length l) in
  let i := if idx <? 0 then idx + n else idx in
  if (i <? 0) || (n <=? i) then Raise IndexError
  else match l !! Z.to_nat i with
       | Some a => Ok a
       | None => Raise IndexError
       end.

(** [d[k]] *)
Definition dict_getitem (d : item) (k : string) : result string :=
  match d !! k with
  | Some v => Ok v
  | None => Raise KeyError
  end.

(** Python floats, as far as the datasets use them: comparison, addition,
    and the float [random.random()] makes of a raw draw. *)
Class PyFloat (num : Type) := {
  float_lt : num -> num -> bool;
  float_add : num -> num -> num;
  float_of_draw : Z -> num
}.

(** [random.random()] *)
Definition random_random {num} `{PyFloat num} : M num :=
  d <- py_draw ;; ret (float_of_draw d).

(** The fallback caption. *)
Definition default_prompt : string := "best quality,high quality".

(** [width // 8 * 8] *)
Definition floor_to_multiple_of_8 (x : Z) : Z := (x / 8) * 8.

(** ** BaseDataset (the same text in both files) *)
Module BaseDataset.
Import transforms.

Record t (T : Type) := {
  tokenizer : string -> T;
  control_type : string;
  data : list item
}.
Arguments tokenizer {T} _ _.
Arguments control_type {T} _.
Arguments data {T} _.

Record sample (T : Type) := {
  image : picture;
  text_input_ids : T;
  reference : picture;
  control_image : picture
}.
Arguments image {T} _.
Arguments text_input_ids {T} _.
Arguments reference {T} _.
Arguments control_image {T} _.

Definition short_size : Z := 512.

Definition image_transform (image : picture)
  : M (picture * (Z * Z * Z * Z)) :=
  image <- lift (Resize (SizeInt short_size) image) ;;
  image <- lift (CenterCrop (SizeInt short_size) image) ;;
  ijhw <- get_params image (512, 512) ;;
  (* image = TF.crop(image, i, j, h, w) is commented out *)
  let image := ToTensor image in
  let image := Normalize image in
  ret (image, ijhw).

Definition reference_transform (reference : picture)
  : M picture :=
  reference <- lift (Resize (SizeInt short_size) reference) ;;
  reference <- lift (CenterCrop (SizeInt short_size) reference) ;;
  let reference := ToTensor reference in
  let reference := Normalize reference in
  ret reference.

Definition control_transform (control_image : picture)
    (ijhw : Z * Z * Z * Z) : M picture :=
  control_image <- lift (Resize (SizeInt short_size) control_image) ;;
  control_image <- lift (CenterCrop (SizeInt short_size) control_image) ;;
  (* control_image = TF.crop(control_image, i, j, h, w) is commented out *)
  let control_image := ToTensor control_image in
  ret control_image.

(** The caption that goes to the tokenizer. *)
Definition prompt_of (it : item) : string :=
  match it !! "prompt" with
  | None => default_prompt
  | Some p => if String.eqb p "" then default_prompt else p
  end.

Definition getitem {T} (self : t T) (idx : Z) : M (sample T) :=
  it <- lift (list_getitem (data self) idx) ;;
  path <- lift (dict_getitem it "image") ;;
  image <- PIL.open path ;;
  path <- lift (dict_getitem it "reference") ;;
  reference <- PIL.open path ;;
  control_image <-
    (if String.eqb (control_type self) "canny" then
       path <- lift (dict_getitem it "canny") ;; PIL.open path
     else if String.eqb (control_type self) "pose" then
       path <- lift (dict_getitem it "pose") ;; PIL.open path
     else raise NotImplementedError) ;;
  let prompt := prompt_of it in
  let width := floor_to_multiple_of_8 (width image) in
  let height := floor_to_multiple_of_8 (height image) in
  image <- lift (PIL.resize image width height) ;;
  reference <- lift (PIL.resize reference width height) ;;
  control_image <- lift (PIL.resize control_image width height) ;;
  r <- image_transform image ;;
  let '(image, ijhw) := r in
  reference <- reference_transform reference ;;
  control_image <- control_transform control_image ijhw ;;
  let text_input_ids := tokenizer self prompt in
  ret {| image := image;
         text_input_ids := text_input_ids;
         reference := reference;
         control_image := control_image |}.

End BaseDataset.

(** ** Caption and image-embedding dropout (both LaionHumanSD classes) *)
Definition conditional_dropout {num} `{PyFloat num}
    (i_drop_rate t_drop_rate ti_drop_rate : num)
    (rand_num : num) (prompt : string) : string * Z :=
  let drop_image_embed := 0 in
  if float_lt rand_num i_drop_rate then
    (prompt, 1)
  else if float_lt rand_num (float_add i_drop_rate t_drop_rate) then
    (EmptyString, drop_image_embed)
  else if float_lt rand_num
            (float_add (float_add i_drop_rate t_drop_rate) ti_drop_rate) then
    (EmptyString, 1)
  else (prompt, drop_image_embed).

(** ** The retry of both LaionHumanSD classes

    [try: body except Exception: return self.__getitem__((idx + 1) % n)]
    followed by the rest of the method.  Every exception of [exn] is an
    Exception.  [depth] is the number of nested calls the interpreter
    still allows: the retry in the handler is a call of its own, outside
    the [try], and raises RecursionError when none is left. *)
Fixpoint try_next {B R} (body : Z -> M B) (rest : B -> M R) (n : Z)
    (depth : nat) (idx : Z) : M R :=
  fun w =>
    match body idx w with
    | (Ok b, w') => rest b w'
    | (Raise _, w') =>
        if n =? 0 then (Raise ZeroDivisionError, w')
        else match depth with
             | O => (Raise RecursionError, w')
             | S depth' => try_next body rest n depth' ((idx + 1) mod n) w'
             end
    end.

(** The index and world reached after [k] bodies in a row have raised. *)
Fixpoint skipped {B} (body : Z -> M B) (n : Z) (k : nat) (idx : Z)
    (w : world) : option (Z * world) :=
  match k with
  | O => Some (idx, w)
  | S k' =>
      match body idx w with
      | (Raise _, w') => skipped body n k' ((idx + 1) mod n) w'
      | (Ok _, _) => None
      end
  end.

(** ** dataset2.py *)
Module dataset2.
Import transforms.

Module LaionHumanSD.

(** [data] is the list [construct_data] made of the index file: every
    record has its key under "key" and its path, joined to the data root,
    under "img_path".  [clip_image_processor] is the CLIPImageProcessor of
    the transformers package: taken as a function to its pixel values. *)
Record t (num T C : Type) := {
  data : list item;
  tokenizer : string -> T;
  size : size_spec;
  t_drop_rate : num;
  i_drop_rate : num;
  ti_drop_rate : num;
  clip_image_processor : picture -> result C
}.
Arguments data {num T C} _.
Arguments tokenizer {num T C} _ _.
Arguments size {num T C} _.
Arguments t_drop_rate {num T C} _.
Arguments i_drop_rate {num T C} _.
Arguments ti_drop_rate {num T C} _.
Arguments clip_image_processor {num T C} _ _.

Record sample (T C : Type) := {
  image : picture;
  text_input_ids : T;
  clip_image : C;
  drop_image_embed : Z
}.
Arguments image {T C} _.
Arguments text_input_ids {T C} _.
Arguments clip_image {T C} _.
Arguments drop_image_embed {T C} _.

(** [self.transform]: Resize, CenterCrop, ToTensor, Normalize. *)
Definition transform {num T C} (self : t num T C) (img : picture)
  : M picture :=
  img <- lift (Resize (size self) img) ;;
  img <- lift (CenterCrop (size self) img) ;;
  ret (Normalize (ToTensor img)).

(** The body of the [try]. *)
Definition build {num T C} (self : t num T C) (idx : Z)
  : M (picture * string * C) :=
  it <- lift (list_getitem (data self) idx) ;;
  image_file <- lift (dict_getitem it "img_path") ;;
  raw_image <- PIL.open image_file ;;
  prompt <- lift (dict_getitem it "prompt") ;;
  image <- transform self raw_image ;;
  clip_image <- lift (clip_image_processor self raw_image) ;;
  ret (image, prompt, clip_image).

(** What follows the [try]. *)
Definition finish {num T C} `{PyFloat num} (self : t num T C)
    (b : picture * string * C) : M (sample T C) :=
  let '(image, prompt, clip_image) := b in
  rand_num <- random_random ;;
  let '(prompt, drop_image_embed) :=
    conditional_dropout (i_drop_rate self) (t_drop_rate self)
      (ti_drop_rate self) rand_num prompt in
  let text_input_ids := tokenizer self prompt in
  ret {| image := image;
         text_input_ids := text_input_ids;
         clip_image := clip_image;
         drop_image_embed := drop_image_embed |}.

(** [__getitem__], with the nested calls the interpreter still
    allows. *)
Definition getitem {num T C} `{PyFloat num} (self : t num T C)
    (depth : nat) (idx : Z) : M (sample T C) :=
  try_next (build self) (finish self)
    (Z.of_nat (length (data self))) depth idx.

End LaionHumanSD.

End dataset2.

(** ** Double precision (numpy float64)

    A finite double is taken as the fraction it stands for, and each
    operation of numpy on doubles as the exact operation followed by
    [round]: to the nearest number with a significand of 53 bits, a tie
    going to the even significand (IEEE 754 binary64, round to nearest
    even).  The exponent is not bounded here: overflow to infinity,
    gradual underflow below 2^-1022, NaN and the sign of zero are left
    out; none of them arises from the frame counts this file computes
    with. *)
Module float64.
Local Open Scope Q_scope.

Definition pow2 (k : Z) : Q := 2 ^ k.

(** The integer nearest to [n / d] for [d > 0], a tie going to the even
    one. *)
Definition rne (n d : Z) : Z :=
  let q := (n / d)%Z in
  let r := (n mod d)%Z in
  if (2 * r <? d)%Z then q
  else if (d <? 2 * r)%Z then (q + 1)%Z
  else if Z.even q then q else (q + 1)%Z.

Definition round_int (q : Q) : Z :=
  let q' := Qred q in rne (Qnum q') (Zpos (Qden q')).

(** The [s] with [2^52 <= x * 2^s < 2^53], for [x > 0]. *)
Definition scale (x : Q) : Z :=
  let x' := Qred x in
  let s0 := (52 - (Z.log2 (Qnum x') - Z.log2 (Zpos (Qden x'))))%Z in
  if Qle_bool (pow2 52) (x * pow2 s0) then s0 else (s0 + 1)%Z.

Definition round_pos (x : Q) : Q :=
  let s := scale x in inject_Z (round_int (x * pow2 s)) / pow2 s.

Definition round (x : Q) : Q :=
  match x ?= 0 with
  | Eq => 0
  | Gt => round_pos x
  | Lt => - round_pos (- x)
  end.

(** [float(z)] *)
Definition of_int (z : Z) : Q := round (inject_Z z).

Definition add (a b : Q) : Q := round (a + b).
Definition sub (a b : Q) : Q := round (a - b).
Definition mul (a b : Q) : Q := round (a * b).

(** Only called with a divisor that is not 0. *)
Definition div (a b : Q) : Q := round (a / b).

End float64.

(** ** dataset_laionhuman_w_control.py *)
Module dataset_laionhuman_w_control.
Import transforms.

Module LaionHumanSD.

(** [hed] is the HEDdetector of controlnet_aux, loaded when the
    control type is hed: taken as the size (width, height) of the
    boundary map it returns for a picture of a given size, the map
    showing the whole picture. *)
Record t (num T : Type) := {
  data : list item;
  tokenizer : string -> T;
  size : size_spec;
  t_drop_rate : num;
  i_drop_rate : num;
  ti_drop_rate : num;
  use_control : bool;
  control_type : string;
  hed : Z -> Z -> result (Z * Z)
}.
Arguments data {num T} _.
Arguments tokenizer {num T} _ _.
Arguments size {num T} _.
Arguments t_drop_rate {num T} _.
Arguments i_drop_rate {num T} _.
Arguments ti_drop_rate {num T} _.
Arguments use_control {num T} _.
Arguments control_type {num T} _.
Arguments hed {num T} _ _ _.

Record sample (T : Type) := {
  image : picture;
  text_input_ids : T;
  reference : picture;
  drop_image_embed : Z;
  control_image : option picture
}.
Arguments image {T} _.
Arguments text_input_ids {T} _.
Arguments reference {T} _.
Arguments drop_image_embed {T} _.
Arguments control_image {T} _.

(** [self.transform]: Resize, RandomCrop, ToTensor, Normalize. *)
Definition transform {num T} (self : t num T) (img : picture)
  : M picture :=
  img <- lift (Resize (size self) img) ;;
  img <- RandomCrop (size self) img ;;
  ret (Normalize (ToTensor img)).

(** [control_transform]; the argument is still None when no branch
    assigned it, and Resize refuses None. *)
Definition control_transform {num T} (self : t num T)
    (control_image : option picture) : M picture :=
  match control_image with
  | None => raise TypeError
  | Some control_image =>
      control_image <- lift (Resize (size self) control_image) ;;
      control_image <- lift (CenterCrop (size self) control_image) ;;
      ret (ToTensor control_image)
  end.

(** [cv2.Canny(np.array(raw_image), 100, 200)], three channels. *)
Definition canny (raw_image : picture) : picture :=
  {| source := source raw_image;
     width := width raw_image; height := height raw_image;
     geom := geom raw_image; range := Bytes;
     history := history raw_image ++ [CannyOp 100 200] |}.

(** [self.hed(raw_image)] *)
Definition run_hed {num T} (self : t num T) (raw_image : picture)
  : result picture :=
  match hed self (width raw_image) (height raw_image) with
  | Raise e => Raise e
  | Ok (w, h) =>
      Ok {| source := source raw_image; width := w; height := h;
            geom := geom raw_image; range := Bytes;
            history := history raw_image ++ [HedOp] |}
  end.

(** The body of the [try]. *)
Definition build {num T} (self : t num T) (idx : Z)
  : M (picture * picture * option picture * string) :=
  it <- lift (list_getitem (data self) idx) ;;
  image_file <- lift (dict_getitem it "img_path") ;;
  raw_image <- PIL.open image_file ;;
  prompt <- lift (dict_getitem it "prompt") ;;
  image <- transform self raw_image ;;
  reference <- transform self raw_image ;;
  control_image <-
    (if use_control self then
       control_image <-
         (if String.eqb (control_type self) "canny" then
            ret (Some (canny raw_image))
          else if String.eqb (control_type self) "hed" then
            c <- lift (run_hed self raw_image) ;; ret (Some c)
          else ret None) ;;
       c <- control_transform self control_image ;;
       ret (Some c)
     else ret None) ;;
  ret (image, reference, control_image, prompt).

(** What follows the [try]. *)
Definition finish {num T} `{PyFloat num} (self : t num T)
    (b : picture * picture * option picture * string) : M (sample T) :=
  let '(image, reference, control_image, prompt) := b in
  rand_num <- random_random ;;
  let '(prompt, drop_image_embed) :=
    conditional_dropout (i_drop_rate self) (t_drop_rate self)
      (ti_drop_rate self) rand_num prompt in
  let text_input_ids := tokenizer self prompt in
  ret {| image := image;
         text_input_ids := text_input_ids;
         reference := reference;
         drop_image_embed := drop_image_embed;
         control_image := control_image |}.

(** [__getitem__], with the nested calls the interpreter still
    allows. *)
Definition getitem {num T} `{PyFloat num} (self : t num T)
    (depth : nat) (idx : Z) : M (sample T) :=
  try_next (build self) (finish self)
    (Z.of_nat (length (data self))) depth idx.

End LaionHumanSD.

Module BaseVideoDataset.

Record t (T : Type) := {
  tokenizer : string -> T;
  short_size : Z;
  control_type : string;
  sample_stride : Z;
  sample_n_frames : Z;
  data : list item
}.
Arguments tokenizer {T} _ _.
Arguments short_size {T} _.
Arguments control_type {T} _.
Arguments sample_stride {T} _.
Arguments sample_n_frames {T} _.
Arguments data {T} _.

Record sample (T : Type) := {
  video : list picture;
  text_input_ids : T;
  reference : picture;
  control_video : list picture
}.
Arguments video {T} _.
Arguments text_input_ids {T} _.
Arguments reference {T} _.
Arguments control_video {T} _.

Definition image_transform {T} (self : t T) (image : picture)
  : result picture :=
  match Resize (SizeInt (short_size self)) image with
  | Raise e => Raise e
  | Ok image =>
      match CenterCrop (SizeInt (short_size self)) image with
      | Raise e => Raise e
      | Ok image => Ok (Normalize (ToTensor image))
      end
  end.

Definition reference_transform {T} (self : t T) (reference : picture)
  : result picture := image_transform self reference.

Definition control_transform {T} (self : t T) (control_image : picture)
  : result picture :=
  match Resize (SizeInt (short_size self)) control_image with
  | Raise e => Raise e
  | Ok control_image =>
      match CenterCrop (SizeInt (short_size self)) control_image with
      | Raise e => Raise e
      | Ok control_image => Ok (ToTensor control_image)
      end
  end.

(** Sample [i] of [np.linspace(start, stop, num)], a double.  numpy
    turns [start] and [stop] into doubles, takes [delta = stop - start]
    and [y = arange(0, num)] as doubles, and then
    [if div > 0: step = delta / div; y = y / div * delta if step == 0
    else y * step] [else: y = y * delta]; [y += start]; the last sample
    is set to [stop] when [num > 1]. *)
Definition linspace_y (start stop num i : Z) : Q :=
  let div := num - 1 in
  let start := float64.of_int start in
  let stop := float64.of_int stop in
  let delta := float64.sub stop start in
  let y := float64.of_int i in
  let y :=
    if 0 <? div then
      let step := float64.div delta (float64.of_int div) in
      if Qeq_bool step 0
      then float64.mul (float64.div y (float64.of_int div)) delta
      else float64.mul y step
    else float64.mul y delta in
  let y := float64.add y start in
  if (1 <? num) && (i =? num - 1) then stop else y.

(** [np.linspace(start, stop, num, dtype=int)]: the [num] samples,
    each brought down to an integer by [floor] and [astype(int)]. *)
Definition linspace (start stop num : Z) : result (list Z) :=
  if num <? 0 then Raise ValueError
  else Ok ((fun i : Z => Qfloor (linspace_y start stop num i)) <$> seqZ 0 num).

(** Lines 326-328: the frames of the clip. *)
Definition select_window {T} (self : t T) (video_length : Z)
  : M (Z * Z * list Z) :=
  let clip_length :=
    Z.min video_length
          ((sample_n_frames self - 1) * sample_stride self + 1) in
  start_idx <- random_randint 0 (video_length - clip_length) ;;
  batch_index <-
    lift (linspace start_idx (start_idx + clip_length - 1)
            (sample_n_frames self)) ;;
  ret (clip_length, start_idx, batch_index).

Fixpoint zero_digits (n : nat) : string :=
  match n with
  | O => EmptyString
  | S n' => String "0"%char (zero_digits n')
  end.

(** [s.zfill(width)] *)
Definition zfill (width : nat) (s : string) : string :=
  let zeros := zero_digits (width - String.length s) in
  match s with
  | String "-"%char rest => String "-"%char (zeros +:+ rest)
  | String "+"%char rest => String "+"%char (zeros +:+ rest)
  | _ => zeros +:+ s
  end.

(** [os.listdir] *)
Definition listdir (path : string) : M (list string) :=
  fun w => match dirs w path with
           | Some l => (Ok l, w)
           | None => (Raise OSError, w)
           end.

Fixpoint mapM {A B} (f : A -> M B) (l : list A) : M (list B) :=
  match l with
  | [] => ret []
  | a :: l' => b <- f a ;; bs <- mapM f l' ;; ret (b :: bs)
  end.

Definition getitem {T} (self : t T) (idx : Z) : M (sample T) :=
  it <- lift (list_getitem (data self) idx) ;;
  role_root <- lift (dict_getitem it "role_root") ;;
  all_images <- listdir (role_root +:+ "/images") ;;
  let video_length := Z.of_nat (length all_images) in
  win <- select_window self video_length ;;
  let '(_, _, batch_index) := win in
  frames <-
    mapM (fun idx : Z =>
            let idx := zfill 4 (pretty (idx + 1)) in
            image <- PIL.open (role_root +:+ "/images/" +:+ idx +:+ ".png") ;;
            control_image <-
              PIL.open (role_root +:+ "/" +:+ control_type self
                          +:+ "/" +:+ idx +:+ ".png") ;;
            ret (image, control_image))
         batch_index ;;
  let image_list := fst <$> frames in
  let control_list := snd <$> frames in
  reference <- lift (list_getitem image_list 0) ;;
  let prompt := BaseDataset.prompt_of it in
  let width := floor_to_multiple_of_8 (width reference) in
  let height := floor_to_multiple_of_8 (height reference) in
  reference <- lift (PIL.resize reference width height) ;;
  image_list <-
    mapM (fun image => lift (PIL.resize image width height)) image_list ;;
  control_list <-
    mapM (fun c => lift (PIL.resize c width height)) control_list ;;
  reference <- lift (reference_transform self reference) ;;
  image_list <-
    mapM (fun image => lift (image_transform self image)) image_list ;;
  control_list <-
    mapM (fun c => lift (control_transform self c)) control_list ;;
  let text_input_ids := tokenizer self prompt in
  ret {| video := image_list;
         text_input_ids := text_input_ids;
         reference := reference;
         control_video := control_list |}.

End BaseVideoDataset.

End dataset_laionhuman_w_control.

(** ** Exact fractions as floats

    Rates and draws as fractions: the sums of the dropout thresholds are
    then exact.  [random.random()] is a 53-bit draw over 2^53. *)
#[export] Instance PyFloat_Q : PyFloat Q := {|
  float_lt a b := negb (Qle_bool b a);
  float_add := Qplus;
  float_of_draw d := Qmake (d mod 2 ^ 53) (2 ^ 53)
|}.


(** ** Building the index *)

(** [os.path.join(a, b)] on POSIX paths: an absolute [b] replaces [a], an
    empty [a] or one that ends with the separator takes [b] as it is,
    otherwise the separator goes in between. *)
Definition starts_with_sep (s : string) : bool :=
  match s with
  | String c _ => Ascii.eqb c "/"%char
  | EmptyString => false
  end.

Fixpoint ends_with_sep (s : string) : bool :=
  match s with
  | EmptyString => false
  | String c EmptyString => Ascii.eqb c "/"%char
  | String _ rest => ends_with_sep rest
  end.

Definition path_join (a b : string) : string :=
  if starts_with_sep b then b
  else if String.eqb a EmptyString || ends_with_sep a then a +:+ b
  else a +:+ "/" +:+ b.

(** The index of LaionHumanSD as [json.load] returns it: the records
    under their keys, in the order of the file. *)
Abbreviation json_object := (list (string * item)).

(** The two loops of LaionHumanSD over the index (the same text in both
    files; dataset2 fixes the data root in the constructor). *)
Module LaionHumanSD_index.

(** [construct_data]: each record gets its key under "key" and its path
    joined to the data root. *)
Fixpoint construct_data (data_root : string) (data : json_object)
  : result (list item) :=
  match data with
  | [] => Ok []
  | (key, each) :: rest =>
      let each := <["key" := key]> each in
      match dict_getitem each "img_path" with
      | Raise e => Raise e
      | Ok p =>
          let each := <["img_path" := path_join data_root p]> each in
          match construct_data data_root rest with
          | Raise e => Raise e
          | Ok filter_data => Ok (each :: filter_data)
          end
      end
  end.

(** [remove_not_exist]: the same, keeping the records whose joined path
    [os.path.exists] finds. *)
Fixpoint remove_not_exist (path_exists : string -> bool)
    (data_root : string) (data : json_object) : result (list item) :=
  match data with
  | [] => Ok []
  | (key, each) :: rest =>
      let each := <["key" := key]> each in
      match dict_getitem each "img_path" with
      | Raise e => Raise e
      | Ok p =>
          let each := <["img_path" := path_join data_root p]> each in
          match remove_not_exist path_exists data_root rest with
          | Raise e => Raise e
          | Ok filter_data =>
              Ok (if path_exists (path_join data_root p)
                  then each :: filter_data else filter_data)
          end
      end
  end.

End LaionHumanSD_index.

(** [construct_data] of BaseDataset and BaseVideoDataset (the same text):
    the argument is one path or a list of paths; [reader] gives the
    records of a JSONL file, or the exception opening or parsing it
    raises. *)
Module jsonl_index.

Inductive json_file_arg :=
| OnePath (json_file : string)
| Paths (json_file_list : list string).

Fixpoint read_files (reader : string -> result (list item))
    (json_file_list : list string) : result (list item) :=
  match json_file_list with
  | [] => Ok []
  | json_file :: rest =>
      match reader json_file with
      | Raise e => Raise e
      | Ok records =>
          match read_files reader rest with
          | Raise e => Raise e
          | Ok data => Ok (records ++ data)
          end
      end
  end.

Definition construct_data (reader : string -> result (list item))
    (json_file_list : json_file_arg) : result (list item) :=
  let json_file_list :=
    match json_file_list with
    | OnePath s => [s]
    | Paths l => l
    end in
  read_files reader json_file_list.

End jsonl_index.
(** ** Relations between pictures *)

(** Same frame: same size and same map to the source. *)
Definition same_frame (a b : picture) : Prop :=
  width a = width b /\ height a = height b /\ geom a = geom b.

(** The steps of [a] are the first steps of [b]. *)
Definition extends (a b : picture) : Prop :=
  exists l, history b = history a ++ l.

(** ** Inputs the statements below are evaluated on *)

Definition mk_picture (path : string) (w h : Z) : picture :=
  {| source := path; width := w; height := h;
     geom := geom_id; range := Bytes; history := [] |}.

(** Two pictures on disk, a wide one and a tiny one; no draw but 0. *)
Definition disk (path : string) : option (Z * Z) :=
  if String.eqb path "wide.png" then Some (1024, 512)
  else if String.eqb path "edges.png" then Some (2048, 1024)
  else if String.eqb path "tall.png" then Some (517, 1000)
  else None.

Definition world0 : world :=
  {| fs := disk; dirs := fun _ => None;
     torch_rng := fun _ => 0; py_rng := fun _ => 0 |}.

(** A world whose Python draws are all [d]. *)
Definition world_py (d : Z) : world :=
  {| fs := disk; dirs := fun _ => None;
     torch_rng := fun _ => 0; py_rng := fun _ => d |}.

(** A BaseDataset of one record; the tokenizer hands the caption back. *)
Definition base_item (prompt : option string) : item :=
  let it : item :=
    {[ "image" := "wide.png"; "reference" := "tall.png";
       "canny" := "edges.png" ]} in
  match prompt with
  | Some p => <["prompt" := p]> it
  | None => it
  end.

Definition base_ds (prompt : option string) : BaseDataset.t string :=
  {| BaseDataset.tokenizer := fun p => p;
     BaseDataset.control_type := "canny";
     BaseDataset.data := [base_item prompt] |}.

(** Records of the LaionHumanSD index, after [construct_data]. *)
Definition laion_item (path : string) (prompt : option string) : item :=
  let it : item := {[ "img_path" := path; "key" := "0" ]} in
  match prompt with
  | Some p => <["prompt" := p]> it
  | None => it
  end.

Definition rate : Q := 5 # 100.

(** dataset2.LaionHumanSD over given records; the tokenizer hands the
    caption back and the CLIP processor returns nothing of interest. *)
Definition laion2_ds (records : list item)
  : dataset2.LaionHumanSD.t Q string unit :=
  {| dataset2.LaionHumanSD.data := records;
     dataset2.LaionHumanSD.tokenizer := fun p => p;
     dataset2.LaionHumanSD.size := transforms.SizePair 512 512;
     dataset2.LaionHumanSD.t_drop_rate := rate;
     dataset2.LaionHumanSD.i_drop_rate := rate;
     dataset2.LaionHumanSD.ti_drop_rate := rate;
     dataset2.LaionHumanSD.clip_image_processor := fun _ => Ok tt |}.

(** The control-enabled LaionHumanSD over given records. *)
Definition laion_ds (records : list item) (size : transforms.size_spec)
    (use_control : bool) (control_type : string)
  : dataset_laionhuman_w_control.LaionHumanSD.t Q string :=
  {| dataset_laionhuman_w_control.LaionHumanSD.data := records;
     dataset_laionhuman_w_control.LaionHumanSD.tokenizer := fun p => p;
     dataset_laionhuman_w_control.LaionHumanSD.size := size;
     dataset_laionhuman_w_control.LaionHumanSD.t_drop_rate := rate;
     dataset_laionhuman_w_control.LaionHumanSD.i_drop_rate := rate;
     dataset_laionhuman_w_control.LaionHumanSD.ti_drop_rate := rate;
     dataset_laionhuman_w_control.LaionHumanSD.use_control := use_control;
     dataset_laionhuman_w_control.LaionHumanSD.control_type := control_type;
     dataset_laionhuman_w_control.LaionHumanSD.hed := fun w h => Ok (w, h) |}.

(** A world whose torch draws are 0, 100, 200, ... and whose Python draws
    are all 2^52, so that [random.random()] is one half. *)
Definition world_torch : world :=
  {| fs := disk; dirs := fun _ => None;
     torch_rng := fun n => Z.of_nat n * 100; py_rng := fun _ => 2 ^ 52 |}.

(** Two records, the first naming a file that is not there. *)
Definition two_records : list item :=
  [laion_item "missing.png" (Some "a man"); laion_item "wide.png" (Some "a dog")].

(** ** Order on floats, from the comparison the code uses *)



(** The video dataset with its default stride and frame count. *)
Definition video_ds : dataset_laionhuman_w_control.BaseVideoDataset.t string :=
  {| dataset_laionhuman_w_control.BaseVideoDataset.tokenizer := fun p => p;
     dataset_laionhuman_w_control.BaseVideoDataset.short_size := 512;
     dataset_laionhuman_w_control.BaseVideoDataset.control_type := "canny";
     dataset_laionhuman_w_control.BaseVideoDataset.sample_stride := 4;
     dataset_laionhuman_w_control.BaseVideoDataset.sample_n_frames := 24;
     dataset_laionhuman_w_control.BaseVideoDataset.data := [] |}.

(** The point the doubles of linspace stand near: sample [i] of [div]
    steps from [start] to [start + delta], with the three roundings of
    numpy. *)
Definition interp (start delta div i : Z) : Q :=
  float64.round
    (float64.round (inject_Z i * float64.round (inject_Z delta / inject_Z div))
     + inject_Z start)%Q.

(** The video dataset asked for 50 frames. *)
Definition video50_ds : dataset_laionhuman_w_control.BaseVideoDataset.t string :=
  {| dataset_laionhuman_w_control.BaseVideoDataset.tokenizer := fun p => p;
     dataset_laionhuman_w_control.BaseVideoDataset.short_size := 512;
     dataset_laionhuman_w_control.BaseVideoDataset.control_type := "canny";
     dataset_laionhuman_w_control.BaseVideoDataset.sample_stride := 4;
     dataset_laionhuman_w_control.BaseVideoDataset.sample_n_frames := 50;
     dataset_laionhuman_w_control.BaseVideoDataset.data := [] |}.

(** ** Computations that leave the world as it is *)
Definition keeps_world {A} (c : M A) : Prop := forall w, snd (c w) = w.

(** A BaseDataset whose one record names a picture 7 pixels wide. *)
Definition disk_small (path : string) : option (Z * Z) :=
  if String.eqb path "thin.png" then Some (7, 100) else disk path.

Definition world_small : world :=
  {| fs := disk_small; dirs := fun _ => None;
     torch_rng := fun _ => 0; py_rng := fun _ => 0 |}.

Definition thin_ds : BaseDataset.t string :=
  {| BaseDataset.tokenizer := fun p => p;
     BaseDataset.control_type := "pose";
     BaseDataset.data :=
       [ {[ "image" := "thin.png"; "reference" := "wide.png";
            "pose" := "edges.png" ]} ] |}.

(** A world with no picture at all. *)
Definition world_bare : world :=
  {| fs := fun _ => None; dirs := fun _ => None;
     torch_rng := fun _ => 0; py_rng := fun _ => 0 |}.

(** Three records: two that cannot be read, then one that can. *)
Definition three_records : list item :=
  [laion_item "missing.png" (Some "a man");
   laion_item "wide.png" None;
   laion_item "wide.png" (Some "a dog")].

(** [os.path.exists(each['img_path'])] on a record of the index. *)
Definition record_exists (path_exists : string -> bool) (each : item) : bool :=
  match each !! "img_path" with
  | Some p => path_exists p
  | None => false
  end.

(** An index of two records, and a file system that has the first. *)
Definition index_json : json_object :=
  [("id0", {[ "img_path" := "a/0.jpg"; "prompt" := "a man" ]});
   ("id1", {[ "img_path" := "/abs/1.jpg"; "prompt" := "a dog" ]})].

Definition only_first (path : string) : bool := String.eqb path "root/a/0.jpg".

(** ** Frames of a clip *)

(** The file name of frame [idx]: [str(idx + 1).zfill(4)]. *)
Definition frame_name (idx : Z) : string :=
  dataset_laionhuman_w_control.BaseVideoDataset.zfill 4 (pretty (idx + 1)).

(** A tensor of side [side] in value range [r], made of the file [path]. *)
Definition frame_of (path : string) (side : Z) (r : value_range)
    (p : picture) : Prop :=
  source p = path /\ width p = side /\ height p = side /\ range p = r.

(** The number a string of decimal digits stands for, read from the
    left; [acc] is the number read so far. *)
Fixpoint read_decimal (acc : N) (s : string) : N :=
  match s with
  | EmptyString => acc
  | String c rest =>
      read_decimal (acc * 10 + (N.of_nat (nat_of_ascii c) - 48))%N rest
  end.

(** A role with a ten-frame clip on disk: frames 0001 to 0010. *)
Definition clip_names : list string :=
  ["0001.png"; "0002.png"; "0003.png"; "0004.png"; "0005.png";
   "0006.png"; "0007.png"; "0008.png"; "0009.png"; "0010.png"].

Definition world_clip : world :=
  {| fs := fun path =>
             if String.prefix "role/images/" path then Some (640, 360)
             else if String.prefix "role/canny/" path then Some (640, 360)
             else None;
     dirs := fun path =>
               if String.eqb path "role/images" then Some clip_names else None;
     torch_rng := fun _ => 0; py_rng := fun _ => 0 |}.

Definition clip_ds : dataset_laionhuman_w_control.BaseVideoDataset.t string :=
  {| dataset_laionhuman_w_control.BaseVideoDataset.tokenizer := fun p => p;
     dataset_laionhuman_w_control.BaseVideoDataset.short_size := 512;
     dataset_laionhuman_w_control.BaseVideoDataset.control_type := "canny";
     dataset_laionhuman_w_control.BaseVideoDataset.sample_stride := 4;
     dataset_laionhuman_w_control.BaseVideoDataset.sample_n_frames := 3;
     dataset_laionhuman_w_control.BaseVideoDataset.data :=
       [ {[ "role_root" := "role" ]} ] |}.

(** The same role with a clip of 120 frames, 50 of them asked for. *)
Definition long_clip_names : list string :=
  (fun i : Z => frame_name i +:+ ".png") <$> seqZ 0 120.

Definition world_long_clip : world :=
  {| fs := fs world_clip;
     dirs := fun path =>
               if String.eqb path "role/images" then Some long_clip_names
               else None;
     torch_rng := fun _ => 0; py_rng := fun _ => 0 |}.

Definition clip50_ds : dataset_laionhuman_w_control.BaseVideoDataset.t string :=
  {| dataset_laionhuman_w_control.BaseVideoDataset.tokenizer := fun p => p;
     dataset_laionhuman_w_control.BaseVideoDataset.short_size := 512;
     dataset_laionhuman_w_control.BaseVideoDataset.control_type := "canny";
     dataset_laionhuman_w_control.BaseVideoDataset.sample_stride := 4;
     dataset_laionhuman_w_control.BaseVideoDataset.sample_n_frames := 50;
     dataset_laionhuman_w_control.BaseVideoDataset.data :=
       [ {[ "role_root" := "role" ]} ] |}.

(** * Properties *)

(** ** The effect monad *)

Lemma bind_ok {A B} (c : M A) (k : A -> M B) w b w' :
  bind c k w = (Ok b, w') ->
  exists a w1, c w = (Ok a, w1) /\ k a w1 = (Ok b, w').
Proof.
  unfold bind. destruct (c w) as [[a|e] w1]; intros E.
  - eauto.
  - discriminate.
Qed.

Lemma lift_ok {A} (r : result A) w a w' :
  lift r w = (Ok a, w') -> r = Ok a /\ w' = w.
Proof. unfold lift. intros E. injection E as -> ->. auto. Qed.

Lemma ret_ok {A} (x : A) w a w' : ret x w = (Ok a, w') -> a = x /\ w' = w.
Proof. unfold ret. intros E. injection E as -> ->. auto. Qed.

Lemma open_ok path w p w' :
  PIL.open path w = (Ok p, w') ->
  exists wd ht, fs w path = Some (wd, ht) /\ p = mk_picture path wd ht /\ w' = w.
Proof.
  unfold PIL.open. destruct (fs w path) as [[wd ht]|]; intros E.
  - injection E as <- <-. eauto.
  - discriminate.
Qed.

(** ** torchvision steps *)

Lemma same_frame_aligned a b : same_frame a b -> aligned a b.
Proof.
  intros (Hw & Hh & Hg). repeat split; auto; unfold src_loc;
    rewrite Hw, Hh, Hg; reflexivity.
Qed.

Lemma quot_scale_ge (s long short : Z) :
  0 < s -> 0 < short -> short <= long -> s <= (s * long) ÷ short.
Proof.
  intros Hs Hsh Hl.
  rewrite Z.quot_div_nonneg by nia.
  apply Z.div_le_lower_bound; nia.
Qed.

Lemma Resize_int_ok (s : Z) (img : picture) :
  0 < s -> 0 < width img -> 0 < height img ->
  exists out, transforms.Resize (transforms.SizeInt s) img = Ok out /\
    s <= width out /\ s <= height out /\ geom out = geom img.
Proof.
  intros Hs Hw Hh. unfold transforms.Resize, transforms.compute_resized_output_size.
  destruct (Z.leb_spec (width img) (height img)) as [Hle|Hlt].
  - destruct (Z.eqb_spec (width img) 0) as [E|_]; [lia|].
    pose proof (quot_scale_ge s (height img) (width img) Hs Hw Hle) as Hq.
    destruct (Z.ltb_spec s 1); [lia|].
    destruct (Z.ltb_spec ((s * height img) ÷ width img) 1); [lia|].
    simpl. eexists; split; [reflexivity|]. simpl. repeat split; lia.
  - destruct (Z.eqb_spec (height img) 0) as [E|_]; [lia|].
    assert (Hle : height img <= width img) by lia.
    pose proof (quot_scale_ge s (width img) (height img) Hs Hh Hle) as Hq.
    destruct (Z.ltb_spec ((s * width img) ÷ height img) 1); [lia|].
    destruct (Z.ltb_spec s 1); [lia|].
    simpl. eexists; split; [reflexivity|]. simpl. repeat split; lia.
Qed.

Lemma Resize_pair_ok (h w : Z) (img : picture) out :
  transforms.Resize (transforms.SizePair h w) img = Ok out ->
  width out = w /\ height out = h /\ geom out = geom img /\ 1 <= w /\ 1 <= h.
Proof.
  unfold transforms.Resize. simpl.
  destruct (Z.ltb_spec w 1); simpl; [discriminate|].
  destruct (Z.ltb_spec h 1); simpl; [discriminate|].
  intros E. injection E as <-. simpl. repeat split; lia.
Qed.

(** A picture at least as large as the crop is cut, never padded. *)
Lemma CenterCrop_large (s : Z) (img : picture) :
  0 <= s -> s <= width img -> s <= height img ->
  transforms.CenterCrop (transforms.SizeInt s) img =
  transforms.crop img (transforms.round_half (height img - s))
    (transforms.round_half (width img - s)) s s.
Proof.
  intros Hs Hw Hh. unfold transforms.CenterCrop. simpl.
  destruct (Z.gtb_spec s (width img)); [lia|].
  destruct (Z.gtb_spec s (height img)); [lia|].
  reflexivity.
Qed.

Lemma crop_ok (img : picture) top left h w :
  0 <= h -> 0 <= w ->
  exists out, transforms.crop img top left h w = Ok out /\
    width out = w /\ height out = h /\
    geom out = window_geom (geom img) (width img) (height img) top left h w.
Proof.
  intros Hh Hw. unfold transforms.crop.
  destruct (Z.ltb_spec h 0); [lia|].
  destruct (Z.ltb_spec w 0); [lia|].
  simpl. eexists; split; [reflexivity|]. auto.
Qed.

Lemma torch_randint_range lo hi w :
  lo < hi ->
  exists v w', torch_randint lo hi w = (Ok v, w') /\ lo <= v < hi.
Proof.
  intros H. unfold torch_randint.
  destruct (Z.leb_spec hi lo); [lia|].
  do 2 eexists; split; [reflexivity|].
  pose proof (Z.mod_pos_bound (torch_rng w 0%nat) (hi - lo)). lia.
Qed.

(** C8: for a picture at least as large as the requested output size,
    [RandomCrop.get_params] returns, whatever the generator draws, a
    window (top, left, h, w) inside the picture: top >= 0, left >= 0,
    top + h <= height and left + w <= width. *)
Theorem get_params_inside_image (img : picture) (th tw : Z) (w : world) :
  th <= height img -> tw <= width img ->
  exists top left h wd w',
    transforms.get_params img (th, tw) w = (Ok (top, left, h, wd), w') /\
    0 <= top /\ 0 <= left /\
    top + h <= height img /\ left + wd <= width img.
Proof.
  intros Hh Hw. unfold transforms.get_params.
  destruct (Z.ltb_spec (height img) th); [lia|].
  destruct (Z.ltb_spec (width img) tw); [lia|]. simpl.
  destruct (Z.eqb_spec (width img) tw) as [Ew|Nw];
    destruct (Z.eqb_spec (height img) th) as [Eh|Nh]; simpl.
  1: { exists 0, 0, (height img), (width img), w. unfold ret.
       split; [reflexivity|]. lia. }
  all: destruct (torch_randint_range 0 (height img - th + 1) w) as (i & w1 & Ei & Hi);
    [lia|];
    destruct (torch_randint_range 0 (width img - tw + 1) w1) as (j & w2 & Ej & Hj);
    [lia|];
    exists i, j, th, tw, w2; unfold bind; rewrite Ei, Ej; unfold ret;
    (split; [reflexivity|lia]).
Qed.

Lemma get_params_inside_image_witness :
  exists top left h wd w',
    transforms.get_params (mk_picture "wide.png" 1024 512) (512, 512) world0
      = (Ok (top, left, h, wd), w') /\
    0 <= top /\ 0 <= left /\ top + h <= 512 /\ left + wd <= 1024.
Proof.
  apply (get_params_inside_image (mk_picture "wide.png" 1024 512) 512 512 world0);
    simpl; lia.
Defined.

(** What CenterCrop returns has the requested size. *)
Lemma CenterCrop_size (size : transforms.size_spec) (img out : picture) :
  transforms.CenterCrop size img = Ok out ->
  width out = snd (transforms.setup_size size) /\
  height out = fst (transforms.setup_size size).
Proof.
  unfold transforms.CenterCrop.
  destruct (transforms.setup_size size) as [ch cw]. cbv zeta.
  set (padded := (cw >? width img) || (ch >? height img)).
  set (img1 := if padded then _ else img).
  destruct (padded && (cw =? width img1) && (ch =? height img1)) eqn:Q.
  - intros E. injection E as <-.
    apply andb_prop in Q as (Q & Q2). apply andb_prop in Q as (_ & Q1).
    apply Z.eqb_eq in Q1, Q2. simpl. auto.
  - unfold transforms.crop. destruct ((ch <? 0) || (cw <? 0)); [discriminate|].
    intros E. injection E as <-. simpl. auto.
Qed.

(** ** BaseDataset.image_transform *)

Lemma get_params_exact (img : picture) (w : world) :
  transforms.get_params img (height img, width img) w
  = (Ok (0, 0, height img, width img), w).
Proof.
  unfold transforms.get_params.
  rewrite !Z.ltb_irrefl, !Z.eqb_refl. reflexivity.
Qed.

Lemma resize_center_crop_ok (s : Z) (img : picture) :
  0 < s -> 0 < width img -> 0 < height img ->
  exists r c,
    transforms.Resize (transforms.SizeInt s) img = Ok r /\
    transforms.CenterCrop (transforms.SizeInt s) r = Ok c /\
    width c = s /\ height c = s.
Proof.
  intros Hs Hw Hh.
  destruct (Resize_int_ok s img Hs Hw Hh) as (r & Er & Hrw & Hrh & _).
  destruct (crop_ok r (transforms.round_half (height r - s))
              (transforms.round_half (width r - s)) s s) as (c & Ec & Hcw & Hch & _);
    [lia|lia|].
  exists r, c. rewrite CenterCrop_large by lia. auto.
Qed.

Lemma image_transform_ok (img : picture) (w : world) :
  0 < width img -> 0 < height img ->
  exists out,
    BaseDataset.image_transform img w = (Ok (out, (0, 0, 512, 512)), w) /\
    width out = 512 /\ height out = 512.
Proof.
  intros Hw Hh.
  destruct (resize_center_crop_ok 512 img) as (r & c & Er & Ec & Hcw & Hch);
    [lia|assumption|assumption|].
  unfold BaseDataset.image_transform, BaseDataset.short_size, bind, lift.
  rewrite Er, Ec.
  pose proof (get_params_exact c w) as G. rewrite Hcw, Hch in G. rewrite G.
  unfold ret. eexists; split; [reflexivity|]. simpl. auto.
Qed.

(** Whatever picture comes in, a tuple that comes out is the whole frame,
    and no draw was taken. *)
Lemma image_transform_params (img : picture) (w w' : world) out ijhw :
  BaseDataset.image_transform img w = (Ok (out, ijhw), w') ->
  ijhw = (0, 0, 512, 512) /\ w' = w /\ width out = 512 /\ height out = 512.
Proof.
  unfold BaseDataset.image_transform, BaseDataset.short_size. intros E.
  apply bind_ok in E as (r & w1 & Er & E). apply lift_ok in Er as (Er & ->).
  apply bind_ok in E as (c & w2 & Ec & E). apply lift_ok in Ec as (Ec & ->).
  apply CenterCrop_size in Ec as (Hcw & Hch). simpl in Hcw, Hch.
  apply bind_ok in E as (p & w3 & Ep & E).
  pose proof (get_params_exact c w) as G. rewrite Hcw, Hch in G.
  rewrite G in Ep. injection Ep as <- <-.
  apply ret_ok in E as (E & ->).
  injection E as Eo Ep. subst out ijhw. simpl. auto.
Qed.

(** C9: in [BaseDataset.image_transform] the crop parameters are sampled
    on the picture already centre-cropped to 512 x 512, with output size
    (512, 512); so for every picture (both sides positive) and every state
    of the generator the tuple (i, j, h, w) is (0, 0, 512, 512): two runs,
    on the same picture or on two, return the same parameters. *)
Theorem image_transform_crop_params_constant
    (img1 img2 : picture) (w1 w2 : world) :
  0 < width img1 -> 0 < height img1 ->
  0 < width img2 -> 0 < height img2 ->
  exists out1 out2,
    BaseDataset.image_transform img1 w1 = (Ok (out1, (0, 0, 512, 512)), w1) /\
    BaseDataset.image_transform img2 w2 = (Ok (out2, (0, 0, 512, 512)), w2).
Proof.
  intros Hw1 Hh1 Hw2 Hh2.
  destruct (image_transform_ok img1 w1 Hw1 Hh1) as (o1 & E1 & _).
  destruct (image_transform_ok img2 w2 Hw2 Hh2) as (o2 & E2 & _).
  exists o1, o2. auto.
Qed.

Lemma image_transform_crop_params_constant_witness :
  exists out1 out2,
    BaseDataset.image_transform (mk_picture "wide.png" 1024 512) world0
      = (Ok (out1, (0, 0, 512, 512)), world0) /\
    BaseDataset.image_transform (mk_picture "tall.png" 517 1000) (world_py 7)
      = (Ok (out2, (0, 0, 512, 512)), world_py 7).
Proof.
  apply (image_transform_crop_params_constant
           (mk_picture "wide.png" 1024 512) (mk_picture "tall.png" 517 1000)
           world0 (world_py 7)); simpl; lia.
Defined.

(** ** BaseDataset.__getitem__ *)

Lemma dict_getitem_ok (it : item) (k v : string) :
  dict_getitem it k = Ok v -> it !! k = Some v.
Proof. unfold dict_getitem. destruct (it !! k); intros E; now inversion E. Qed.

Lemma reference_transform_world ref w out w' :
  BaseDataset.reference_transform ref w = (Ok out, w') -> w' = w.
Proof.
  unfold BaseDataset.reference_transform. intros E.
  apply bind_ok in E as (r & w1 & Er & E). apply lift_ok in Er as (_ & ->).
  apply bind_ok in E as (c & w1 & Ec & E). apply lift_ok in Ec as (_ & ->).
  now apply ret_ok in E as (_ & ->).
Qed.

Lemma control_transform_world ctl ijhw w out w' :
  BaseDataset.control_transform ctl ijhw w = (Ok out, w') -> w' = w.
Proof.
  unfold BaseDataset.control_transform. intros E.
  apply bind_ok in E as (r & w1 & Er & E). apply lift_ok in Er as (_ & ->).
  apply bind_ok in E as (c & w1 & Ec & E). apply lift_ok in Ec as (_ & ->).
  now apply ret_ok in E as (_ & ->).
Qed.

(** What a returned sample was made of. *)
Lemma BaseDataset_getitem_ok {T} (self : BaseDataset.t T) idx w s w' :
  BaseDataset.getitem self idx w = (Ok s, w') ->
  exists it p_img p_ref p_ctl wd ht wr hr wc hc img0 ref0 ctl0,
    list_getitem (BaseDataset.data self) idx = Ok it /\
    it !! "image" = Some p_img /\ fs w p_img = Some (wd, ht) /\
    it !! "reference" = Some p_ref /\ fs w p_ref = Some (wr, hr) /\
    it !! BaseDataset.control_type self = Some p_ctl /\
    fs w p_ctl = Some (wc, hc) /\
    (BaseDataset.control_type self = "canny" \/
     BaseDataset.control_type self = "pose") /\
    PIL.resize (mk_picture p_img wd ht)
      (floor_to_multiple_of_8 wd) (floor_to_multiple_of_8 ht) = Ok img0 /\
    PIL.resize (mk_picture p_ref wr hr)
      (floor_to_multiple_of_8 wd) (floor_to_multiple_of_8 ht) = Ok ref0 /\
    PIL.resize (mk_picture p_ctl wc hc)
      (floor_to_multiple_of_8 wd) (floor_to_multiple_of_8 ht) = Ok ctl0 /\
    BaseDataset.image_transform img0 w
      = (Ok (BaseDataset.image s, (0, 0, 512, 512)), w) /\
    BaseDataset.reference_transform ref0 w = (Ok (BaseDataset.reference s), w) /\
    BaseDataset.control_transform ctl0 (0, 0, 512, 512) w
      = (Ok (BaseDataset.control_image s), w) /\
    BaseDataset.text_input_ids s
      = BaseDataset.tokenizer self (BaseDataset.prompt_of it) /\
    w' = w.
Proof.
  unfold BaseDataset.getitem. intros E.
  apply bind_ok in E as (it & w1 & Eit & E). apply lift_ok in Eit as (Eit & ->).
  apply bind_ok in E as (p_img & w1 & Ep & E). apply lift_ok in Ep as (Ep & ->).
  apply bind_ok in E as (img & w1 & Eo & E).
  apply open_ok in Eo as (wd & ht & Ef & -> & ->).
  apply bind_ok in E as (p_ref & w1 & Epr & E). apply lift_ok in Epr as (Epr & ->).
  apply bind_ok in E as (ref & w1 & Eor & E).
  apply open_ok in Eor as (wr & hr & Efr & -> & ->).
  apply bind_ok in E as (ctl & w1 & Ec & E).
  assert (Hc : exists p_ctl wc hc,
             it !! BaseDataset.control_type self = Some p_ctl /\
             fs w p_ctl = Some (wc, hc) /\ ctl = mk_picture p_ctl wc hc /\
             w1 = w /\
             (BaseDataset.control_type self = "canny" \/
              BaseDataset.control_type self = "pose")).
  { destruct (String.eqb_spec (BaseDataset.control_type self) "canny") as [Ect|_];
      [|destruct (String.eqb_spec (BaseDataset.control_type self) "pose") as [Ect|_]];
      [| |discriminate]; rewrite Ect;
      apply bind_ok in Ec as (p & w2 & Epc & Ec);
      apply lift_ok in Epc as (Epc & ->);
      apply open_ok in Ec as (wc & hc & Efc & -> & ->);
      apply dict_getitem_ok in Epc; exists p, wc, hc; auto 10. }
  destruct Hc as (p_ctl & wc & hc & Hk & Hfc & -> & -> & Hct).
  simpl width in E. simpl height in E.
  apply bind_ok in E as (img0 & w1 & Ei0 & E). apply lift_ok in Ei0 as (Ei0 & ->).
  apply bind_ok in E as (ref0 & w1 & Er0 & E). apply lift_ok in Er0 as (Er0 & ->).
  apply bind_ok in E as (ctl0 & w1 & Ec0 & E). apply lift_ok in Ec0 as (Ec0 & ->).
  apply bind_ok in E as ([im ijhw] & w1 & Eim & E).
  pose proof (image_transform_params _ _ _ _ _ Eim) as (-> & -> & _).
  apply bind_ok in E as (rf & w1 & Erf & E).
  pose proof (reference_transform_world _ _ _ _ Erf) as ->.
  apply bind_ok in E as (ct & w1 & Ect & E).
  pose proof (control_transform_world _ _ _ _ _ Ect) as ->.
  apply ret_ok in E as (-> & ->).
  apply dict_getitem_ok in Ep, Epr.
  exists it, p_img, p_ref, p_ctl, wd, ht, wr, hr, wc, hc, img0, ref0, ctl0.
  simpl. auto 20.
Qed.

(** *** Steps only add to the history, and act on the frame alone *)

Lemma extends_refl a : extends a a.
Proof. exists []. now rewrite app_nil_r. Qed.

Lemma extends_trans a b c : extends a b -> extends b c -> extends a c.
Proof.
  intros (l1 & E1) (l2 & E2). exists (l1 ++ l2).
  now rewrite E2, E1, app_assoc.
Qed.

Lemma extends_head a b o :
  head (history a) = Some o -> extends a b -> head (history b) = Some o.
Proof.
  intros H (l & E). rewrite E. destruct (history a); [discriminate|exact H].
Qed.

Lemma PIL_resize_ok p w h out :
  PIL.resize p w h = Ok out ->
  width out = w /\ height out = h /\ geom out = geom p /\
  history out = history p ++ [PilResize w h].
Proof.
  unfold PIL.resize.
  destruct ((width p =? w) && (height p =? h)).
  - intros E. injection E as <-. auto.
  - destruct ((w <? 1) || (h <? 1)); [discriminate|].
    intros E. injection E as <-. auto.
Qed.

Lemma Resize_frame size a b a' b' :
  same_frame a b ->
  transforms.Resize size a = Ok a' -> transforms.Resize size b = Ok b' ->
  same_frame a' b'.
Proof.
  intros (Hw & Hh & Hg). unfold transforms.Resize. rewrite <- Hw, <- Hh, <- Hg.
  destruct (transforms.compute_resized_output_size _ _ _) as [[nh nw]|];
    [|discriminate].
  destruct ((nw <? 1) || (nh <? 1)); [discriminate|].
  intros Ea Eb. injection Ea as <-. injection Eb as <-. repeat split.
Qed.

Lemma Resize_extends size a a' :
  transforms.Resize size a = Ok a' -> extends a a'.
Proof.
  unfold transforms.Resize.
  destruct (transforms.compute_resized_output_size _ _ _) as [[nh nw]|];
    [|discriminate].
  destruct ((nw <? 1) || (nh <? 1)); [discriminate|].
  intros E. injection E as <-. eexists; reflexivity.
Qed.

Lemma crop_frame a b top left h w a' b' :
  same_frame a b ->
  transforms.crop a top left h w = Ok a' ->
  transforms.crop b top left h w = Ok b' ->
  same_frame a' b'.
Proof.
  intros (Hw & Hh & Hg). unfold transforms.crop.
  destruct ((h <? 0) || (w <? 0)); [discriminate|].
  intros Ea Eb. injection Ea as <-. injection Eb as <-.
  repeat split. simpl. now rewrite Hw, Hh, Hg.
Qed.

Lemma crop_extends a top left h w a' :
  transforms.crop a top left h w = Ok a' -> extends a a'.
Proof.
  unfold transforms.crop. destruct ((h <? 0) || (w <? 0)); [discriminate|].
  intros E. injection E as <-. eexists; reflexivity.
Qed.

Lemma pad_frame a b l t r bt :
  same_frame a b -> same_frame (transforms.pad a l t r bt) (transforms.pad b l t r bt).
Proof.
  intros (Hw & Hh & Hg). unfold transforms.pad. repeat split; simpl;
    now rewrite ?Hw, ?Hh, ?Hg.
Qed.

Lemma pad_extends a l t r b : extends a (transforms.pad a l t r b).
Proof. eexists; reflexivity. Qed.

Lemma CenterCrop_frame size a b a' b' :
  same_frame a b ->
  transforms.CenterCrop size a = Ok a' -> transforms.CenterCrop size b = Ok b' ->
  same_frame a' b'.
Proof.
  intros F. pose proof F as (Hw & Hh & Hg). unfold transforms.CenterCrop.
  destruct (transforms.setup_size size) as [ch cw]. cbv zeta.
  rewrite <- Hw, <- Hh.
  destruct ((cw >? width a) || (ch >? height a)).
  - set (l := if cw >? width a then _ else 0).
    set (t := if ch >? height a then _ else 0).
    set (r := if cw >? width a then _ else 0).
    set (bt := if ch >? height a then _ else 0).
    pose proof (pad_frame a b l t r bt F) as Fp.
    pose proof Fp as (Hpw & Hph & _). rewrite <- Hpw, <- Hph.
    destruct (true && (cw =? width (transforms.pad a l t r bt))
                && (ch =? height (transforms.pad a l t r bt))).
    + intros Ea Eb. injection Ea as <-. injection Eb as <-. exact Fp.
    + apply crop_frame. exact Fp.
  - simpl. rewrite <- ?Hw, <- ?Hh. apply crop_frame. exact F.
Qed.

Lemma CenterCrop_extends size a a' :
  transforms.CenterCrop size a = Ok a' -> extends a a'.
Proof.
  unfold transforms.CenterCrop.
  destruct (transforms.setup_size size) as [ch cw]. cbv zeta.
  destruct ((cw >? width a) || (ch >? height a)).
  - set (p := transforms.pad a _ _ _ _).
    destruct (true && (cw =? width p) && (ch =? height p)).
    + intros E. injection E as <-. apply pad_extends.
    + intros E. apply crop_extends in E.
      eapply extends_trans; [apply pad_extends|exact E].
  - simpl. apply crop_extends.
Qed.

Lemma ToTensor_frame a : same_frame a (transforms.ToTensor a).
Proof. repeat split. Qed.

Lemma Normalize_frame a : same_frame a (transforms.Normalize a).
Proof. repeat split. Qed.

Lemma ToTensor_extends a : extends a (transforms.ToTensor a).
Proof. eexists; reflexivity. Qed.

Lemma Normalize_extends a : extends a (transforms.Normalize a).
Proof. eexists; reflexivity. Qed.

(** Resize then CenterCrop, the geometric part of the three transforms. *)
Lemma resize_center_crop_frame s1 s2 a b ra rb ca cb :
  same_frame a b ->
  transforms.Resize s1 a = Ok ra -> transforms.CenterCrop s2 ra = Ok ca ->
  transforms.Resize s1 b = Ok rb -> transforms.CenterCrop s2 rb = Ok cb ->
  same_frame ca cb.
Proof.
  intros F Era Eca Erb Ecb.
  eapply CenterCrop_frame; [|exact Eca|exact Ecb].
  eapply Resize_frame; [exact F|exact Era|exact Erb].
Qed.

Lemma image_transform_inv img w out ijhw w' :
  BaseDataset.image_transform img w = (Ok (out, ijhw), w') ->
  exists r c,
    transforms.Resize (transforms.SizeInt 512) img = Ok r /\
    transforms.CenterCrop (transforms.SizeInt 512) r = Ok c /\
    out = transforms.Normalize (transforms.ToTensor c).
Proof.
  unfold BaseDataset.image_transform, BaseDataset.short_size. intros E.
  apply bind_ok in E as (r & w1 & Er & E). apply lift_ok in Er as (Er & ->).
  apply bind_ok in E as (c & w1 & Ec & E). apply lift_ok in Ec as (Ec & ->).
  apply bind_ok in E as (p & w1 & _ & E).
  apply ret_ok in E as (E & _). injection E as -> _.
  exists r, c. auto.
Qed.

Lemma reference_transform_inv img w out w' :
  BaseDataset.reference_transform img w = (Ok out, w') ->
  exists r c,
    transforms.Resize (transforms.SizeInt 512) img = Ok r /\
    transforms.CenterCrop (transforms.SizeInt 512) r = Ok c /\
    out = transforms.Normalize (transforms.ToTensor c).
Proof.
  unfold BaseDataset.reference_transform, BaseDataset.short_size. intros E.
  apply bind_ok in E as (r & w1 & Er & E). apply lift_ok in Er as (Er & ->).
  apply bind_ok in E as (c & w1 & Ec & E). apply lift_ok in Ec as (Ec & ->).
  apply ret_ok in E as (-> & _).
  exists r, c. auto.
Qed.

Lemma control_transform_inv img ijhw w out w' :
  BaseDataset.control_transform img ijhw w = (Ok out, w') ->
  exists r c,
    transforms.Resize (transforms.SizeInt 512) img = Ok r /\
    transforms.CenterCrop (transforms.SizeInt 512) r = Ok c /\
    out = transforms.ToTensor c.
Proof.
  unfold BaseDataset.control_transform, BaseDataset.short_size. intros E.
  apply bind_ok in E as (r & w1 & Er & E). apply lift_ok in Er as (Er & ->).
  apply bind_ok in E as (c & w1 & Ec & E). apply lift_ok in Ec as (Ec & ->).
  apply ret_ok in E as (-> & _).
  exists r, c. auto.
Qed.

Lemma BaseDataset_getitem_frames {T} (self : BaseDataset.t T) idx w s w' :
  BaseDataset.getitem self idx w = (Ok s, w') ->
  same_frame (BaseDataset.image s) (BaseDataset.reference s) /\
  same_frame (BaseDataset.image s) (BaseDataset.control_image s).
Proof.
  intros E.
  apply BaseDataset_getitem_ok in E
    as (it & p_img & p_ref & p_ctl & wd & ht & wr & hr & wc & hc
        & img0 & ref0 & ctl0 & _ & _ & _ & _ & _ & _ & _ & _
        & Ei & Er & Ec & Eti & Etr & Etc & _ & _).
  apply PIL_resize_ok in Ei as (Hiw & Hih & Hig & _).
  apply PIL_resize_ok in Er as (Hrw & Hrh & Hrg & _).
  apply PIL_resize_ok in Ec as (Hcw & Hch & Hcg & _).
  simpl in Hig, Hrg, Hcg.
  assert (Fr : same_frame img0 ref0) by (repeat split; congruence).
  assert (Fc : same_frame img0 ctl0) by (repeat split; congruence).
  apply image_transform_inv in Eti as (ri & ci & Eri & Eci & Hi).
  apply reference_transform_inv in Etr as (rr & cr & Err & Ecr & Hr).
  apply control_transform_inv in Etc as (rc & cc & Erc & Ecc & Hc).
  rewrite Hi, Hr, Hc. split.
  - pose proof (resize_center_crop_frame _ _ _ _ _ _ _ _ Fr Eri Eci Err Ecr) as F.
    destruct F as (? & ? & ?). repeat split; assumption.
  - pose proof (resize_center_crop_frame _ _ _ _ _ _ _ _ Fc Eri Eci Erc Ecc) as F.
    destruct F as (? & ? & ?). repeat split; assumption.
Qed.

Lemma BaseDataset_getitem_history {T} (self : BaseDataset.t T) idx w s w' :
  BaseDataset.getitem self idx w = (Ok s, w') ->
  exists it path wd ht,
    list_getitem (BaseDataset.data self) idx = Ok it /\
    it !! "image" = Some path /\ fs w path = Some (wd, ht) /\
    let first :=
      Some (PilResize (floor_to_multiple_of_8 wd) (floor_to_multiple_of_8 ht)) in
    head (history (BaseDataset.image s)) = first /\
    head (history (BaseDataset.reference s)) = first /\
    head (history (BaseDataset.control_image s)) = first.
Proof.
  intros E.
  apply BaseDataset_getitem_ok in E
    as (it & p_img & p_ref & p_ctl & wd & ht & wr & hr & wc & hc
        & img0 & ref0 & ctl0 & Hit & Hp & Hf & _ & _ & _ & _ & _
        & Ei & Er & Ec & Eti & Etr & Etc & _ & _).
  exists it, p_img, wd, ht. repeat split; try assumption.
  - apply PIL_resize_ok in Ei as (_ & _ & _ & Hh).
    apply image_transform_inv in Eti as (r & c & Er' & Ec' & ->).
    eapply extends_head; [rewrite Hh; reflexivity|].
    eapply extends_trans; [eapply Resize_extends; exact Er'|].
    eapply extends_trans; [eapply CenterCrop_extends; exact Ec'|].
    eapply extends_trans; [apply ToTensor_extends|apply Normalize_extends].
  - apply PIL_resize_ok in Er as (_ & _ & _ & Hh).
    apply reference_transform_inv in Etr as (r & c & Er' & Ec' & ->).
    eapply extends_head; [rewrite Hh; reflexivity|].
    eapply extends_trans; [eapply Resize_extends; exact Er'|].
    eapply extends_trans; [eapply CenterCrop_extends; exact Ec'|].
    eapply extends_trans; [apply ToTensor_extends|apply Normalize_extends].
  - apply PIL_resize_ok in Ec as (_ & _ & _ & Hh).
    apply control_transform_inv in Etc as (r & c & Er' & Ec' & ->).
    eapply extends_head; [rewrite Hh; reflexivity|].
    eapply extends_trans; [eapply Resize_extends; exact Er'|].
    eapply extends_trans; [eapply CenterCrop_extends; exact Ec'|].
    apply ToTensor_extends.
Qed.

(** C5: in [BaseDataset.__getitem__] width and height are brought down to
    the nearest multiple of 8 by integer division, [(w // 8) * 8] and
    [(h // 8) * 8], before any resize: 517 gives 512, 512 gives 512, 7
    gives 0, and the first step each of the three pictures of a sample
    went through is the resize to the floored size of the image. *)
Theorem floor_to_multiple_of_8_first :
  (forall x : Z,
      floor_to_multiple_of_8 x = (x / 8) * 8 /\
      floor_to_multiple_of_8 x mod 8 = 0 /\
      floor_to_multiple_of_8 x <= x < floor_to_multiple_of_8 x + 8) /\
  floor_to_multiple_of_8 517 = 512 /\
  floor_to_multiple_of_8 512 = 512 /\
  floor_to_multiple_of_8 7 = 0 /\
  (forall T (self : BaseDataset.t T) idx w s w',
      BaseDataset.getitem self idx w = (Ok s, w') ->
      exists it path wd ht,
        list_getitem (BaseDataset.data self) idx = Ok it /\
        it !! "image" = Some path /\ fs w path = Some (wd, ht) /\
        let first :=
          Some (PilResize (floor_to_multiple_of_8 wd)
                  (floor_to_multiple_of_8 ht)) in
        head (history (BaseDataset.image s)) = first /\
        head (history (BaseDataset.reference s)) = first /\
        head (history (BaseDataset.control_image s)) = first).
Proof.
  split; [|repeat split].
  - intros x. unfold floor_to_multiple_of_8. split; [reflexivity|].
    split.
    + apply Z.mod_mul. lia.
    + pose proof (Z.div_mod x 8 ltac:(lia)).
      pose proof (Z.mod_pos_bound x 8 ltac:(lia)). lia.
  - intros T self idx w s w'. apply BaseDataset_getitem_history.
Qed.

Lemma floor_to_multiple_of_8_first_witness :
  exists s w',
    BaseDataset.getitem (base_ds None) 0 world0 = (Ok s, w') /\
    head (history (BaseDataset.image s)) = Some (PilResize 1024 512) /\
    head (history (BaseDataset.control_image s)) = Some (PilResize 1024 512).
Proof.
  destruct (BaseDataset.getitem (base_ds None) 0 world0) as [[s|e] w'] eqn:E;
    [|vm_compute in E; discriminate].
  exists s, w'. split; [reflexivity|].
  destruct (proj2 (proj2 (proj2 (proj2 floor_to_multiple_of_8_first)))
              string (base_ds None) 0 world0 s w' E)
    as (it & path & wd & ht & Hit & Hp & Hf & Hi & _ & Hc).
  vm_compute in Hit. injection Hit as <-.
  vm_compute in Hp. injection Hp as <-.
  vm_compute in Hf. injection Hf as <- <-.
  split; assumption.
Defined.

(** ** The retry *)

Lemma try_next_unfold {B R} (body : Z -> M B) (rest : B -> M R) n depth idx w :
  try_next body rest n depth idx w =
  match body idx w with
  | (Ok b, w') => rest b w'
  | (Raise _, w') =>
      if n =? 0 then (Raise ZeroDivisionError, w')
      else match depth with
           | O => (Raise RecursionError, w')
           | S depth' => try_next body rest n depth' ((idx + 1) mod n) w'
           end
  end.
Proof. destruct depth; reflexivity. Qed.

(** A body that raises hands over to the next index. *)
Lemma try_next_raise {B R} (body : Z -> M B) (rest : B -> M R) n depth idx w e w' :
  n <> 0 -> body idx w = (Raise e, w') ->
  try_next body rest n (S depth) idx w
  = try_next body rest n depth ((idx + 1) mod n) w'.
Proof.
  intros Hn E. rewrite try_next_unfold, E.
  destruct (Z.eqb_spec n 0); [contradiction|reflexivity].
Qed.

(** Any number of bodies raising in a row is passed over. *)
Lemma try_next_skipped {B R} (body : Z -> M B) (rest : B -> M R) n k :
  n <> 0 ->
  forall depth idx w idx' w',
    skipped body n k idx w = Some (idx', w') ->
    try_next body rest n (k + depth) idx w = try_next body rest n depth idx' w'.
Proof.
  intros Hn. induction k as [|k IH]; intros depth idx w idx' w' E.
  - simpl in E. injection E as <- <-. reflexivity.
  - simpl in E. destruct (body idx w) as [[b|e] w1] eqn:Eb; [discriminate|].
    change (S k + depth)%nat with (S (k + depth)).
    rewrite (try_next_raise _ _ _ _ _ _ _ _ Hn Eb). apply IH. exact E.
Qed.

(** What comes back is what the rest made of some body that returned. *)
Lemma try_next_ok {B R} (body : Z -> M B) (rest : B -> M R) n depth :
  forall idx w s w',
    try_next body rest n depth idx w = (Ok s, w') ->
    exists idx' w1 b w2, body idx' w1 = (Ok b, w2) /\ rest b w2 = (Ok s, w').
Proof.
  induction depth as [|d IH]; intros idx w s w'; rewrite try_next_unfold;
    destruct (body idx w) as [[b|e] w1] eqn:Eb; intros E; eauto 6;
    destruct (n =? 0); try discriminate.
  eapply IH. exact E.
Qed.

(** With a rest that never raises, the one exception that can come out
    is the RecursionError of the retry. *)
Lemma try_next_raises_only_recursion {B R} (body : Z -> M B) (rest : B -> M R)
    n depth :
  n <> 0 ->
  (forall b w e w', rest b w <> (Raise e, w')) ->
  forall idx w e w',
    try_next body rest n depth idx w = (Raise e, w') -> e = RecursionError.
Proof.
  intros Hn Hrest. induction depth as [|d IH]; intros idx w e w';
    rewrite try_next_unfold;
    destruct (body idx w) as [[b|e0] w1] eqn:Eb; intros E;
    try (exfalso; eapply Hrest; exact E);
    destruct (Z.eqb_spec n 0); try contradiction.
  - now injection E as <- _.
  - eapply IH. exact E.
Qed.

(** When every body raises, nothing but RecursionError comes out. *)
Lemma try_next_all_raise {B R} (body : Z -> M B) (rest : B -> M R) n depth :
  n <> 0 ->
  (forall idx w, exists e w', body idx w = (Raise e, w')) ->
  forall idx w, exists w', try_next body rest n depth idx w = (Raise RecursionError, w').
Proof.
  intros Hn Hb. induction depth as [|d IH]; intros idx w;
    rewrite try_next_unfold; destruct (Hb idx w) as (e & w1 & ->);
    destruct (Z.eqb_spec n 0); try contradiction; eauto.
Qed.

Lemma finish2_never_raises {num T C} `{PyFloat num}
    (self : dataset2.LaionHumanSD.t num T C) b w e w' :
  dataset2.LaionHumanSD.finish self b w <> (Raise e, w').
Proof.
  destruct b as [[img prompt] clip]. unfold dataset2.LaionHumanSD.finish.
  unfold bind, random_random, py_draw, ret. simpl.
  destruct (conditional_dropout _ _ _ _ _). discriminate.
Qed.

Lemma finish_never_raises {num T} `{PyFloat num}
    (self : dataset_laionhuman_w_control.LaionHumanSD.t num T) b w e w' :
  dataset_laionhuman_w_control.LaionHumanSD.finish self b w <> (Raise e, w').
Proof.
  destruct b as [[[img ref] ctl] prompt].
  unfold dataset_laionhuman_w_control.LaionHumanSD.finish.
  unfold bind, random_random, py_draw, ret. simpl.
  destruct (conditional_dropout _ _ _ _ _). discriminate.
Qed.

Lemma try_next_returns {B R} (body : Z -> M B) (rest : B -> M R) n depth idx w b w' :
  body idx w = (Ok b, w') -> try_next body rest n depth idx w = rest b w'.
Proof. intros E. rewrite try_next_unfold, E. reflexivity. Qed.

(** A body that raises with no call depth left. *)
Lemma try_next_exhausted {B R} (body : Z -> M B) (rest : B -> M R) n idx w e w' :
  n <> 0 -> body idx w = (Raise e, w') ->
  try_next body rest n 0 idx w = (Raise RecursionError, w').
Proof.
  intros Hn E. rewrite try_next_unfold, E.
  destruct (Z.eqb_spec n 0); [contradiction|reflexivity].
Qed.

Lemma finish2_returns {num T C} `{PyFloat num}
    (self : dataset2.LaionHumanSD.t num T C) b w :
  exists s w', dataset2.LaionHumanSD.finish self b w = (Ok s, w').
Proof.
  destruct b as [[img prompt] clip]. unfold dataset2.LaionHumanSD.finish.
  unfold bind, random_random, py_draw, ret. simpl.
  destruct (conditional_dropout _ _ _ _ _). eauto.
Qed.

Lemma finish_returns {num T} `{PyFloat num}
    (self : dataset_laionhuman_w_control.LaionHumanSD.t num T) b w :
  exists s w', dataset_laionhuman_w_control.LaionHumanSD.finish self b w = (Ok s, w').
Proof.
  destruct b as [[[img ref] ctl] prompt].
  unfold dataset_laionhuman_w_control.LaionHumanSD.finish.
  unfold bind, random_random, py_draw, ret. simpl.
  destruct (conditional_dropout _ _ _ _ _). eauto.
Qed.

(** The try-body on a record whose picture does not decode. *)
Lemma build2_missing_picture {num T C} (self : dataset2.LaionHumanSD.t num T C)
    idx w it p :
  list_getitem (dataset2.LaionHumanSD.data self) idx = Ok it ->
  it !! "img_path" = Some p -> fs w p = None ->
  dataset2.LaionHumanSD.build self idx w = (Raise OSError, w).
Proof.
  intros Hit Hp Hf. unfold dataset2.LaionHumanSD.build, bind, lift.
  rewrite Hit. unfold dict_getitem at 1. rewrite Hp.
  unfold PIL.open. rewrite Hf. reflexivity.
Qed.

Lemma build_missing_picture {num T}
    (self : dataset_laionhuman_w_control.LaionHumanSD.t num T) idx w it p :
  list_getitem (dataset_laionhuman_w_control.LaionHumanSD.data self) idx = Ok it ->
  it !! "img_path" = Some p -> fs w p = None ->
  dataset_laionhuman_w_control.LaionHumanSD.build self idx w = (Raise OSError, w).
Proof.
  intros Hit Hp Hf.
  unfold dataset_laionhuman_w_control.LaionHumanSD.build, bind, lift.
  rewrite Hit. unfold dict_getitem at 1. rewrite Hp.
  unfold PIL.open. rewrite Hf. reflexivity.
Qed.

(** C3: in both LaionHumanSD classes, for a dataset of length n > 0,
    [__getitem__(idx)] runs the try-body on record idx.  When the body
    returns, the call returns the sample made of what it built.  When it
    raises (as it does on a record whose picture does not decode), the
    call is [__getitem__((idx + 1) mod n)], run in the world the failed
    attempt left, or the RecursionError of the interpreter when no call
    depth is left; so after any number of failing records in a row the
    first record that builds is the one returned, and no exception of
    the building phase reaches the caller. *)
Theorem getitem_retries_next_index :
  (forall num T C (F : PyFloat num) (self : dataset2.LaionHumanSD.t num T C),
      let n := Z.of_nat (length (dataset2.LaionHumanSD.data self)) in
      0 < n ->
      (forall depth idx w e w',
          dataset2.LaionHumanSD.build self idx w = (Raise e, w') ->
          dataset2.LaionHumanSD.getitem self (S depth) idx w
          = dataset2.LaionHumanSD.getitem self depth ((idx + 1) mod n) w') /\
      (forall k depth idx w idx' w',
          skipped (dataset2.LaionHumanSD.build self) n k idx w = Some (idx', w') ->
          dataset2.LaionHumanSD.getitem self (k + depth) idx w
          = dataset2.LaionHumanSD.getitem self depth idx' w') /\
      (forall depth idx w e w',
          dataset2.LaionHumanSD.getitem self depth idx w = (Raise e, w') ->
          e = RecursionError) /\
      (forall depth idx w b w',
          dataset2.LaionHumanSD.build self idx w = (Ok b, w') ->
          exists s w'',
            dataset2.LaionHumanSD.finish self b w' = (Ok s, w'') /\
            dataset2.LaionHumanSD.getitem self depth idx w = (Ok s, w'')) /\
      (forall k depth idx w idx' w1 b w2,
          skipped (dataset2.LaionHumanSD.build self) n k idx w = Some (idx', w1) ->
          dataset2.LaionHumanSD.build self idx' w1 = (Ok b, w2) ->
          exists s w3,
            dataset2.LaionHumanSD.finish self b w2 = (Ok s, w3) /\
            dataset2.LaionHumanSD.getitem self (k + depth) idx w = (Ok s, w3)) /\
      (forall idx w e w',
          dataset2.LaionHumanSD.build self idx w = (Raise e, w') ->
          dataset2.LaionHumanSD.getitem self 0 idx w = (Raise RecursionError, w')) /\
      (forall depth idx w it p,
          list_getitem (dataset2.LaionHumanSD.data self) idx = Ok it ->
          it !! "img_path" = Some p -> fs w p = None ->
          dataset2.LaionHumanSD.getitem self (S depth) idx w
          = dataset2.LaionHumanSD.getitem self depth ((idx + 1) mod n) w)) /\
  (forall num T (F : PyFloat num)
          (self : dataset_laionhuman_w_control.LaionHumanSD.t num T),
      let n := Z.of_nat
                 (length (dataset_laionhuman_w_control.LaionHumanSD.data self)) in
      0 < n ->
      (forall depth idx w e w',
          dataset_laionhuman_w_control.LaionHumanSD.build self idx w
            = (Raise e, w') ->
          dataset_laionhuman_w_control.LaionHumanSD.getitem self (S depth) idx w
          = dataset_laionhuman_w_control.LaionHumanSD.getitem self depth
              ((idx + 1) mod n) w') /\
      (forall k depth idx w idx' w',
          skipped (dataset_laionhuman_w_control.LaionHumanSD.build self) n k idx w
            = Some (idx', w') ->
          dataset_laionhuman_w_control.LaionHumanSD.getitem self (k + depth) idx w
          = dataset_laionhuman_w_control.LaionHumanSD.getitem self depth idx' w') /\
      (forall depth idx w e w',
          dataset_laionhuman_w_control.LaionHumanSD.getitem self depth idx w
            = (Raise e, w') ->
          e = RecursionError) /\
      (forall depth idx w b w',
          dataset_laionhuman_w_control.LaionHumanSD.build self idx w = (Ok b, w') ->
          exists s w'',
            dataset_laionhuman_w_control.LaionHumanSD.finish self b w' = (Ok s, w'') /\
            dataset_laionhuman_w_control.LaionHumanSD.getitem self depth idx w
            = (Ok s, w'')) /\
      (forall k depth idx w idx' w1 b w2,
          skipped (dataset_laionhuman_w_control.LaionHumanSD.build self) n k idx w
            = Some (idx', w1) ->
          dataset_laionhuman_w_control.LaionHumanSD.build self idx' w1 = (Ok b, w2) ->
          exists s w3,
            dataset_laionhuman_w_control.LaionHumanSD.finish self b w2 = (Ok s, w3) /\
            dataset_laionhuman_w_control.LaionHumanSD.getitem self (k + depth) idx w
            = (Ok s, w3)) /\
      (forall idx w e w',
          dataset_laionhuman_w_control.LaionHumanSD.build self idx w
            = (Raise e, w') ->
          dataset_laionhuman_w_control.LaionHumanSD.getitem self 0 idx w
          = (Raise RecursionError, w')) /\
      (forall depth idx w it p,
          list_getitem (dataset_laionhuman_w_control.LaionHumanSD.data self) idx
            = Ok it ->
          it !! "img_path" = Some p -> fs w p = None ->
          dataset_laionhuman_w_control.LaionHumanSD.getitem self (S depth) idx w
          = dataset_laionhuman_w_control.LaionHumanSD.getitem self depth
              ((idx + 1) mod n) w)).
Proof.
  split.
  - intros num T C F self n Hn.
    split; [|split; [|split; [|split; [|split; [|split]]]]].
    + intros depth idx w e w' E.
      apply (try_next_raise _ _ _ _ _ _ e); [lia|exact E].
    + intros k depth idx w idx' w' E.
      apply try_next_skipped; [lia|exact E].
    + intros depth idx w e w' E.
      eapply try_next_raises_only_recursion; [| |exact E]; [lia|].
      intros. apply finish2_never_raises.
    + intros depth idx w b w' E.
      destruct (finish2_returns self b w') as (s & w'' & Ef).
      exists s, w''. split; [exact Ef|].
      unfold dataset2.LaionHumanSD.getitem.
      rewrite (try_next_returns _ _ _ _ _ _ _ _ E). exact Ef.
    + intros k depth idx w idx' w1 b w2 Es Eb.
      destruct (finish2_returns self b w2) as (s & w3 & Ef).
      exists s, w3. split; [exact Ef|].
      unfold dataset2.LaionHumanSD.getitem.
      assert (Hn0 : n <> 0) by lia.
      rewrite (try_next_skipped _ _ n k Hn0 depth idx w idx' w1 Es).
      rewrite (try_next_returns _ _ _ _ _ _ _ _ Eb). exact Ef.
    + intros idx w e w' E.
      apply (try_next_exhausted _ _ _ _ _ e); [lia|exact E].
    + intros depth idx w it p Hit Hp Hf.
      apply (try_next_raise _ _ _ _ _ _ OSError); [lia|].
      now apply (build2_missing_picture self idx w it p).
  - intros num T F self n Hn.
    split; [|split; [|split; [|split; [|split; [|split]]]]].
    + intros depth idx w e w' E.
      apply (try_next_raise _ _ _ _ _ _ e); [lia|exact E].
    + intros k depth idx w idx' w' E.
      apply try_next_skipped; [lia|exact E].
    + intros depth idx w e w' E.
      eapply try_next_raises_only_recursion; [| |exact E]; [lia|].
      intros. apply finish_never_raises.
    + intros depth idx w b w' E.
      destruct (finish_returns self b w') as (s & w'' & Ef).
      exists s, w''. split; [exact Ef|].
      unfold dataset_laionhuman_w_control.LaionHumanSD.getitem.
      rewrite (try_next_returns _ _ _ _ _ _ _ _ E). exact Ef.
    + intros k depth idx w idx' w1 b w2 Es Eb.
      destruct (finish_returns self b w2) as (s & w3 & Ef).
      exists s, w3. split; [exact Ef|].
      unfold dataset_laionhuman_w_control.LaionHumanSD.getitem.
      assert (Hn0 : n <> 0) by lia.
      rewrite (try_next_skipped _ _ n k Hn0 depth idx w idx' w1 Es).
      rewrite (try_next_returns _ _ _ _ _ _ _ _ Eb). exact Ef.
    + intros idx w e w' E.
      apply (try_next_exhausted _ _ _ _ _ e); [lia|exact E].
    + intros depth idx w it p Hit Hp Hf.
      apply (try_next_raise _ _ _ _ _ _ OSError); [lia|].
      now apply (build_missing_picture self idx w it p).
Qed.

Lemma getitem_retries_next_index_witness :
  (exists s w',
      dataset2.LaionHumanSD.getitem (laion2_ds two_records) (1 + 0) 0 world0
      = (Ok s, w') /\
      dataset2.LaionHumanSD.text_input_ids s = "a dog") /\
  (exists s w',
      dataset_laionhuman_w_control.LaionHumanSD.getitem
        (laion_ds two_records (transforms.SizePair 512 512) true "canny")
        (1 + 0) 0 world0
      = (Ok s, w') /\
      dataset_laionhuman_w_control.LaionHumanSD.text_input_ids s = "a dog") /\
  dataset_laionhuman_w_control.LaionHumanSD.getitem
    (laion_ds two_records (transforms.SizePair 512 512) true "canny")
    1 0 world0
  = dataset_laionhuman_w_control.LaionHumanSD.getitem
      (laion_ds two_records (transforms.SizePair 512 512) true "canny")
      0 ((0 + 1) mod 2) world0.
Proof.
  split; [|split].
  - destruct (dataset2.LaionHumanSD.build (laion2_ds two_records) 1 world0)
      as [[b|e] w2] eqn:Eb; [|vm_compute in Eb; discriminate].
    destruct (proj1 (proj2 (proj2 (proj2 (proj2
                (proj1 getitem_retries_next_index Q string unit _
                   (laion2_ds two_records) ltac:(simpl; lia))))))
                1%nat 0%nat 0 world0 1 world0 b w2)
      as (s & w3 & Ef & Eg); [vm_compute; reflexivity|exact Eb|].
    exists s, w3. split; [exact Eg|].
    vm_compute in Eb. injection Eb as <- <-.
    vm_compute in Ef. injection Ef as <- _. reflexivity.
  - destruct (dataset_laionhuman_w_control.LaionHumanSD.build
                (laion_ds two_records (transforms.SizePair 512 512) true "canny")
                1 world0)
      as [[b|e] w2] eqn:Eb; [|vm_compute in Eb; discriminate].
    destruct (proj1 (proj2 (proj2 (proj2 (proj2
                (proj2 getitem_retries_next_index Q string _
                   (laion_ds two_records (transforms.SizePair 512 512) true "canny")
                   ltac:(simpl; lia))))))
                1%nat 0%nat 0 world0 1 world0 b w2)
      as (s & w3 & Ef & Eg); [vm_compute; reflexivity|exact Eb|].
    exists s, w3. split; [exact Eg|].
    vm_compute in Eb. injection Eb as <- <-.
    vm_compute in Ef. injection Ef as <- _. reflexivity.
  - refine (proj1 (proj2 getitem_retries_next_index Q string _
                     (laion_ds two_records (transforms.SizePair 512 512) true "canny") _)
              0%nat 0 world0 OSError world0 _).
    + simpl. lia.
    + vm_compute. reflexivity.
Defined.

(** ** The control-enabled LaionHumanSD *)

Section LaionHumanSD_w_control.
Import dataset_laionhuman_w_control.
Context {num T : Type} `{PyFloat num}.
Variable self : LaionHumanSD.t num T.

Lemma finish_ok b w s w' :
  LaionHumanSD.finish self b w = (Ok s, w') ->
  let '(img, ref, ctl, prompt) := b in
  let r := float_of_draw (py_rng w 0%nat) in
  let pd := conditional_dropout (LaionHumanSD.i_drop_rate self)
              (LaionHumanSD.t_drop_rate self)
              (LaionHumanSD.ti_drop_rate self) r prompt in
  LaionHumanSD.image s = img /\ LaionHumanSD.reference s = ref /\
  LaionHumanSD.control_image s = ctl /\
  LaionHumanSD.text_input_ids s = LaionHumanSD.tokenizer self (fst pd) /\
  LaionHumanSD.drop_image_embed s = snd pd.
Proof.
  destruct b as [[[img ref] ctl] prompt].
  unfold LaionHumanSD.finish, bind, random_random, py_draw, ret. simpl.
  destruct (conditional_dropout _ _ _ _ _) as [p d]. simpl.
  intros E. injection E as <- _. simpl. auto.
Qed.

Lemma getitem_ok depth idx w s w' :
  LaionHumanSD.getitem self depth idx w = (Ok s, w') ->
  exists idx' w1 img ref ctl prompt w2,
    LaionHumanSD.build self idx' w1 = (Ok (img, ref, ctl, prompt), w2) /\
    LaionHumanSD.finish self (img, ref, ctl, prompt) w2 = (Ok s, w').
Proof.
  intros E. apply try_next_ok in E as (idx' & w1 & [[[img ref] ctl] prompt] & w2 & Eb & Ef).
  exists idx', w1, img, ref, ctl, prompt, w2. auto.
Qed.

(** What a body that returned was made of. *)
Lemma build_ok idx w img ref ctl prompt w' :
  LaionHumanSD.build self idx w = (Ok (img, ref, ctl, prompt), w') ->
  exists it path wd ht w1,
    list_getitem (LaionHumanSD.data self) idx = Ok it /\
    it !! "img_path" = Some path /\ fs w path = Some (wd, ht) /\
    it !! "prompt" = Some prompt /\
    LaionHumanSD.transform self (mk_picture path wd ht) w = (Ok img, w1) /\
    LaionHumanSD.transform self (mk_picture path wd ht) w1 = (Ok ref, w') /\
    (if LaionHumanSD.use_control self then
       exists ci c,
         ctl = Some c /\
         LaionHumanSD.control_transform self (Some ci) w' = (Ok c, w') /\
         ((LaionHumanSD.control_type self = "canny" /\
           ci = LaionHumanSD.canny (mk_picture path wd ht)) \/
          (LaionHumanSD.control_type self = "hed" /\
           LaionHumanSD.run_hed self (mk_picture path wd ht) = Ok ci))
     else ctl = None).
Proof.
  unfold LaionHumanSD.build. intros E.
  apply bind_ok in E as (it & w0 & Eit & E). apply lift_ok in Eit as (Eit & ->).
  apply bind_ok in E as (path & w0 & Ep & E). apply lift_ok in Ep as (Ep & ->).
  apply bind_ok in E as (raw & w0 & Eo & E).
  apply open_ok in Eo as (wd & ht & Ef & -> & ->).
  apply bind_ok in E as (pr & w0 & Epr & E). apply lift_ok in Epr as (Epr & ->).
  apply bind_ok in E as (im & w1 & Eim & E).
  apply bind_ok in E as (rf & w2 & Erf & E).
  apply bind_ok in E as (ct & w3 & Ect & E).
  apply ret_ok in E as (E & ->). injection E as -> -> -> ->.
  apply dict_getitem_ok in Ep, Epr.
  exists it, path, wd, ht, w1.
  destruct (LaionHumanSD.use_control self).
  - apply bind_ok in Ect as (ci & w4 & Eci & Ect).
    apply bind_ok in Ect as (c & w5 & Ec & Ect).
    apply ret_ok in Ect as (-> & ->).
    assert (Hw : w5 = w4).
    { unfold LaionHumanSD.control_transform in Ec. destruct ci as [ci|]; [|discriminate].
      apply bind_ok in Ec as (r1 & w6 & E1 & Ec). apply lift_ok in E1 as (_ & ->).
      apply bind_ok in Ec as (r2 & w6 & E2 & Ec). apply lift_ok in E2 as (_ & ->).
      now apply ret_ok in Ec as (_ & ->). }
    subst w5.
    destruct (String.eqb_spec (LaionHumanSD.control_type self) "canny") as [Ek|_].
    + apply ret_ok in Eci as (-> & ->). repeat split; try assumption.
      exists (LaionHumanSD.canny (mk_picture path wd ht)), c. auto.
    + destruct (String.eqb_spec (LaionHumanSD.control_type self) "hed") as [Ek|_].
      * apply bind_ok in Eci as (h & w6 & Eh & Eci). apply lift_ok in Eh as (Eh & ->).
        apply ret_ok in Eci as (-> & ->). repeat split; try assumption.
        exists h, c. auto.
      * apply ret_ok in Eci as (-> & ->). discriminate.
  - apply ret_ok in Ect as (-> & ->). repeat split; assumption.
Qed.

(** With a control type that is neither canny nor hed, no body returns. *)
Lemma build_unsupported idx w :
  LaionHumanSD.use_control self = true ->
  LaionHumanSD.control_type self <> "canny" ->
  LaionHumanSD.control_type self <> "hed" ->
  exists e w', LaionHumanSD.build self idx w = (Raise e, w').
Proof.
  intros Hu Hc Hh.
  destruct (LaionHumanSD.build self idx w) as [[[[[img ref] ctl] prompt]|e] w'] eqn:E;
    [|eauto].
  apply build_ok in E as (it & path & wd & ht & w1 & _ & _ & _ & _ & _ & _ & Hctl).
  rewrite Hu in Hctl. destruct Hctl as (ci & c & _ & _ & [(Hk & _)|(Hk & _)]);
    contradiction.
Qed.

End LaionHumanSD_w_control.

(** In BaseDataset a control type that is neither canny nor pose returns
    no sample, and once the record, its image and its reference are read
    the exception is NotImplementedError. *)
Lemma BaseDataset_unsupported_control_type {T} (self : BaseDataset.t T) idx w :
  BaseDataset.control_type self <> "canny" ->
  BaseDataset.control_type self <> "pose" ->
  (exists e w', BaseDataset.getitem self idx w = (Raise e, w')) /\
  (forall it p_img p_ref sz_img sz_ref,
      list_getitem (BaseDataset.data self) idx = Ok it ->
      it !! "image" = Some p_img -> fs w p_img = Some sz_img ->
      it !! "reference" = Some p_ref -> fs w p_ref = Some sz_ref ->
      BaseDataset.getitem self idx w = (Raise NotImplementedError, w)).
Proof.
  intros Hc Hp. split.
  - destruct (BaseDataset.getitem self idx w) as [[s|e] w'] eqn:E; [|eauto].
    apply BaseDataset_getitem_ok in E
      as (it & p_img & p_ref & p_ctl & wd & ht & wr & hr & wc & hc
          & img0 & ref0 & ctl0 & _ & _ & _ & _ & _ & _ & _ & [Hk|Hk] & _);
      contradiction.
  - intros it p_img p_ref [wi hi] [wr hr] Hit Hi Hfi Hr Hfr.
    unfold BaseDataset.getitem, bind, lift, PIL.open, dict_getitem, raise.
    rewrite Hit, Hi, Hfi, Hr, Hfr.
    destruct (String.eqb_spec (BaseDataset.control_type self) "canny");
      [contradiction|].
    destruct (String.eqb_spec (BaseDataset.control_type self) "pose");
      [contradiction|].
    reflexivity.
Qed.

(** C6, the control-enabled LaionHumanSD: with [use_control] set and a
    control type that is neither canny nor hed, [control_transform]
    receives None, its TypeError is caught by the [except] like any
    other, and every record fails in turn: what reaches the caller, at
    any call depth, is the RecursionError of the retry, not a
    not-implemented signal. *)
Theorem unsupported_control_type_retries_forever
    {num T} `{PyFloat num}
    (self : dataset_laionhuman_w_control.LaionHumanSD.t num T)
    (depth : nat) (idx : Z) (w : world) :
  dataset_laionhuman_w_control.LaionHumanSD.use_control self = true ->
  dataset_laionhuman_w_control.LaionHumanSD.control_type self <> "canny" ->
  dataset_laionhuman_w_control.LaionHumanSD.control_type self <> "hed" ->
  dataset_laionhuman_w_control.LaionHumanSD.data self <> [] ->
  exists w',
    dataset_laionhuman_w_control.LaionHumanSD.getitem self depth idx w
    = (Raise RecursionError, w').
Proof.
  intros Hu Hc Hh Hd.
  apply try_next_all_raise.
  - destruct (dataset_laionhuman_w_control.LaionHumanSD.data self);
      [contradiction|simpl; lia].
  - intros i w0. apply build_unsupported; assumption.
Qed.

Lemma unsupported_control_type_retries_forever_witness :
  exists w',
    dataset_laionhuman_w_control.LaionHumanSD.getitem
      (laion_ds [laion_item "wide.png" (Some "a dog")]
         (transforms.SizePair 512 512) true "pose")
      5 0 world0
    = (Raise RecursionError, w').
Proof.
  apply (unsupported_control_type_retries_forever
           (laion_ds [laion_item "wide.png" (Some "a dog")]
              (transforms.SizePair 512 512) true "pose") 5 0 world0);
    simpl; congruence.
Defined.

(** C10: a sample of the control-enabled LaionHumanSD built with
    [use_control = False] has None under control_image, while image and
    reference are the transformed picture of a record that was read,
    text_input_ids the tokens of its caption after dropout, and
    drop_image_embed 0 or 1. *)
Theorem no_control_gives_none
    {num T} `{PyFloat num}
    (self : dataset_laionhuman_w_control.LaionHumanSD.t num T)
    (depth : nat) (idx : Z) (w : world)
    (s : dataset_laionhuman_w_control.LaionHumanSD.sample T) (w' : world) :
  dataset_laionhuman_w_control.LaionHumanSD.use_control self = false ->
  dataset_laionhuman_w_control.LaionHumanSD.getitem self depth idx w = (Ok s, w') ->
  dataset_laionhuman_w_control.LaionHumanSD.control_image s = None /\
  exists idx' w1 w2 w3 it path wd ht prompt,
    list_getitem (dataset_laionhuman_w_control.LaionHumanSD.data self) idx' = Ok it /\
    it !! "img_path" = Some path /\ fs w1 path = Some (wd, ht) /\
    it !! "prompt" = Some prompt /\
    dataset_laionhuman_w_control.LaionHumanSD.transform self
      (mk_picture path wd ht) w1
    = (Ok (dataset_laionhuman_w_control.LaionHumanSD.image s), w2) /\
    dataset_laionhuman_w_control.LaionHumanSD.transform self
      (mk_picture path wd ht) w2
    = (Ok (dataset_laionhuman_w_control.LaionHumanSD.reference s), w3) /\
    let pd :=
      conditional_dropout
        (dataset_laionhuman_w_control.LaionHumanSD.i_drop_rate self)
        (dataset_laionhuman_w_control.LaionHumanSD.t_drop_rate self)
        (dataset_laionhuman_w_control.LaionHumanSD.ti_drop_rate self)
        (float_of_draw (py_rng w3 0%nat)) prompt in
    dataset_laionhuman_w_control.LaionHumanSD.text_input_ids s
    = dataset_laionhuman_w_control.LaionHumanSD.tokenizer self (fst pd) /\
    dataset_laionhuman_w_control.LaionHumanSD.drop_image_embed s = snd pd /\
    (snd pd = 0 \/ snd pd = 1).
Proof.
  intros Hu E.
  apply getitem_ok in E as (idx' & w1 & img & ref & ctl & prompt & w3 & Eb & Ef).
  apply finish_ok in Ef as (Hi & Hr & Hc & Ht & Hd).
  apply build_ok in Eb as (it & path & wd & ht & w2 & Hit & Hp & Hf & Hpr & Ei & Er & Hctl).
  rewrite Hu in Hctl. subst ctl img ref.
  split; [assumption|].
  exists idx', w1, w2, w3, it, path, wd, ht, prompt.
  repeat split; try assumption.
  unfold conditional_dropout.
  destruct (float_lt _ _); [auto|].
  destruct (float_lt _ _); [auto|].
  destruct (float_lt _ _); auto.
Qed.

Lemma no_control_gives_none_witness :
  exists s w',
    dataset_laionhuman_w_control.LaionHumanSD.getitem
      (laion_ds two_records (transforms.SizePair 512 512) false "canny")
      3 0 world_torch = (Ok s, w') /\
    dataset_laionhuman_w_control.LaionHumanSD.control_image s = None /\
    dataset_laionhuman_w_control.LaionHumanSD.text_input_ids s = "a dog" /\
    dataset_laionhuman_w_control.LaionHumanSD.drop_image_embed s = 0.
Proof.
  destruct (dataset_laionhuman_w_control.LaionHumanSD.getitem
              (laion_ds two_records (transforms.SizePair 512 512) false "canny")
              3 0 world_torch) as [[s|e] w'] eqn:E;
    [|vm_compute in E; discriminate].
  exists s, w'. split; [reflexivity|].
  split.
  - exact (proj1 (no_control_gives_none
                    (laion_ds two_records (transforms.SizePair 512 512) false "canny")
                    3 0 world_torch s w' eq_refl E)).
  - vm_compute in E. injection E as <- _. split; reflexivity.
Defined.

(** ** Alignment of image, reference and control *)

Lemma CenterCrop_exact (h w : Z) (r : picture) :
  width r = w -> height r = h ->
  transforms.CenterCrop (transforms.SizePair h w) r = transforms.crop r 0 0 h w.
Proof.
  intros Hw Hh. unfold transforms.CenterCrop. simpl transforms.setup_size.
  cbv zeta. rewrite Hw, Hh.
  rewrite !Z.gtb_ltb, !Z.ltb_irrefl.
  simpl. rewrite Hw, Hh, !Z.sub_diag. reflexivity.
Qed.

(** Cutting the whole frame out of a picture moves no pixel. *)
Lemma crop_whole_frame (p c : picture) :
  0 < width p -> 0 < height p ->
  transforms.crop p 0 0 (height p) (width p) = Ok c -> aligned c p.
Proof.
  intros Hw Hh. unfold transforms.crop.
  destruct ((height p <? 0) || (width p <? 0)); [discriminate|].
  intros E. injection E as <-. unfold aligned, src_loc. simpl.
  split; [reflexivity|]. split; [reflexivity|].
  intros x y _ _.
  assert (Nw : ~ (inject_Z (width p) == 0)%Q).
  { change 0%Q with (inject_Z 0). rewrite inject_Z_injective. lia. }
  assert (Nh : ~ (inject_Z (height p) == 0)%Q).
  { change 0%Q with (inject_Z 0). rewrite inject_Z_injective. lia. }
  split; field; assumption.
Qed.

Section LaionHumanSD_alignment.
Import dataset_laionhuman_w_control.
Context {num T : Type} `{PyFloat num}.
Variable self : LaionHumanSD.t num T.
Variables h wd : Z.
Hypothesis size_pair : LaionHumanSD.size self = transforms.SizePair h wd.

Lemma transform_pair raw w out w' :
  LaionHumanSD.transform self raw w = (Ok out, w') ->
  exists r c,
    transforms.Resize (transforms.SizePair h wd) raw = Ok r /\
    transforms.crop r 0 0 h wd = Ok c /\
    out = transforms.Normalize (transforms.ToTensor c) /\ w' = w.
Proof.
  unfold LaionHumanSD.transform. rewrite size_pair. intros E.
  apply bind_ok in E as (r & w1 & Er & E). apply lift_ok in Er as (Er & ->).
  apply bind_ok in E as (c & w1 & Ec & E).
  apply ret_ok in E as (-> & ->).
  pose proof (Resize_pair_ok _ _ _ _ Er) as (Hrw & Hrh & _).
  unfold transforms.RandomCrop in Ec. simpl transforms.setup_size in Ec.
  apply bind_ok in Ec as (p & w2 & Ep & Ec).
  pose proof (get_params_exact r w) as G. rewrite Hrw, Hrh in G.
  rewrite G in Ep. injection Ep as <- <-.
  apply lift_ok in Ec as (Ec & ->).
  exists r, c. auto.
Qed.

Lemma control_transform_pair ci w out w' :
  LaionHumanSD.control_transform self (Some ci) w = (Ok out, w') ->
  exists r c,
    transforms.Resize (transforms.SizePair h wd) ci = Ok r /\
    transforms.crop r 0 0 h wd = Ok c /\
    out = transforms.ToTensor c.
Proof.
  unfold LaionHumanSD.control_transform. rewrite size_pair. intros E.
  apply bind_ok in E as (r & w1 & Er & E). apply lift_ok in Er as (Er & ->).
  apply bind_ok in E as (c & w1 & Ec & E). apply lift_ok in Ec as (Ec & ->).
  apply ret_ok in E as (-> & _).
  pose proof (Resize_pair_ok _ _ _ _ Er) as (Hrw & Hrh & _).
  rewrite (CenterCrop_exact _ _ _ Hrw Hrh) in Ec.
  exists r, c. auto.
Qed.

(** Resize to a pair forgets the size that came in. *)
Lemma Resize_pair_frame a b ra rb :
  geom a = geom b ->
  transforms.Resize (transforms.SizePair h wd) a = Ok ra ->
  transforms.Resize (transforms.SizePair h wd) b = Ok rb ->
  same_frame ra rb.
Proof.
  intros Hg Ea Eb.
  apply Resize_pair_ok in Ea as (? & ? & ? & _).
  apply Resize_pair_ok in Eb as (? & ? & ? & _).
  repeat split; congruence.
Qed.

Lemma getitem_frames depth idx w s w' :
  LaionHumanSD.getitem self depth idx w = (Ok s, w') ->
  same_frame (LaionHumanSD.image s) (LaionHumanSD.reference s) /\
  forall c, LaionHumanSD.control_image s = Some c ->
            same_frame (LaionHumanSD.image s) c.
Proof.
  intros E.
  apply getitem_ok in E as (idx' & w1 & img & ref & ctl & prompt & w3 & Eb & Ef).
  apply finish_ok in Ef as (Hi & Hr & Hc & _).
  apply build_ok in Eb
    as (it & path & w0 & ht & w2 & _ & _ & _ & _ & Ei & Er & Hctl).
  rewrite Hi, Hr, Hc.
  apply transform_pair in Ei as (ri & ci & Eri & Eci & -> & _).
  apply transform_pair in Er as (rr & cr & Err & Ecr & -> & _).
  split.
  - assert (F : same_frame ci cr).
    { eapply crop_frame; [|exact Eci|exact Ecr].
      eapply Resize_pair_frame; [reflexivity|exact Eri|exact Err]. }
    destruct F as (? & ? & ?). repeat split; assumption.
  - intros c Ec. destruct (LaionHumanSD.use_control self).
    + destruct Hctl as (raw_c & c' & -> & Ect & Hsrc). injection Ec as ->.
      apply control_transform_pair in Ect as (rc & cc & Erc & Ecc & ->).
      assert (Hg : geom (mk_picture path w0 ht) = geom raw_c).
      { destruct Hsrc as [(_ & ->)|(_ & Eh)]; [reflexivity|].
        unfold LaionHumanSD.run_hed in Eh.
        destruct (LaionHumanSD.hed self _ _) as [[a b]|]; [|discriminate].
        injection Eh as <-. reflexivity. }
      assert (F : same_frame ci cc).
      { eapply crop_frame; [|exact Eci|exact Ecc].
        eapply Resize_pair_frame; [exact Hg|exact Eri|exact Erc]. }
      destruct F as (? & ? & ?). repeat split; assumption.
    + congruence.
Qed.

End LaionHumanSD_alignment.

(** X23: where the three pictures do share their geometry.  In a sample
    of BaseDataset, and in a sample of the control-enabled LaionHumanSD
    whose [size] is an (H, W) pair, image, reference and control (when
    there is one) went through the same geometric transform: they have
    the same size, and a pixel of one shows the same place of its source
    as the pixel at that position of the others.  In BaseDataset the one
    crop position sampled is the whole frame (0, 0, 512, 512), and
    cutting it out of any of the three moves no pixel. *)
Theorem modalities_aligned :
  (forall T (self : BaseDataset.t T) idx w s w',
      BaseDataset.getitem self idx w = (Ok s, w') ->
      aligned (BaseDataset.image s) (BaseDataset.reference s) /\
      aligned (BaseDataset.image s) (BaseDataset.control_image s) /\
      (forall p,
          p = BaseDataset.image s \/ p = BaseDataset.reference s \/
          p = BaseDataset.control_image s ->
          exists c, transforms.crop p 0 0 512 512 = Ok c /\ aligned c p)) /\
  (forall num T (F : PyFloat num)
          (self : dataset_laionhuman_w_control.LaionHumanSD.t num T)
          h wd depth idx w s w',
      dataset_laionhuman_w_control.LaionHumanSD.size self
        = transforms.SizePair h wd ->
      dataset_laionhuman_w_control.LaionHumanSD.getitem self depth idx w
        = (Ok s, w') ->
      aligned (dataset_laionhuman_w_control.LaionHumanSD.image s)
              (dataset_laionhuman_w_control.LaionHumanSD.reference s) /\
      (forall c,
          dataset_laionhuman_w_control.LaionHumanSD.control_image s = Some c ->
          aligned (dataset_laionhuman_w_control.LaionHumanSD.image s) c)).
Proof.
  split.
  - intros T self idx w s w' E.
    pose proof (BaseDataset_getitem_frames _ _ _ _ _ E) as (Fr & Fc).
    split; [now apply same_frame_aligned|].
    split; [now apply same_frame_aligned|].
    apply BaseDataset_getitem_ok in E
      as (it & p_img & p_ref & p_ctl & w0 & ht & wr & hr & wc & hc
          & img0 & ref0 & ctl0 & _ & _ & _ & _ & _ & _ & _ & _
          & _ & _ & _ & Eti & _).
    apply image_transform_params in Eti as (_ & _ & Hw & Hh).
    assert (D : forall p, p = BaseDataset.image s \/ p = BaseDataset.reference s \/
                          p = BaseDataset.control_image s ->
                          width p = 512 /\ height p = 512).
    { destruct Fr as (? & ? & _), Fc as (? & ? & _).
      intros p [ -> | [ -> | -> ] ]; split; congruence. }
    intros p Hp. destruct (D p Hp) as (Hpw & Hph).
    destruct (crop_ok p 0 0 512 512) as (c & Ec & _); [lia|lia|].
    exists c. split; [exact Ec|].
    apply crop_whole_frame; [lia|lia|]. now rewrite Hpw, Hph.
  - intros num T F self h wd depth idx w s w' Hs E.
    pose proof (getitem_frames self h wd Hs _ _ _ _ _ E) as (Fr & Fc).
    split; [now apply same_frame_aligned|].
    intros c Hc. apply same_frame_aligned. now apply Fc.
Qed.

Lemma modalities_aligned_witness :
  exists s w',
    BaseDataset.getitem (base_ds None) 0 world0 = (Ok s, w') /\
    aligned (BaseDataset.image s) (BaseDataset.reference s) /\
    aligned (BaseDataset.image s) (BaseDataset.control_image s).
Proof.
  destruct (BaseDataset.getitem (base_ds None) 0 world0) as [[s|e] w'] eqn:E;
    [|vm_compute in E; discriminate].
  exists s, w'. split; [reflexivity|].
  destruct (proj1 modalities_aligned string (base_ds None) 0 world0 s w' E)
    as (Hr & Hc & _).
  split; assumption.
Defined.

(** C1: the control-enabled LaionHumanSD does not keep image, reference
    and control on one crop.  [transform] ends in RandomCrop and is run
    once for the image and once more for the reference, each run taking
    its own draw, while [control_transform] cuts at the centre; the crop
    position of the image is never handed to the control map, as
    BaseDataset does with [(i, j, h, w)].  With [size] a single number
    Resize keeps the aspect of the picture and the three windows differ:
    on a 1024 x 512 picture with [size = 512] they start at columns
    100, 300 and 256, and the pixel at (0, 0) of the image shows another
    place of the source than the pixel at (0, 0) of the control map or
    of the reference. *)
Lemma crops_differ_with_int_size :
  exists s c w',
    dataset_laionhuman_w_control.LaionHumanSD.getitem
      (laion_ds [laion_item "wide.png" (Some "a dog")]
         (transforms.SizeInt 512) true "canny")
      0 0 world_torch = (Ok s, w') /\
    dataset_laionhuman_w_control.LaionHumanSD.control_image s = Some c /\
    history (dataset_laionhuman_w_control.LaionHumanSD.image s)
    = [TvResize 512 1024; TvCrop 0 100 512 512; ToTensorOp; NormalizeOp] /\
    history (dataset_laionhuman_w_control.LaionHumanSD.reference s)
    = [TvResize 512 1024; TvCrop 0 300 512 512; ToTensorOp; NormalizeOp] /\
    history c
    = [CannyOp 100 200; TvResize 512 1024; TvCrop 0 256 512 512; ToTensorOp] /\
    ~ aligned (dataset_laionhuman_w_control.LaionHumanSD.image s) c /\
    ~ aligned (dataset_laionhuman_w_control.LaionHumanSD.image s)
              (dataset_laionhuman_w_control.LaionHumanSD.reference s).
Proof.
  eexists _, _, _. split; [vm_compute; reflexivity|].
  split; [reflexivity|].
  do 3 (split; [reflexivity|]).
  split; intros (_ & _ & A);
    destruct (A 0 0 ltac:(simpl; lia) ltac:(simpl; lia)) as (A1 & _);
    vm_compute in A1; discriminate.
Qed.

(** ** Captions *)




(** ** Dropout *)





(** ** Rounding to the nearest double *)

Section float64_round.
Local Open Scope Q_scope.

Lemma pow2_pos k : 0 < float64.pow2 k.
Proof. apply Qpower_0_lt. reflexivity. Qed.

Lemma pow2_add a b : float64.pow2 (a + b) == float64.pow2 a * float64.pow2 b.
Proof. apply Qpower_plus. discriminate. Qed.

Lemma pow2_Z k : (0 <= k)%Z -> float64.pow2 k == inject_Z (2 ^ k).
Proof. intros H. symmetry. apply (Zpower_Qpower 2 k H). Qed.

Lemma pow2_ge1 k : (0 <= k)%Z -> 1 <= float64.pow2 k.
Proof.
  intros H. rewrite (pow2_Z k H).
  change 1 with (inject_Z 1). rewrite <- Zle_Qle.
  assert (0 < 2 ^ k)%Z by (apply Z.pow_pos_nonneg; lia). lia.
Qed.

Lemma pow2_le a b : (a <= b)%Z -> float64.pow2 a <= float64.pow2 b.
Proof.
  intros H. replace b with (a + (b - a))%Z by lia. rewrite pow2_add.
  pose proof (pow2_pos a). pose proof (pow2_ge1 (b - a) ltac:(lia)). nra.
Qed.

Lemma pow2_succ a : float64.pow2 (a + 1) == 2 * float64.pow2 a.
Proof. rewrite pow2_add. change (float64.pow2 1) with 2. ring. Qed.

Lemma pow2_lt a b : (a < b)%Z -> 2 * float64.pow2 a <= float64.pow2 b.
Proof. intros H. rewrite <- pow2_succ. apply pow2_le. lia. Qed.

Lemma rne_near n d : (0 < d)%Z ->
  (2 * (float64.rne n d * d) - d <= 2 * n <= 2 * (float64.rne n d * d) + d)%Z.
Proof.
  intros Hd. unfold float64.rne.
  pose proof (Z.div_mod n d ltac:(lia)) as E.
  pose proof (Z.mod_pos_bound n d Hd) as B.
  destruct (Z.ltb_spec (2 * (n mod d)) d); [nia|].
  destruct (Z.ltb_spec d (2 * (n mod d))); [nia|].
  destruct (Z.even (n / d)); nia.
Qed.

Lemma round_int_near q :
  inject_Z (float64.round_int q) - (1 # 2) <= q <= inject_Z (float64.round_int q) + (1 # 2).
Proof.
  unfold float64.round_int. pose proof (Qred_correct q) as E.
  destruct (Qred q) as [n d]. cbn [Qnum Qden].
  pose proof (rne_near n (Zpos d) ltac:(lia)) as H.
  set (r := float64.rne n (Zpos d)) in *. clearbody r.
  rewrite <- E.
  unfold Qle, Qminus, Qplus, Qopp, inject_Z. cbn [Qnum Qden].
  split; nia.
Qed.

Lemma round_int_proper q q' : q == q' -> float64.round_int q = float64.round_int q'.
Proof. intros H. unfold float64.round_int. rewrite (Qred_complete _ _ H). reflexivity. Qed.

Lemma round_int_mono q q' : q <= q' -> (float64.round_int q <= float64.round_int q')%Z.
Proof.
  intros H.
  destruct (Z.le_gt_cases (float64.round_int q) (float64.round_int q')) as [L|L]; [exact L|].
  exfalso.
  pose proof (round_int_near q) as [A _]. pose proof (round_int_near q') as [_ B].
  assert (C : inject_Z (float64.round_int q') + 1 <= inject_Z (float64.round_int q)).
  { change 1 with (inject_Z 1). rewrite <- inject_Z_plus, <- Zle_Qle. lia. }
  assert (E : q == q') by lra.
  rewrite (round_int_proper _ _ E) in L. lia.
Qed.

Lemma round_int_Z z : float64.round_int (inject_Z z) = z.
Proof.
  pose proof (round_int_near (inject_Z z)) as [A B].
  set (r := float64.round_int (inject_Z z)) in *. clearbody r.
  unfold Qle, Qminus, Qplus, Qopp, inject_Z in A, B. cbn [Qnum Qden] in A, B. lia.
Qed.

Lemma scale_proper x y : x == y -> float64.scale x = float64.scale y.
Proof.
  intros H. unfold float64.scale. rewrite (Qred_complete _ _ H).
  set (s0 := (52 - _)%Z).
  assert (E : Qle_bool (float64.pow2 52) (x * float64.pow2 s0) = Qle_bool (float64.pow2 52) (y * float64.pow2 s0)).
  { apply eq_true_iff_eq. rewrite !Qle_bool_iff, H. reflexivity. }
  rewrite E. reflexivity.
Qed.

Lemma scale_inv x : 0 < x -> float64.pow2 52 <= x * float64.pow2 (float64.scale x) /\ x * float64.pow2 (float64.scale x) < float64.pow2 53.
Proof.
  intros Hx. unfold float64.scale.
  pose proof (Qred_correct x) as Ex.
  destruct (Qred x) as [n d] eqn:En. cbn [Qnum Qden].
  assert (Hn : (0 < n)%Z).
  { rewrite <- Ex in Hx. unfold Qlt in Hx. cbn in Hx. lia. }
  set (A := Z.log2 n). set (B := Z.log2 (Zpos d)).
  pose proof (Z.log2_spec n Hn) as [A1 A2]. fold A in A1, A2.
  pose proof (Z.log2_spec (Zpos d) ltac:(lia)) as [B1 B2]. fold B in B1, B2.
  assert (HA : (0 <= A)%Z) by apply Z.log2_nonneg.
  assert (HB : (0 <= B)%Z) by apply Z.log2_nonneg.
  set (s0 := (52 - (A - B))%Z).
  assert (K : float64.pow2 s0 * float64.pow2 A == float64.pow2 52 * float64.pow2 B).
  { rewrite <- !pow2_add. replace (s0 + A)%Z with (52 + B)%Z by (unfold s0; lia). reflexivity. }
  assert (N1 : float64.pow2 A <= inject_Z n) by (rewrite (pow2_Z A HA), <- Zle_Qle; exact A1).
  assert (N2 : inject_Z n < 2 * float64.pow2 A).
  { rewrite <- pow2_succ, (pow2_Z (A + 1)) by lia. rewrite <- Zlt_Qlt. exact A2. }
  assert (D1 : float64.pow2 B <= inject_Z (Zpos d)) by (rewrite (pow2_Z B HB), <- Zle_Qle; exact B1).
  assert (D2 : inject_Z (Zpos d) < 2 * float64.pow2 B).
  { rewrite <- pow2_succ, (pow2_Z (B + 1)) by lia. rewrite <- Zlt_Qlt. exact B2. }
  assert (XD : x * inject_Z (Zpos d) == inject_Z n).
  { rewrite <- Ex. unfold Qeq, Qmult, inject_Z. cbn [Qnum Qden]. lia. }
  pose proof (pow2_pos A) as PA. pose proof (pow2_pos B) as PB.
  pose proof (pow2_pos s0) as P0. pose proof (pow2_pos 52) as P52.
  assert (P53 : float64.pow2 53 == 2 * float64.pow2 52) by (rewrite <- pow2_succ; reflexivity).
  set (D := inject_Z (Zpos d)) in *. set (N := inject_Z n) in *.
  set (pA := float64.pow2 A) in *. set (pB := float64.pow2 B) in *. set (p0 := float64.pow2 s0) in *.
  set (p52 := float64.pow2 52) in *.
  assert (U : x * p0 < 2 * p52).
  { assert (x * p0 * D < 2 * p52 * D) by nra. nra. }
  assert (L : p52 < 2 * (x * p0)).
  { assert (p52 * D < 2 * (x * p0) * D) by nra. nra. }
  destruct (Qle_bool p52 (x * p0)) eqn:T.
  - apply Qle_bool_iff in T. fold p0. rewrite P53. split; [exact T|exact U].
  - assert (T' : x * p0 < p52).
    { apply Qnot_le_lt. intros C. apply Qle_bool_iff in C. congruence. }
    rewrite pow2_succ. fold p0. rewrite P53. split; nra.
Qed.

Lemma round_int_pow2 k : (0 <= k)%Z -> float64.round_int (float64.pow2 k) = (2 ^ k)%Z.
Proof. intros H. rewrite (round_int_proper _ _ (pow2_Z k H)). apply round_int_Z. Qed.

Lemma round_pos_proper x y : x == y -> float64.round_pos x = float64.round_pos y.
Proof.
  intros H. unfold float64.round_pos. rewrite (scale_proper _ _ H).
  assert (E : x * float64.pow2 (float64.scale y) == y * float64.pow2 (float64.scale y)) by (rewrite H; reflexivity).
  rewrite (round_int_proper _ _ E). reflexivity.
Qed.

Lemma round_pos_mantissa x : 0 < x ->
  float64.pow2 52 <= inject_Z (float64.round_int (x * float64.pow2 (float64.scale x))) <= float64.pow2 53.
Proof.
  intros Hx. destruct (scale_inv x Hx) as [L U].
  split.
  - rewrite (pow2_Z 52) by lia. rewrite <- Zle_Qle.
    rewrite <- (round_int_pow2 52) by lia. apply round_int_mono, L.
  - rewrite (pow2_Z 53) by lia. rewrite <- Zle_Qle.
    rewrite <- (round_int_pow2 53) by lia. apply round_int_mono. lra.
Qed.

Lemma div_pow2 a k : a / float64.pow2 k == a * float64.pow2 (- k).
Proof. unfold Qdiv, float64.pow2. rewrite Qpower_opp. reflexivity. Qed.

Lemma pow2_inv k : float64.pow2 k * float64.pow2 (- k) == 1.
Proof. rewrite <- pow2_add. replace (k + - k)%Z with 0%Z by lia. reflexivity. Qed.

Lemma round_pos_mono x y : 0 < x -> x <= y -> float64.round_pos x <= float64.round_pos y.
Proof.
  intros Hx Hxy. assert (Hy : 0 < y) by lra.
  destruct (scale_inv x Hx) as [Lx Ux]. destruct (scale_inv y Hy) as [Ly Uy].
  destruct (round_pos_mantissa x Hx) as [Mx1 Mx2].
  destruct (round_pos_mantissa y Hy) as [My1 My2].
  unfold float64.round_pos. rewrite !div_pow2.
  set (sx := float64.scale x) in *. set (sy := float64.scale y) in *.
  pose proof (pow2_pos sx) as Px. pose proof (pow2_pos sy) as Py.
  pose proof (pow2_pos (- sx)) as Qx. pose proof (pow2_pos (- sy)) as Qy.
  pose proof (pow2_pos 52) as P52.
  assert (P53 : float64.pow2 53 == 2 * float64.pow2 52) by (rewrite <- pow2_succ; reflexivity).
  assert (S : (sy <= sx)%Z).
  { destruct (Z.le_gt_cases sy sx) as [S|S]; [exact S|]. exfalso.
    pose proof (pow2_lt sx sy S) as T.
    assert (x * float64.pow2 sy <= y * float64.pow2 sy) by nra.
    assert (2 * (x * float64.pow2 sx) <= x * float64.pow2 sy) by nra.
    lra. }
  destruct (Z.eq_dec sx sy) as [E|NE].
  - rewrite E in *.
    assert (R : (float64.round_int (x * float64.pow2 sy) <= float64.round_int (y * float64.pow2 sy))%Z).
    { apply round_int_mono. nra. }
    rewrite Zle_Qle in R. nra.
  - assert (T : 2 * float64.pow2 (- sx) <= float64.pow2 (- sy)) by (apply pow2_lt; lia).
    set (rx := inject_Z (float64.round_int (x * float64.pow2 sx))) in *.
    set (ry := inject_Z (float64.round_int (y * float64.pow2 sy))) in *.
    assert (rx * float64.pow2 (- sx) <= 2 * float64.pow2 52 * float64.pow2 (- sx)) by nra.
    assert (float64.pow2 52 * float64.pow2 (- sy) <= ry * float64.pow2 (- sy)) by nra.
    nra.
Qed.

Lemma round_pos_positive x : 0 < x -> 0 < float64.round_pos x.
Proof.
  intros Hx. destruct (round_pos_mantissa x Hx) as [M _].
  unfold float64.round_pos. rewrite div_pow2.
  pose proof (pow2_pos (- float64.scale x)). pose proof (pow2_pos 52). nra.
Qed.

Lemma round_pos_exact z : (0 < z < 2 ^ 53)%Z -> float64.round_pos (inject_Z z) == inject_Z z.
Proof.
  intros Hz.
  assert (Hx : 0 < inject_Z z) by (change 0 with (inject_Z 0); rewrite <- Zlt_Qlt; lia).
  destruct (scale_inv _ Hx) as [L U].
  unfold float64.round_pos. set (s := float64.scale (inject_Z z)) in *.
  assert (Z53 : inject_Z z < float64.pow2 53).
  { rewrite (pow2_Z 53) by lia. rewrite <- Zlt_Qlt. lia. }
  assert (P53 : float64.pow2 53 == 2 * float64.pow2 52) by (rewrite <- pow2_succ; reflexivity).
  pose proof (pow2_pos 52) as P52.
  assert (Hs : (0 <= s)%Z).
  { destruct (Z.le_gt_cases 0 s) as [S|S]; [exact S|]. exfalso.
    pose proof (pow2_lt s 0 S) as T. change (float64.pow2 0) with 1 in T.
    pose proof (pow2_pos s). nra. }
  assert (E : inject_Z z * float64.pow2 s == inject_Z (z * 2 ^ s)).
  { rewrite (pow2_Z s Hs), inject_Z_mult. reflexivity. }
  rewrite (round_int_proper _ _ E), round_int_Z, inject_Z_mult, <- (pow2_Z s Hs).
  pose proof (pow2_pos s). field. lra.
Qed.

Lemma round_pos_error x : 0 < x ->
  x - x * float64.pow2 (- 53) <= float64.round_pos x <= x + x * float64.pow2 (- 53).
Proof.
  intros Hx. destruct (scale_inv x Hx) as [L U].
  pose proof (round_int_near (x * float64.pow2 (float64.scale x))) as [A B].
  unfold float64.round_pos. rewrite div_pow2.
  set (s := float64.scale x) in *. set (r := inject_Z (float64.round_int (x * float64.pow2 s))) in *.
  pose proof (pow2_inv s) as I. pose proof (pow2_pos s) as Ps.
  pose proof (pow2_pos (- s)) as Qs.
  assert (H53 : float64.pow2 52 * float64.pow2 (- 53) == 1 # 2) by reflexivity.
  pose proof (pow2_pos (- 53)) as P53.
  set (u := float64.pow2 (- 53)) in *. set (p52 := float64.pow2 52) in *.
  set (p := float64.pow2 s) in *. set (q := float64.pow2 (- s)) in *.
  assert (X : x == x * p * q) by (rewrite <- Qmult_assoc, I; ring).
  assert (Hh : (1 # 2) * q <= x * u).
  { assert ((1 # 2) * q == p52 * q * u) by (rewrite <- H53; ring).
    assert (p52 * q <= x * p * q) by nra.
    assert (p52 * q * u <= x * p * q * u) by nra.
    assert (x * p * q * u == x * u) by (rewrite <- X; reflexivity).
    lra. }
  assert ((x * p - (1 # 2)) * q <= r * q) by nra.
  assert (r * q <= (x * p + (1 # 2)) * q) by nra.
  assert ((x * p - (1 # 2)) * q == x - (1#2) * q) by (rewrite X at 2; ring).
  assert ((x * p + (1 # 2)) * q == x + (1#2) * q) by (rewrite X at 2; ring).
  split; lra.
Qed.

Lemma round_proper x y : x == y -> float64.round x = float64.round y.
Proof.
  intros H. unfold float64.round. rewrite H.
  destruct (y ?= 0); [reflexivity|..].
  - assert (E : - x == - y) by (rewrite H; reflexivity).
    rewrite (round_pos_proper _ _ E). reflexivity.
  - rewrite (round_pos_proper _ _ H). reflexivity.
Qed.

Lemma round_of_pos x : 0 < x -> float64.round x = float64.round_pos x.
Proof. intros H. unfold float64.round. apply Qgt_alt in H. rewrite H. reflexivity. Qed.

Lemma round_0 x : x == 0 -> float64.round x = 0.
Proof. intros H. unfold float64.round. apply Qeq_alt in H. rewrite H. reflexivity. Qed.

Lemma round_mono x y : 0 <= x -> x <= y -> float64.round x <= float64.round y.
Proof.
  intros Hx Hxy.
  destruct (Qlt_le_dec 0 x) as [Px|Zx].
  - rewrite (round_of_pos x Px), (round_of_pos y) by lra. apply round_pos_mono; assumption.
  - rewrite (round_0 x) by lra.
    destruct (Qlt_le_dec 0 y) as [Py|Zy].
    + rewrite (round_of_pos y Py). apply Qlt_le_weak, round_pos_positive, Py.
    + rewrite (round_0 y) by lra. lra.
Qed.

Lemma round_exact z : (0 <= z < 2 ^ 53)%Z -> float64.round (inject_Z z) == inject_Z z.
Proof.
  intros Hz. destruct (Z.eq_dec z 0%Z) as [->|N]; [reflexivity|].
  rewrite round_of_pos.
  - apply round_pos_exact. lia.
  - change 0 with (inject_Z 0). rewrite <- Zlt_Qlt. lia.
Qed.

Lemma round_error x : 0 <= x ->
  x - x * float64.pow2 (- 53) <= float64.round x <= x + x * float64.pow2 (- 53).
Proof.
  intros Hx. destruct (Qlt_le_dec 0 x) as [Px|Zx].
  - rewrite (round_of_pos x Px). apply round_pos_error, Px.
  - rewrite (round_0 x) by lra. assert (x == 0) by lra.
    pose proof (pow2_pos (-53)). nra.
Qed.

Lemma round_nonneg x : 0 <= x -> 0 <= float64.round x.
Proof. intros H. rewrite <- (round_0 0) by reflexivity. apply round_mono; lra. Qed.

End float64_round.

(** ** linspace in double precision *)

Section linspace.
Import dataset_laionhuman_w_control.

Lemma of_int_exact (z : Z) :
  0 <= z < 2 ^ 53 -> (float64.of_int z == inject_Z z)%Q.
Proof. apply round_exact. Qed.

Lemma of_int_0 : float64.of_int 0 = 0%Q.
Proof. apply round_0. reflexivity. Qed.

Lemma mul_0_l (x : Q) : float64.mul 0 x = 0%Q.
Proof. apply round_0. ring. Qed.

Lemma mul_0_r (x : Q) : float64.mul x 0 = 0%Q.
Proof. apply round_0. ring. Qed.

Lemma div_0_l (x : Q) : float64.div 0 x = 0%Q.
Proof. apply round_0. unfold Qdiv. ring. Qed.

Lemma sub_diag (x : Q) : float64.sub x x = 0%Q.
Proof. apply round_0. ring. Qed.

Lemma add_0_l_exact (z : Z) :
  0 <= z < 2 ^ 53 -> (float64.add 0 (float64.of_int z) == inject_Z z)%Q.
Proof.
  intros Hz. unfold float64.add.
  rewrite (round_proper _ (inject_Z z)); [apply round_exact, Hz|].
  rewrite (of_int_exact z Hz). ring.
Qed.

(** The first sample is [start]. *)
Lemma linspace_y_0 (start stop num : Z) :
  0 <= start < 2 ^ 53 -> 1 <= num ->
  Qfloor (BaseVideoDataset.linspace_y start stop num 0) = start.
Proof.
  intros Hs Hn. unfold BaseVideoDataset.linspace_y. cbv zeta.
  assert (E : (1 <? num) && (0 =? num - 1) = false).
  { destruct (Z.ltb_spec 1 num); [|reflexivity].
    destruct (Z.eqb_spec 0 (num - 1)); [lia|reflexivity]. }
  rewrite E, of_int_0.
  assert (Y : (if 0 <? num - 1
               then
                 if Qeq_bool (float64.div (float64.sub (float64.of_int stop)
                                             (float64.of_int start))
                                (float64.of_int (num - 1))) 0
                 then float64.mul (float64.div 0 (float64.of_int (num - 1)))
                        (float64.sub (float64.of_int stop) (float64.of_int start))
                 else float64.mul 0
                        (float64.div (float64.sub (float64.of_int stop)
                                        (float64.of_int start))
                           (float64.of_int (num - 1)))
               else float64.mul 0 (float64.sub (float64.of_int stop)
                                     (float64.of_int start))) = 0%Q).
  { destruct (0 <? num - 1); [destruct (Qeq_bool _ _)|];
      rewrite ?div_0_l; apply mul_0_l. }
  rewrite Y, (add_0_l_exact start Hs). apply Qfloor_Z.
Qed.

(** With [stop = start] every sample is [start]. *)
Lemma linspace_y_flat (start num i : Z) :
  0 <= start < 2 ^ 53 ->
  Qfloor (BaseVideoDataset.linspace_y start start num i) = start.
Proof.
  intros Hs. unfold BaseVideoDataset.linspace_y. cbv zeta.
  destruct ((1 <? num) && (i =? num - 1)).
  - rewrite (of_int_exact start Hs). apply Qfloor_Z.
  - rewrite sub_diag.
    assert (Y : (if 0 <? num - 1
                 then
                   if Qeq_bool (float64.div 0 (float64.of_int (num - 1))) 0
                   then float64.mul (float64.div (float64.of_int i)
                                       (float64.of_int (num - 1))) 0
                   else float64.mul (float64.of_int i)
                          (float64.div 0 (float64.of_int (num - 1)))
                 else float64.mul (float64.of_int i) 0) = 0%Q).
    { destruct (0 <? num - 1); [destruct (Qeq_bool _ _)|];
        rewrite ?div_0_l; apply mul_0_r. }
    rewrite Y, (add_0_l_exact start Hs). apply Qfloor_Z.
Qed.

(** The last sample is [stop]. *)
Lemma linspace_y_last (start stop num : Z) :
  0 <= stop < 2 ^ 53 -> 2 <= num ->
  Qfloor (BaseVideoDataset.linspace_y start stop num (num - 1)) = stop.
Proof.
  intros Hs Hn. unfold BaseVideoDataset.linspace_y. cbv zeta.
  destruct (Z.ltb_spec 1 num); [|lia]. rewrite Z.eqb_refl. simpl andb. cbv iota.
  rewrite (of_int_exact stop Hs). apply Qfloor_Z.
Qed.

Lemma inject_Z_pos (z : Z) : 0 < z -> (0 < inject_Z z)%Q.
Proof. intros H. change 0%Q with (inject_Z 0). now rewrite <- Zlt_Qlt. Qed.

Lemma inject_Z_nonneg (z : Z) : 0 <= z -> (0 <= inject_Z z)%Q.
Proof. intros H. change 0%Q with (inject_Z 0). now rewrite <- Zle_Qle. Qed.

Lemma Qdiv_pos (a b : Q) : (0 < a -> 0 < b -> 0 < a / b)%Q.
Proof.
  intros Ha Hb. unfold Qdiv. apply Qmult_lt_0_compat; [exact Ha|].
  apply Qinv_lt_0_compat, Hb.
Qed.

Lemma Qdiv_nonneg (a b : Q) : (0 <= a -> 0 < b -> 0 <= a / b)%Q.
Proof.
  intros Ha Hb. unfold Qdiv. apply Qmult_le_0_compat; [exact Ha|].
  apply Qlt_le_weak, Qinv_lt_0_compat, Hb.
Qed.

(** The samples before the last, with the three roundings of numpy. *)
Lemma linspace_y_interp (start stop num i : Z) :
  0 <= start <= stop -> stop < 2 ^ 53 -> 2 <= num <= 2 ^ 53 ->
  0 <= i < num - 1 ->
  (BaseVideoDataset.linspace_y start stop num i
   == interp start (stop - start) (num - 1) i)%Q.
Proof.
  intros Hs Ht Hn Hi. unfold BaseVideoDataset.linspace_y. cbv zeta.
  assert (E : (1 <? num) && (i =? num - 1) = false).
  { destruct (Z.eqb_spec i (num - 1)); [lia|]. apply andb_false_r. }
  rewrite E. destruct (Z.ltb_spec 0 (num - 1)) as [Hd|]; [|lia].
  pose proof (of_int_exact start ltac:(lia)) as Es.
  pose proof (of_int_exact stop ltac:(lia)) as Et.
  pose proof (of_int_exact (num - 1) ltac:(lia)) as Ed.
  pose proof (of_int_exact i ltac:(lia)) as Ei.
  set (sf := float64.of_int start) in *. set (tf := float64.of_int stop) in *.
  set (df := float64.of_int (num - 1)) in *. set (yf := float64.of_int i) in *.
  assert (Edelta : (float64.sub tf sf == inject_Z (stop - start))%Q).
  { unfold float64.sub. rewrite (round_proper _ (inject_Z (stop - start))).
    - apply round_exact. lia.
    - rewrite Es, Et. unfold Z.sub. rewrite inject_Z_plus, inject_Z_opp. ring. }
  set (delta := float64.sub tf sf) in *.
  assert (Estep : float64.div delta df
                  = float64.round (inject_Z (stop - start) / inject_Z (num - 1))%Q).
  { unfold float64.div. apply round_proper. rewrite Edelta, Ed. reflexivity. }
  rewrite !Estep. unfold interp.
  set (step := float64.round (inject_Z (stop - start) / inject_Z (num - 1))%Q).
  assert (Eadd : forall a b : Q, (a == b)%Q ->
            float64.add a sf = float64.round (b + inject_Z start)%Q).
  { intros a b Hab. unfold float64.add. apply round_proper.
    rewrite Hab, Es. reflexivity. }
  destruct (Qeq_bool step 0) eqn:Ez.
  - apply Qeq_bool_iff in Ez.
    assert (Hz : stop - start = 0).
    { destruct (Z.eq_dec (stop - start) 0) as [Z0|NZ]; [exact Z0|]. exfalso.
      assert (P : (0 < inject_Z (stop - start) / inject_Z (num - 1))%Q).
      { apply Qdiv_pos; apply inject_Z_pos; lia. }
      pose proof (round_pos_positive _ P) as Q1.
      unfold step in Ez. rewrite (round_of_pos _ P) in Ez. lra. }
    rewrite (Eadd _ 0%Q).
    + assert (E0 : float64.round (inject_Z i * step) = 0%Q).
      { apply round_0. rewrite Ez. ring. }
      rewrite E0. reflexivity.
    + unfold float64.mul. rewrite (round_0 _); [reflexivity|].
      rewrite Edelta, Hz. ring.
  - rewrite (Eadd _ (float64.round (inject_Z i * step))); [reflexivity|].
    unfold float64.mul. rewrite (round_proper _ (inject_Z i * step)%Q);
      [reflexivity|]. rewrite Ei. reflexivity.
Qed.

Lemma interp_mono (start delta div i j : Z) :
  0 <= start -> 0 <= delta -> 0 < div -> 0 <= i <= j ->
  (interp start delta div i <= interp start delta div j)%Q.
Proof.
  intros Hs Hd Hv Hij. unfold interp.
  pose proof (inject_Z_nonneg start Hs) as S0.
  assert (St : (0 <= float64.round (inject_Z delta / inject_Z div))%Q).
  { apply round_nonneg, Qdiv_nonneg; [apply inject_Z_nonneg|apply inject_Z_pos]; lia. }
  set (step := float64.round (inject_Z delta / inject_Z div)%Q) in *.
  pose proof (inject_Z_nonneg i ltac:(lia)) as I0.
  assert (IJ : (inject_Z i <= inject_Z j)%Q) by (rewrite <- Zle_Qle; lia).
  assert (A : (0 <= inject_Z i * step)%Q) by nra.
  assert (B : (inject_Z i * step <= inject_Z j * step)%Q) by nra.
  pose proof (round_mono _ _ A B) as C.
  pose proof (round_nonneg _ A) as D.
  apply round_mono; lra.
Qed.

Lemma interp_le_stop (start delta div i : Z) :
  0 <= start -> 0 <= delta -> start + delta < 2 ^ 53 ->
  0 < div <= 2 ^ 53 -> 0 <= i < div ->
  (interp start delta div i <= inject_Z (start + delta))%Q.
Proof.
  intros Hs Hd Hb Hv Hi. unfold interp.
  pose proof (inject_Z_nonneg start Hs) as S0.
  pose proof (inject_Z_nonneg delta Hd) as D0.
  pose proof (inject_Z_pos div ltac:(lia)) as V0.
  pose proof (inject_Z_nonneg i ltac:(lia)) as I0.
  assert (Q0 : (0 <= inject_Z delta / inject_Z div)%Q) by now apply Qdiv_nonneg.
  pose proof (round_nonneg _ Q0) as St.
  pose proof (round_error _ Q0) as [_ Er].
  set (q := (inject_Z delta / inject_Z div)%Q) in *.
  set (step := float64.round q) in *.
  assert (Eq : (q * inject_Z div == inject_Z delta)%Q).
  { unfold q. field. lra. }
  assert (I1 : (inject_Z i + 1 <= inject_Z div)%Q).
  { change 1%Q with (inject_Z 1). rewrite <- inject_Z_plus, <- Zle_Qle. lia. }
  assert (V1 : (inject_Z div <= inject_Z (2 ^ 53))%Q) by (rewrite <- Zle_Qle; lia).
  assert (U : (float64.pow2 (- 53) * inject_Z (2 ^ 53) == 1)%Q) by reflexivity.
  pose proof (pow2_pos (- 53)) as U0.
  set (u := float64.pow2 (- 53)) in *. set (B := inject_Z (2 ^ 53)) in *.
  assert (A : (inject_Z i * step <= inject_Z delta)%Q).
  { assert (H1 : (inject_Z i * step <= inject_Z i * (q + q * u))%Q) by nra.
    assert (H2 : (inject_Z i * u <= 1)%Q) by nra.
    assert (H3 : (inject_Z i * (q + q * u) <= (inject_Z i + 1) * q)%Q) by nra.
    assert (H4 : ((inject_Z i + 1) * q <= inject_Z div * q)%Q) by nra.
    lra. }
  assert (A0 : (0 <= inject_Z i * step)%Q) by nra.
  pose proof (round_mono _ _ A0 A) as C.
  rewrite (round_exact delta) in C by lia.
  pose proof (round_nonneg _ A0) as C0.
  rewrite <- (round_exact (start + delta)) by lia.
  apply round_mono; [lra|]. rewrite inject_Z_plus. lra.
Qed.

(** When [delta] is a multiple of [div] nothing is rounded. *)
Lemma interp_exact (start stride div i : Z) :
  0 <= start -> 0 <= stride -> start + stride * div < 2 ^ 53 ->
  0 < div -> 0 <= i <= div ->
  (interp start (stride * div) div i == inject_Z (start + i * stride))%Q.
Proof.
  intros Hs Hst Hb Hv Hi. unfold interp.
  assert (Nd : ~ (inject_Z div == 0)%Q).
  { change 0%Q with (inject_Z 0). rewrite inject_Z_injective. lia. }
  assert (E1 : float64.round (inject_Z (stride * div) / inject_Z div)%Q
               = float64.round (inject_Z stride)).
  { apply round_proper. rewrite inject_Z_mult. field. exact Nd. }
  rewrite E1.
  assert (E2 : float64.round (inject_Z i * float64.round (inject_Z stride))%Q
               = float64.round (inject_Z (i * stride))).
  { apply round_proper. rewrite (round_exact stride) by nia.
    now rewrite inject_Z_mult. }
  rewrite E2.
  assert (E3 : float64.round (float64.round (inject_Z (i * stride))
                              + inject_Z start)%Q
               = float64.round (inject_Z (start + i * stride))).
  { apply round_proper. rewrite (round_exact (i * stride)) by nia.
    rewrite inject_Z_plus. ring. }
  rewrite E3. apply round_exact. nia.
Qed.

(** The rounded sample is within one half of the exact one, and its
    floor within one of the exact floor. *)
Lemma interp_error (start delta div i : Z) :
  0 <= start -> 0 <= delta -> start + delta <= 2 ^ 50 ->
  0 < div -> 0 <= i <= div ->
  let t := (inject_Z start + inject_Z i * (inject_Z delta / inject_Z div))%Q in
  (t - (1 # 2) <= interp start delta div i <= t + (1 # 2))%Q.
Proof.
  intros Hs Hd Hb Hv Hi t. unfold interp.
  pose proof (inject_Z_nonneg start Hs) as S0.
  pose proof (inject_Z_nonneg delta Hd) as D0.
  pose proof (inject_Z_pos div ltac:(lia)) as V0.
  pose proof (inject_Z_nonneg i ltac:(lia)) as I0.
  assert (Q0 : (0 <= inject_Z delta / inject_Z div)%Q) by now apply Qdiv_nonneg.
  pose proof (round_nonneg _ Q0) as St.
  pose proof (round_error _ Q0) as [El Er].
  set (q := (inject_Z delta / inject_Z div)%Q) in *.
  set (step := float64.round q) in *.
  assert (Eq : (q * inject_Z div == inject_Z delta)%Q).
  { unfold q. field. lra. }
  assert (I1 : (inject_Z i <= inject_Z div)%Q) by (rewrite <- Zle_Qle; lia).
  assert (SD : (inject_Z start + inject_Z delta <= inject_Z (2 ^ 50))%Q).
  { rewrite <- inject_Z_plus, <- Zle_Qle. lia. }
  assert (U : (float64.pow2 (- 53) * inject_Z (2 ^ 50) == 1 # 8)%Q) by reflexivity.
  assert (U1 : (float64.pow2 (- 53) <= 1 # 1000)%Q) by (vm_compute; discriminate).
  pose proof (pow2_pos (- 53)) as U0.
  set (u := float64.pow2 (- 53)) in *. set (B := inject_Z (2 ^ 50)) in *.
  set (I := inject_Z i) in *. set (S := inject_Z start) in *.
  set (D := inject_Z delta) in *. set (V := inject_Z div) in *.
  assert (X0 : (0 <= I * q)%Q) by nra.
  assert (XD : (I * q <= D)%Q) by nra.
  set (X := (I * q)%Q) in *.
  assert (EX : (u * X + u * S <= 1 # 8)%Q) by nra.
  assert (UX : (0 <= u * X)%Q) by nra.
  assert (US : (0 <= u * S)%Q) by nra.
  assert (A1 : (I * step <= X + u * X)%Q) by (unfold X; nra).
  assert (A2 : (X - u * X <= I * step)%Q) by (unfold X; nra).
  assert (A0 : (0 <= I * step)%Q) by nra.
  pose proof (round_error _ A0) as [Pl Pr]. fold u in Pl, Pr.
  pose proof (round_nonneg _ A0) as P0.
  set (a := (I * step)%Q) in *. set (p := float64.round a) in *.
  assert (UA : (u * a <= u * X + (1 # 1000) * (u * X))%Q) by nra.
  assert (UA0 : (0 <= u * a)%Q) by nra.
  assert (V00 : (0 <= p + S)%Q) by lra.
  pose proof (round_error _ V00) as [Yl Yr]. fold u in Yl, Yr.
  set (y := float64.round (p + S)) in *.
  assert (UP1 : (u * a * u <= (1 # 1000) * (u * a))%Q).
  { clear - UA0 U1 U0. nra. }
  assert (UP2 : (u * p <= u * (a + a * u))%Q).
  { clear - Pr U0. nra. }
  assert (UP : (u * p <= u * a + (1 # 1000) * (u * a))%Q).
  { clear - UP1 UP2. lra. }
  assert (UP0 : (0 <= u * p)%Q) by nra.
  unfold t. fold X. split; lra.
Qed.

Lemma interp_near (start delta div i : Z) :
  0 <= start -> 0 <= delta -> start + delta <= 2 ^ 50 ->
  0 < div -> 0 <= i <= div ->
  start + (i * delta) / div - 1
  <= Qfloor (interp start delta div i)
  <= start + (i * delta) / div + 1.
Proof.
  intros Hs Hd Hb Hv Hi.
  pose proof (interp_error start delta div i Hs Hd Hb Hv Hi) as [L U].
  cbv zeta in L, U.
  assert (Nd : ~ (inject_Z div == 0)%Q).
  { change 0%Q with (inject_Z 0). rewrite inject_Z_injective. lia. }
  assert (Et : (inject_Z start + inject_Z i * (inject_Z delta / inject_Z div)
                == inject_Z (i * delta + start * div) / inject_Z div)%Q).
  { rewrite inject_Z_plus, !inject_Z_mult. field. exact Nd. }
  assert (EF : Qfloor (inject_Z start + inject_Z i * (inject_Z delta / inject_Z div))
               = start + (i * delta) / div).
  { rewrite Et, <- Zdiv_Qdiv, Z.div_add by lia. lia. }
  set (t := (inject_Z start + inject_Z i * (inject_Z delta / inject_Z div))%Q) in *.
  set (y := interp start delta div i) in *.
  pose proof (Qfloor_le t) as T1. pose proof (Qlt_floor t) as T2.
  pose proof (Qfloor_le y) as Y1. pose proof (Qlt_floor y) as Y2.
  rewrite EF in T1, T2. set (E := start + (i * delta) / div) in *.
  rewrite inject_Z_plus in T2, Y2. change (inject_Z 1) with 1%Q in T2, Y2.
  split.
  - assert (H : (inject_Z (E - 2) < inject_Z (Qfloor y))%Q).
    { unfold Z.sub. rewrite inject_Z_plus. change (inject_Z (- (2))) with (- (2))%Q. lra. }
    rewrite <- Zlt_Qlt in H. lia.
  - assert (H : (inject_Z (Qfloor y) < inject_Z (E + 2))%Q).
    { rewrite inject_Z_plus. change (inject_Z 2) with 2%Q. lra. }
    rewrite <- Zlt_Qlt in H. lia.
Qed.

(** The samples of a window that holds its stride. *)
Lemma linspace_y_exact (start stride num i : Z) :
  0 <= start -> 0 <= stride -> start + (num - 1) * stride < 2 ^ 53 ->
  1 <= num -> 0 <= i < num ->
  Qfloor (BaseVideoDataset.linspace_y start (start + (num - 1) * stride) num i)
  = start + i * stride.
Proof.
  intros Hs Hst Hb Hn Hi.
  destruct (Z.eq_dec stride 0) as [->|Ns].
  - rewrite !Z.mul_0_r, !Z.add_0_r. apply linspace_y_flat. lia.
  - destruct (Z.eq_dec i (num - 1)) as [->|Ni].
    + destruct (Z.eq_dec num 1) as [->|N1].
      * simpl. rewrite Z.add_0_r. apply linspace_y_0; lia.
      * apply linspace_y_last; nia.
    + rewrite linspace_y_interp by nia.
      replace (start + (num - 1) * stride - start) with (stride * (num - 1)) by lia.
      rewrite interp_exact by nia. apply Qfloor_Z.
Qed.

(** The samples never decrease. *)
Lemma linspace_y_mono (start stop num i j : Z) :
  0 <= start <= stop -> stop < 2 ^ 53 -> 1 <= num <= 2 ^ 53 ->
  0 <= i <= j -> j < num ->
  Qfloor (BaseVideoDataset.linspace_y start stop num i)
  <= Qfloor (BaseVideoDataset.linspace_y start stop num j).
Proof.
  intros Hs Ht Hn Hij Hj.
  destruct (Z.eq_dec i j) as [->|Nij]; [lia|].
  destruct (Z.eq_dec j (num - 1)) as [->|Nj].
  - rewrite linspace_y_last by lia.
    rewrite linspace_y_interp by lia.
    rewrite <- (Qfloor_Z stop) at 2. apply Qfloor_resp_le.
    replace stop with (start + (stop - start)) at 2 by lia.
    apply interp_le_stop; lia.
  - rewrite !linspace_y_interp by lia.
    apply Qfloor_resp_le, interp_mono; lia.
Qed.

(** Every sample lies between [start] and [stop]. *)
Lemma linspace_y_range (start stop num i : Z) :
  0 <= start <= stop -> stop < 2 ^ 53 -> 1 <= num <= 2 ^ 53 ->
  (num = 1 -> stop = start) -> 0 <= i < num ->
  start <= Qfloor (BaseVideoDataset.linspace_y start stop num i) <= stop.
Proof.
  intros Hs Ht Hn H1 Hi. split.
  - rewrite <- (linspace_y_0 start stop num) at 1 by lia.
    apply linspace_y_mono; lia.
  - destruct (Z.eq_dec num 1) as [E1|N1].
    + rewrite (H1 E1). rewrite linspace_y_flat by lia. lia.
    + rewrite <- (linspace_y_last start stop num) at 2 by lia.
      apply linspace_y_mono; lia.
Qed.

(** Within one of the exact interpolation. *)
Lemma linspace_y_near (start stop num i : Z) :
  0 <= start <= stop -> stop <= 2 ^ 50 -> 1 <= num <= 2 ^ 53 ->
  (num = 1 -> stop = start) -> 0 <= i < num ->
  Z.abs (Qfloor (BaseVideoDataset.linspace_y start stop num i)
         - (start + (i * (stop - start)) / (num - 1))) <= 1.
Proof.
  intros Hs Ht Hn H1 Hi.
  assert (B : 2 ^ 50 < 2 ^ 53) by reflexivity.
  destruct (Z.eq_dec num 1) as [E1|N1].
  - rewrite (H1 E1), linspace_y_flat by lia.
    rewrite Z.sub_diag, Z.mul_0_r, Zdiv_0_l. lia.
  - destruct (Z.eq_dec i (num - 1)) as [->|Ni].
    + rewrite linspace_y_last by lia.
      rewrite (Z.mul_comm (num - 1)), Z.div_mul by lia. lia.
    + rewrite linspace_y_interp by lia.
      pose proof (interp_near start (stop - start) (num - 1) i). lia.
Qed.

(** From 2^53 on a double no longer tells two integers apart, and the
    first index is no longer [start]. *)
Lemma linspace_large_start :
  BaseVideoDataset.linspace (2 ^ 53 + 1) (2 ^ 53 + 3) 2
  = Ok [2 ^ 53; 2 ^ 53 + 4].
Proof. vm_compute. reflexivity. Qed.

End linspace.

(** ** The clip window of the video dataset *)

Section select_window_runs.
Import dataset_laionhuman_w_control.
Context {T : Type}.
Variable self : BaseVideoDataset.t T.
Local Abbreviation n := (BaseVideoDataset.sample_n_frames self).
Local Abbreviation stride := (BaseVideoDataset.sample_stride self).

(** The window the sampler returns. *)
Lemma select_window_closed (video_length : Z) (w : world) :
  1 <= video_length -> 1 <= n -> 0 <= stride ->
  let clip_length := Z.min video_length ((n - 1) * stride + 1) in
  let start_idx := py_rng w 0%nat mod (video_length - clip_length + 1) in
  (exists w',
      BaseVideoDataset.select_window self video_length w
      = (Ok (clip_length, start_idx,
             (fun i : Z =>
                Qfloor (BaseVideoDataset.linspace_y start_idx
                          (start_idx + clip_length - 1) n i))
               <$> seqZ 0 n), w')) /\
  1 <= clip_length <= video_length /\
  0 <= start_idx <= video_length - clip_length.
Proof.
  intros Hv Hn Hs clip_length start_idx.
  assert (Hc : 1 <= clip_length <= video_length) by (subst clip_length; nia).
  assert (Hst : 0 <= start_idx <= video_length - clip_length).
  { pose proof (Z.mod_pos_bound (py_rng w 0%nat) (video_length - clip_length + 1)).
    subst start_idx. lia. }
  split; [|split; assumption].
  eexists.
  unfold BaseVideoDataset.select_window.
  fold clip_length. unfold random_randint.
  destruct (Z.ltb_spec (video_length - clip_length) 0); [lia|].
  unfold bind at 1. unfold bind at 1. unfold py_draw, ret at 1.
  rewrite Z.sub_0_r, Z.add_0_l. fold start_idx.
  unfold bind, lift, ret, BaseVideoDataset.linspace.
  destruct (Z.ltb_spec n 0); [lia|]. reflexivity.
Qed.

Lemma window_lookup (f : Z -> Z) (i : nat) (x : Z) :
  (f <$> seqZ 0 n) !! i = Some x -> Z.of_nat i < n /\ x = f (Z.of_nat i).
Proof.
  rewrite list_lookup_fmap. destruct (seqZ 0 n !! i) as [k|] eqn:E; [|discriminate].
  apply lookup_seqZ in E as (-> & Hi). intros H. injection H as <-.
  split; [lia|]. f_equal.
Qed.

End select_window_runs.

(** C2: for a video of [video_length >= 1] frames, with at least one frame
    asked for and a stride that is not negative (all below 2^53, where a
    double still tells two integers apart), the clip sampler takes
    [clip_length = min(video_length, (sample_n_frames - 1) * sample_stride
    + 1)], draws [start_idx] in [0, video_length - clip_length] (the raw
    draw modulo the size of that range), and returns exactly
    [sample_n_frames] indices, never decreasing, the first [start_idx]
    and the last [start_idx + clip_length - 1].  The indices are the
    floors of the doubles numpy computes for the interpolation from
    [start_idx] to [start_idx + clip_length - 1]: for a video of at most
    2^50 frames, index [i] is within one of [start_idx + i * (clip_length
    - 1) // (sample_n_frames - 1)]. *)
Theorem select_window_spec {T}
    (self : dataset_laionhuman_w_control.BaseVideoDataset.t T)
    (video_length : Z) (w : world) :
  1 <= video_length < 2 ^ 53 ->
  1 <= dataset_laionhuman_w_control.BaseVideoDataset.sample_n_frames self
    <= 2 ^ 53 ->
  0 <= dataset_laionhuman_w_control.BaseVideoDataset.sample_stride self ->
  let n := dataset_laionhuman_w_control.BaseVideoDataset.sample_n_frames self in
  let stride := dataset_laionhuman_w_control.BaseVideoDataset.sample_stride self in
  let clip_length := Z.min video_length ((n - 1) * stride + 1) in
  exists start_idx batch_index w',
    dataset_laionhuman_w_control.BaseVideoDataset.select_window self video_length w
    = (Ok (clip_length, start_idx, batch_index), w') /\
    start_idx = py_rng w 0%nat mod (video_length - clip_length + 1) /\
    0 <= start_idx <= video_length - clip_length /\
    Z.of_nat (length batch_index) = n /\
    (forall (i j : nat) x y, (i <= j)%nat ->
       batch_index !! i = Some x -> batch_index !! j = Some y -> x <= y) /\
    head batch_index = Some start_idx /\
    last batch_index = Some (start_idx + clip_length - 1) /\
    (video_length <= 2 ^ 50 ->
     forall (i : nat) x, batch_index !! i = Some x ->
       Z.abs (x - (start_idx + (Z.of_nat i * (clip_length - 1)) / (n - 1))) <= 1).
Proof.
  intros Hv Hn Hs n stride clip_length.
  destruct (select_window_closed self video_length w) as ((w' & E) & Hc & Hst);
    [lia|lia|exact Hs|].
  fold n stride clip_length in E, Hc, Hst.
  set (start_idx := py_rng w 0%nat mod (video_length - clip_length + 1)) in *.
  set (f := fun i : Z =>
              Qfloor (dataset_laionhuman_w_control.BaseVideoDataset.linspace_y
                        start_idx (start_idx + clip_length - 1) n i)) in *.
  assert (Hlook : forall i : nat, Z.of_nat i < n ->
            (f <$> seqZ 0 n) !! i = Some (f (Z.of_nat i))).
  { intros i Hi. rewrite list_lookup_fmap, lookup_seqZ_lt by lia. reflexivity. }
  assert (Hlen : length (f <$> seqZ 0 n) = Z.to_nat n)
    by now rewrite length_fmap, length_seqZ.
  assert (H1 : n = 1 -> start_idx + clip_length - 1 = start_idx).
  { intros E1. subst clip_length. rewrite E1. lia. }
  exists start_idx, (f <$> seqZ 0 n), w'.
  split; [exact E|]. split; [reflexivity|]. split; [exact Hst|].
  split; [rewrite Hlen; lia|].
  split; [|split; [|split]].
  - intros i j x y Hij Hi Hj.
    assert (Hjn : Z.of_nat j < n).
    { apply lookup_lt_Some in Hj. rewrite Hlen in Hj. lia. }
    rewrite Hlook in Hi, Hj by lia. injection Hi as <-. injection Hj as <-.
    subst f. cbv beta. apply linspace_y_mono; lia.
  - rewrite head_lookup, Hlook by lia. subst f. cbv beta. f_equal.
    apply linspace_y_0; lia.
  - rewrite last_lookup, Hlen.
    rewrite Hlook by lia. subst f. cbv beta. f_equal.
    replace (Z.of_nat (Init.Nat.pred (Z.to_nat n))) with (n - 1) by lia.
    destruct (Z.eq_dec n 1) as [E1|N1].
    + rewrite E1 at 2. change (1 - 1) with 0.
      rewrite linspace_y_0 by lia. symmetry. apply H1, E1.
    + apply linspace_y_last; lia.
  - intros Hsmall i x Hi.
    assert (Hin : Z.of_nat i < n).
    { apply lookup_lt_Some in Hi. rewrite Hlen in Hi. lia. }
    rewrite Hlook in Hi by lia. injection Hi as <-. subst f. cbv beta.
    pose proof (linspace_y_near start_idx (start_idx + clip_length - 1) n
                  (Z.of_nat i)) as N.
    replace (start_idx + clip_length - 1 - start_idx) with (clip_length - 1)
      in N by lia.
    apply N; lia.
Qed.

Lemma select_window_spec_witness :
  exists batch_index w',
    dataset_laionhuman_w_control.BaseVideoDataset.select_window video50_ds 120
      (world_py 7)
    = (Ok (120, 0, batch_index), w') /\
    Z.of_nat (length batch_index) = 50 /\
    head batch_index = Some 0 /\ last batch_index = Some 119 /\
    batch_index !! 21%nat = Some 50 /\
    (forall (i j : nat) x y, (i <= j)%nat ->
       batch_index !! i = Some x -> batch_index !! j = Some y -> x <= y).
Proof.
  destruct (select_window_spec video50_ds 120 (world_py 7))
    as (s & l & w' & E & Hs & _ & Hl & Hm & Hh & Hla & _);
    [simpl; lia|simpl; lia|simpl; lia|].
  vm_compute in Hs. subst s.
  exists l, w'. split; [exact E|]. split; [exact Hl|].
  split; [exact Hh|]. split; [exact Hla|]. split; [|exact Hm].
  vm_compute in E. injection E as <- _. reflexivity.
Defined.

(** * Further properties of the code *)

(** ** Running a bind forwards *)

Lemma bind_step {A B} (c : M A) (k : A -> M B) w a w' :
  c w = (Ok a, w') -> bind c k w = k a w'.
Proof. unfold bind. now intros ->. Qed.

Lemma bind_fail {A B} (c : M A) (k : A -> M B) w e w' :
  c w = (Raise e, w') -> bind c k w = (Raise e, w').
Proof. unfold bind. now intros ->. Qed.

Lemma keeps_world_bind {A B} (c : M A) (k : A -> M B) :
  keeps_world c -> (forall a, keeps_world (k a)) -> keeps_world (bind c k).
Proof.
  intros Hc Hk w. unfold bind. specialize (Hc w).
  destruct (c w) as [[a|e] w1]; simpl in Hc; subst w1; [apply Hk|reflexivity].
Qed.

Lemma keeps_world_lift {A} (r : result A) : keeps_world (lift r).
Proof. intros w. reflexivity. Qed.

Lemma keeps_world_ret {A} (a : A) : keeps_world (ret a).
Proof. intros w. reflexivity. Qed.

Lemma keeps_world_raise {A} (e : exn) : keeps_world (@raise A e).
Proof. intros w. reflexivity. Qed.

Lemma keeps_world_open path : keeps_world (PIL.open path).
Proof. intros w. unfold PIL.open. now destruct (fs w path) as [[? ?]|]. Qed.

Lemma keeps_world_get_params_exact (c : picture) :
  keeps_world (transforms.get_params c (height c, width c)).
Proof. intros w. now rewrite get_params_exact. Qed.

Lemma keeps_world_image_transform img :
  keeps_world (BaseDataset.image_transform img).
Proof.
  unfold BaseDataset.image_transform, BaseDataset.short_size.
  apply keeps_world_bind; [apply keeps_world_lift|]. intros r.
  intros w. unfold bind at 1. unfold lift at 1.
  destruct (transforms.CenterCrop (transforms.SizeInt 512) r) as [c|e] eqn:Ec;
    [|reflexivity].
  apply CenterCrop_size in Ec as (Hw & Hh). simpl in Hw, Hh.
  pose proof (get_params_exact c w) as G. rewrite Hw, Hh in G.
  unfold bind. rewrite G. reflexivity.
Qed.

Lemma keeps_world_reference_transform img :
  keeps_world (BaseDataset.reference_transform img).
Proof.
  unfold BaseDataset.reference_transform.
  apply keeps_world_bind; [apply keeps_world_lift|]. intros r.
  apply keeps_world_bind; [apply keeps_world_lift|]. intros c.
  apply keeps_world_ret.
Qed.

Lemma keeps_world_control_transform img ijhw :
  keeps_world (BaseDataset.control_transform img ijhw).
Proof.
  unfold BaseDataset.control_transform.
  apply keeps_world_bind; [apply keeps_world_lift|]. intros r.
  apply keeps_world_bind; [apply keeps_world_lift|]. intros c.
  apply keeps_world_ret.
Qed.

(** X1: [BaseDataset.__getitem__] takes no draw and touches nothing:
    whether it returns a sample or raises, the world after the call is
    the world before it, so the same index gives the same sample again. *)
Theorem BaseDataset_getitem_keeps_world {T} (self : BaseDataset.t T)
    (idx : Z) (w : world) :
  snd (BaseDataset.getitem self idx w) = w.
Proof.
  revert w. change (keeps_world (BaseDataset.getitem self idx)).
  unfold BaseDataset.getitem.
  apply keeps_world_bind; [apply keeps_world_lift|]. intros it.
  apply keeps_world_bind; [apply keeps_world_lift|]. intros p.
  apply keeps_world_bind; [apply keeps_world_open|]. intros image.
  apply keeps_world_bind; [apply keeps_world_lift|]. intros pr.
  apply keeps_world_bind; [apply keeps_world_open|]. intros reference.
  apply keeps_world_bind.
  { destruct (String.eqb _ "canny");
      [|destruct (String.eqb _ "pose"); [|apply keeps_world_raise]];
      (apply keeps_world_bind; [apply keeps_world_lift|]);
      intros pc; apply keeps_world_open. }
  intros control_image.
  apply keeps_world_bind; [apply keeps_world_lift|]. intros image0.
  apply keeps_world_bind; [apply keeps_world_lift|]. intros reference0.
  apply keeps_world_bind; [apply keeps_world_lift|]. intros control0.
  apply keeps_world_bind; [apply keeps_world_image_transform|]. intros [im ijhw].
  apply keeps_world_bind; [apply keeps_world_reference_transform|]. intros rf.
  apply keeps_world_bind; [apply keeps_world_control_transform|]. intros ct.
  apply keeps_world_ret.
Qed.

(** X2: in a sample of BaseDataset the three pictures are 512 x 512;
    image and reference are normalized to [-1, 1], the control map is
    left in [0, 1]. *)
Theorem BaseDataset_sample_shape {T} (self : BaseDataset.t T)
    (idx : Z) (w : world) (s : BaseDataset.sample T) (w' : world) :
  BaseDataset.getitem self idx w = (Ok s, w') ->
  (width (BaseDataset.image s) = 512 /\ height (BaseDataset.image s) = 512 /\
   range (BaseDataset.image s) = Signed) /\
  (width (BaseDataset.reference s) = 512 /\
   height (BaseDataset.reference s) = 512 /\
   range (BaseDataset.reference s) = Signed) /\
  (width (BaseDataset.control_image s) = 512 /\
   height (BaseDataset.control_image s) = 512 /\
   range (BaseDataset.control_image s) = Unit).
Proof.
  intros E.
  apply BaseDataset_getitem_ok in E
    as (it & p_img & p_ref & p_ctl & w0 & ht & wr & hr & wc & hc
        & img0 & ref0 & ctl0 & _ & _ & _ & _ & _ & _ & _ & _
        & _ & _ & _ & Eti & Etr & Etc & _ & _).
  apply image_transform_inv in Eti as (ri & ci & _ & Eci & ->).
  apply reference_transform_inv in Etr as (rr & cr & _ & Ecr & ->).
  apply control_transform_inv in Etc as (rc & cc & _ & Ecc & ->).
  apply CenterCrop_size in Eci as (? & ?), Ecr as (? & ?), Ecc as (? & ?).
  simpl in *. repeat split; assumption.
Qed.

Lemma BaseDataset_sample_shape_witness :
  exists s w',
    BaseDataset.getitem (base_ds None) 0 world0 = (Ok s, w') /\
    width (BaseDataset.control_image s) = 512 /\
    range (BaseDataset.control_image s) = Unit.
Proof.
  destruct (BaseDataset.getitem (base_ds None) 0 world0) as [[s|e] w'] eqn:E;
    [|vm_compute in E; discriminate].
  exists s, w'. split; [reflexivity|].
  destruct (BaseDataset_sample_shape (base_ds None) 0 world0 s w' E)
    as (_ & _ & Hw & _ & Hr).
  split; assumption.
Defined.

Lemma PIL_resize_returns (p : picture) (w h : Z) :
  1 <= w -> 1 <= h ->
  exists out, PIL.resize p w h = Ok out /\ width out = w /\ height out = h.
Proof.
  intros Hw Hh. unfold PIL.resize.
  destruct ((width p =? w) && (height p =? h)); [eauto|].
  destruct (Z.ltb_spec w 1); [lia|]. destruct (Z.ltb_spec h 1); [lia|].
  simpl. eauto.
Qed.

Lemma floor_to_multiple_of_8_pos (x : Z) : 8 <= x -> 8 <= floor_to_multiple_of_8 x.
Proof.
  intros H. unfold floor_to_multiple_of_8.
  assert (1 <= x / 8) by (apply Z.div_le_lower_bound; lia). lia.
Qed.

Lemma floor_to_multiple_of_8_small (x : Z) : 0 <= x < 8 -> floor_to_multiple_of_8 x = 0.
Proof. intros H. unfold floor_to_multiple_of_8. now rewrite Z.div_small. Qed.

(** The branch of [__getitem__] that opens the control picture. *)
Lemma open_control_ok {T} (self : BaseDataset.t T) (it : item) w p wc hc :
  (BaseDataset.control_type self = "canny" \/
   BaseDataset.control_type self = "pose") ->
  it !! BaseDataset.control_type self = Some p -> fs w p = Some (wc, hc) ->
  (if String.eqb (BaseDataset.control_type self) "canny" then
     path <- lift (dict_getitem it "canny") ;; PIL.open path
   else if String.eqb (BaseDataset.control_type self) "pose" then
     path <- lift (dict_getitem it "pose") ;; PIL.open path
   else raise NotImplementedError) w
  = (Ok (mk_picture p wc hc), w).
Proof.
  intros [Hc|Hc] Hk Hf; rewrite Hc in *.
  - rewrite String.eqb_refl. unfold bind, lift, dict_getitem, PIL.open.
    now rewrite Hk, Hf.
  - destruct (String.eqb_spec "pose" "canny"); [discriminate|].
    rewrite String.eqb_refl. unfold bind, lift, dict_getitem, PIL.open.
    now rewrite Hk, Hf.
Qed.

Lemma reference_transform_ok (img : picture) (w : world) :
  0 < width img -> 0 < height img ->
  exists out, BaseDataset.reference_transform img w = (Ok out, w).
Proof.
  intros Hw Hh.
  destruct (resize_center_crop_ok 512 img) as (r & c & Er & Ec & _);
    [lia|assumption|assumption|].
  unfold BaseDataset.reference_transform, BaseDataset.short_size, bind, lift.
  rewrite Er, Ec. unfold ret. eauto.
Qed.

Lemma control_transform_ok (img : picture) ijhw (w : world) :
  0 < width img -> 0 < height img ->
  exists out, BaseDataset.control_transform img ijhw w = (Ok out, w).
Proof.
  intros Hw Hh.
  destruct (resize_center_crop_ok 512 img) as (r & c & Er & Ec & _);
    [lia|assumption|assumption|].
  unfold BaseDataset.control_transform, BaseDataset.short_size, bind, lift.
  rewrite Er, Ec. unfold ret. eauto.
Qed.

Ltac step H := rewrite (bind_step _ _ _ _ _ H); cbv beta.

(** X3: [BaseDataset.__getitem__] returns a sample whenever the record
    is there, its image, reference and control paths decode, the control
    type is canny or pose, and the image is at least 8 pixels each way;
    the caption tokenized is that of the record. *)
Theorem BaseDataset_getitem_returns {T} (self : BaseDataset.t T)
    (idx : Z) (w : world) (it : item) (p_img p_ref p_ctl : string)
    (wd ht : Z) (size_ref size_ctl : Z * Z) :
  list_getitem (BaseDataset.data self) idx = Ok it ->
  it !! "image" = Some p_img -> fs w p_img = Some (wd, ht) ->
  it !! "reference" = Some p_ref -> fs w p_ref = Some size_ref ->
  (BaseDataset.control_type self = "canny" \/
   BaseDataset.control_type self = "pose") ->
  it !! BaseDataset.control_type self = Some p_ctl ->
  fs w p_ctl = Some size_ctl ->
  8 <= wd -> 8 <= ht ->
  exists s,
    BaseDataset.getitem self idx w = (Ok s, w) /\
    BaseDataset.text_input_ids s
    = BaseDataset.tokenizer self (BaseDataset.prompt_of it).
Proof.
  intros Hit Hi Hfi Hr Hfr Hct Hc Hfc Hwd Hht.
  destruct size_ref as [wr hr], size_ctl as [wc hc].
  pose proof (floor_to_multiple_of_8_pos wd Hwd) as Hw8.
  pose proof (floor_to_multiple_of_8_pos ht Hht) as Hh8.
  destruct (PIL_resize_returns (mk_picture p_img wd ht)
              (floor_to_multiple_of_8 wd) (floor_to_multiple_of_8 ht)
              ltac:(lia) ltac:(lia)) as (i0 & Ei0 & Hi0w & Hi0h).
  destruct (PIL_resize_returns (mk_picture p_ref wr hr)
              (floor_to_multiple_of_8 wd) (floor_to_multiple_of_8 ht)
              ltac:(lia) ltac:(lia)) as (r0 & Er0 & Hr0w & Hr0h).
  destruct (PIL_resize_returns (mk_picture p_ctl wc hc)
              (floor_to_multiple_of_8 wd) (floor_to_multiple_of_8 ht)
              ltac:(lia) ltac:(lia)) as (c0 & Ec0 & Hc0w & Hc0h).
  destruct (image_transform_ok i0 w ltac:(lia) ltac:(lia)) as (im & Eim & _).
  destruct (reference_transform_ok r0 w ltac:(lia) ltac:(lia)) as (rf & Erf).
  destruct (control_transform_ok c0 (0, 0, 512, 512) w ltac:(lia) ltac:(lia))
    as (ct & Ect).
  unfold BaseDataset.getitem.
  assert (E1 : lift (list_getitem (BaseDataset.data self) idx) w = (Ok it, w))
    by (unfold lift; now rewrite Hit).
  step E1.
  assert (E2 : lift (dict_getitem it "image") w = (Ok p_img, w))
    by (unfold lift, dict_getitem; now rewrite Hi).
  step E2.
  assert (E3 : PIL.open p_img w = (Ok (mk_picture p_img wd ht), w))
    by (unfold PIL.open; now rewrite Hfi).
  step E3.
  assert (E4 : lift (dict_getitem it "reference") w = (Ok p_ref, w))
    by (unfold lift, dict_getitem; now rewrite Hr).
  step E4.
  assert (E5 : PIL.open p_ref w = (Ok (mk_picture p_ref wr hr), w))
    by (unfold PIL.open; now rewrite Hfr).
  step E5.
  step (open_control_ok self it w p_ctl wc hc Hct Hc Hfc).
  simpl width. simpl height.
  assert (E6 : lift (PIL.resize (mk_picture p_img wd ht)
                       (floor_to_multiple_of_8 wd) (floor_to_multiple_of_8 ht)) w
               = (Ok i0, w)) by (unfold lift; now rewrite Ei0).
  step E6.
  assert (E7 : lift (PIL.resize (mk_picture p_ref wr hr)
                       (floor_to_multiple_of_8 wd) (floor_to_multiple_of_8 ht)) w
               = (Ok r0, w)) by (unfold lift; now rewrite Er0).
  step E7.
  assert (E8 : lift (PIL.resize (mk_picture p_ctl wc hc)
                       (floor_to_multiple_of_8 wd) (floor_to_multiple_of_8 ht)) w
               = (Ok c0, w)) by (unfold lift; now rewrite Ec0).
  step E8.
  step Eim. step Erf. step Ect.
  unfold ret. eexists. split; reflexivity.
Qed.

Lemma BaseDataset_getitem_returns_witness :
  exists s,
    BaseDataset.getitem (base_ds (Some "a man")) 0 world0 = (Ok s, world0) /\
    BaseDataset.text_input_ids s = "a man".
Proof.
  apply (BaseDataset_getitem_returns (base_ds (Some "a man")) 0 world0
           (base_item (Some "a man")) "wide.png" "tall.png" "edges.png"
           1024 512 (517, 1000) (2048, 1024));
    try (vm_compute; reflexivity); try lia.
  left. reflexivity.
Defined.

(** X4: an image less than 8 pixels wide or high floors to 0 and PIL
    refuses the resize: [BaseDataset.__getitem__] raises ValueError. *)
Theorem BaseDataset_getitem_small_image {T} (self : BaseDataset.t T)
    (idx : Z) (w : world) (it : item) (p_img p_ref p_ctl : string)
    (wd ht : Z) (size_ref size_ctl : Z * Z) :
  list_getitem (BaseDataset.data self) idx = Ok it ->
  it !! "image" = Some p_img -> fs w p_img = Some (wd, ht) ->
  it !! "reference" = Some p_ref -> fs w p_ref = Some size_ref ->
  (BaseDataset.control_type self = "canny" \/
   BaseDataset.control_type self = "pose") ->
  it !! BaseDataset.control_type self = Some p_ctl ->
  fs w p_ctl = Some size_ctl ->
  1 <= wd -> 1 <= ht -> (wd < 8 \/ ht < 8) ->
  BaseDataset.getitem self idx w = (Raise ValueError, w).
Proof.
  intros Hit Hi Hfi Hr Hfr Hct Hc Hfc Hwd Hht Hsmall.
  destruct size_ref as [wr hr], size_ctl as [wc hc].
  unfold BaseDataset.getitem.
  assert (E1 : lift (list_getitem (BaseDataset.data self) idx) w = (Ok it, w))
    by (unfold lift; now rewrite Hit).
  step E1.
  assert (E2 : lift (dict_getitem it "image") w = (Ok p_img, w))
    by (unfold lift, dict_getitem; now rewrite Hi).
  step E2.
  assert (E3 : PIL.open p_img w = (Ok (mk_picture p_img wd ht), w))
    by (unfold PIL.open; now rewrite Hfi).
  step E3.
  assert (E4 : lift (dict_getitem it "reference") w = (Ok p_ref, w))
    by (unfold lift, dict_getitem; now rewrite Hr).
  step E4.
  assert (E5 : PIL.open p_ref w = (Ok (mk_picture p_ref wr hr), w))
    by (unfold PIL.open; now rewrite Hfr).
  step E5.
  step (open_control_ok self it w p_ctl wc hc Hct Hc Hfc).
  simpl width. simpl height.
  apply bind_fail. unfold lift. f_equal.
  unfold PIL.resize. simpl width. simpl height.
  assert (Hne : (wd =? floor_to_multiple_of_8 wd)
                && (ht =? floor_to_multiple_of_8 ht) = false).
  { destruct Hsmall as [H|H].
    - rewrite (floor_to_multiple_of_8_small wd) by lia.
      destruct (Z.eqb_spec wd 0); [lia|reflexivity].
    - rewrite (floor_to_multiple_of_8_small ht) by lia.
      destruct (Z.eqb_spec ht 0); [lia|]. apply andb_false_r. }
  rewrite Hne.
  assert (Hlt : (floor_to_multiple_of_8 wd <? 1)
                || (floor_to_multiple_of_8 ht <? 1) = true).
  { destruct Hsmall as [H|H].
    - now rewrite (floor_to_multiple_of_8_small wd) by lia.
    - rewrite (floor_to_multiple_of_8_small ht) by lia. apply orb_true_r. }
  now rewrite Hlt.
Qed.

Lemma BaseDataset_getitem_small_image_witness :
  BaseDataset.getitem thin_ds 0 world_small = (Raise ValueError, world_small).
Proof.
  apply (BaseDataset_getitem_small_image thin_ds 0 world_small
           {[ "image" := "thin.png"; "reference" := "wide.png";
              "pose" := "edges.png" ]}
           "thin.png" "wide.png" "edges.png" 7 100 (1024, 512) (2048, 1024));
    try (vm_compute; reflexivity); try lia.
  right. reflexivity.
Defined.

(** ** Indexing *)

Lemma list_getitem_out_of_range {A} (l : list A) (idx : Z) :
  Z.of_nat (length l) <= idx \/ idx < - Z.of_nat (length l) ->
  list_getitem l idx = Raise IndexError.
Proof.
  intros [H|H]; unfold list_getitem; cbv zeta.
  - assert (E1 : (idx <? 0) = false) by (apply Z.ltb_ge; lia).
    assert (E2 : (Z.of_nat (length l) <=? idx) = true) by (apply Z.leb_le; lia).
    rewrite E1. cbv iota. rewrite E1, E2. reflexivity.
  - assert (E1 : (idx <? 0) = true) by (apply Z.ltb_lt; lia).
    assert (E2 : (idx + Z.of_nat (length l) <? 0) = true) by (apply Z.ltb_lt; lia).
    rewrite E1. cbv iota. rewrite E2. reflexivity.
Qed.

Lemma list_getitem_negative {A} (l : list A) (idx : Z) :
  - Z.of_nat (length l) <= idx < 0 ->
  list_getitem l idx = list_getitem l (idx + Z.of_nat (length l)).
Proof.
  intros H.
  assert (E1 : (idx <? 0) = true) by (apply Z.ltb_lt; lia).
  assert (E2 : (idx + Z.of_nat (length l) <? 0) = false) by (apply Z.ltb_ge; lia).
  unfold list_getitem. cbv zeta. rewrite E1. cbv iota. rewrite !E2. reflexivity.
Qed.

Lemma list_getitem_in_range {A} (l : list A) (idx : Z) :
  0 <= idx < Z.of_nat (length l) ->
  exists a, list_getitem l idx = Ok a /\ l !! Z.to_nat idx = Some a.
Proof.
  intros H. unfold list_getitem. cbv zeta.
  assert (E1 : (idx <? 0) = false) by (apply Z.ltb_ge; lia).
  assert (E2 : (Z.of_nat (length l) <=? idx) = false) by (apply Z.leb_gt; lia).
  rewrite E1. cbv iota. rewrite E1, E2. simpl orb. cbv iota.
  destruct (l !! Z.to_nat idx) as [a|] eqn:E.
  - exists a. split; reflexivity.
  - apply lookup_ge_None in E. lia.
Qed.

Lemma list_getitem_ok {A} (l : list A) (idx : Z) (a : A) :
  list_getitem l idx = Ok a -> a ∈ l.
Proof.
  unfold list_getitem.
  destruct ((_ <? 0) || (_ <=? _)); [discriminate|].
  destruct (l !! _) as [x|] eqn:E; [|discriminate].
  intros H. injection H as <-. eapply list_elem_of_lookup_2. exact E.
Qed.

(** X5: [BaseDataset.__getitem__] has no handler: an index outside
    [-n, n) raises IndexError, a record without the image key KeyError, an
    image path that does not decode OSError, each reaching the caller as
    it is; an index in [-n, 0) counts from the end. *)
Theorem BaseDataset_getitem_errors {T} (self : BaseDataset.t T)
    (idx : Z) (w : world) :
  let n := Z.of_nat (length (BaseDataset.data self)) in
  (n <= idx \/ idx < - n ->
   BaseDataset.getitem self idx w = (Raise IndexError, w)) /\
  (forall it, list_getitem (BaseDataset.data self) idx = Ok it ->
              it !! "image" = None ->
              BaseDataset.getitem self idx w = (Raise KeyError, w)) /\
  (forall it p, list_getitem (BaseDataset.data self) idx = Ok it ->
                it !! "image" = Some p -> fs w p = None ->
                BaseDataset.getitem self idx w = (Raise OSError, w)) /\
  (- n <= idx < 0 ->
   BaseDataset.getitem self idx w = BaseDataset.getitem self (idx + n) w).
Proof.
  intros n. repeat split.
  - intros H. unfold BaseDataset.getitem. apply bind_fail.
    unfold lift. now rewrite list_getitem_out_of_range.
  - intros it Hit Hi. unfold BaseDataset.getitem.
    assert (E1 : lift (list_getitem (BaseDataset.data self) idx) w = (Ok it, w))
      by (unfold lift; now rewrite Hit).
    step E1. apply bind_fail. unfold lift, dict_getitem. now rewrite Hi.
  - intros it p Hit Hi Hf. unfold BaseDataset.getitem.
    assert (E1 : lift (list_getitem (BaseDataset.data self) idx) w = (Ok it, w))
      by (unfold lift; now rewrite Hit).
    step E1.
    assert (E2 : lift (dict_getitem it "image") w = (Ok p, w))
      by (unfold lift, dict_getitem; now rewrite Hi).
    step E2. apply bind_fail. unfold PIL.open. now rewrite Hf.
  - intros H. unfold BaseDataset.getitem.
    now rewrite (list_getitem_negative _ idx H).
Qed.

Lemma BaseDataset_getitem_errors_witness :
  BaseDataset.getitem thin_ds 1 world0 = (Raise IndexError, world0) /\
  BaseDataset.getitem thin_ds 0 world0 = (Raise OSError, world0) /\
  BaseDataset.getitem thin_ds (-1) world0 = BaseDataset.getitem thin_ds (-1 + 1) world0.
Proof.
  split; [|split].
  - apply (proj1 (BaseDataset_getitem_errors thin_ds 1 world0)).
    left. simpl. lia.
  - apply (proj1 (proj2 (proj2 (BaseDataset_getitem_errors thin_ds 0 world0)))
             {[ "image" := "thin.png"; "reference" := "wide.png";
                "pose" := "edges.png" ]} "thin.png");
      vm_compute; reflexivity.
  - apply (proj2 (proj2 (proj2 (BaseDataset_getitem_errors thin_ds (-1) world0)))).
    simpl. lia.
Defined.

(** ** More on the retry of LaionHumanSD *)

Lemma try_next_all_raise_here {B R} (body : Z -> M B) (rest : B -> M R)
    n depth w :
  n <> 0 ->
  (forall idx, exists e, body idx w = (Raise e, w)) ->
  forall idx, try_next body rest n depth idx w = (Raise RecursionError, w).
Proof.
  intros Hn Hb. induction depth as [|d IH]; intros idx;
    rewrite try_next_unfold; destruct (Hb idx) as (e & ->);
    destruct (Z.eqb_spec n 0); try contradiction; auto.
Qed.

(** When the body keeps the world, a sample that comes back was made in
    the world of the call. *)
Lemma try_next_ok_here {B R} (body : Z -> M B) (rest : B -> M R) n depth :
  (forall idx, keeps_world (body idx)) ->
  forall idx w s w',
    try_next body rest n depth idx w = (Ok s, w') ->
    exists idx' b, body idx' w = (Ok b, w) /\ rest b w = (Ok s, w').
Proof.
  intros Hk. induction depth as [|d IH]; intros idx w s w';
    rewrite try_next_unfold; pose proof (Hk idx w) as Hw;
    destruct (body idx w) as [[b|e] w1] eqn:Eb; simpl in Hw; subst w1;
    intros E; eauto; destruct (n =? 0); try discriminate.
  eapply IH. exact E.
Qed.

Section LaionHumanSD_more.
Import dataset_laionhuman_w_control.
Context {num T : Type} `{PyFloat num}.
Variable self : LaionHumanSD.t num T.

Lemma build_index_error idx w :
  list_getitem (LaionHumanSD.data self) idx = Raise IndexError ->
  LaionHumanSD.build self idx w = (Raise IndexError, w).
Proof.
  intros E. unfold LaionHumanSD.build. apply bind_fail. unfold lift. now rewrite E.
Qed.

(** Without a picture that decodes, no body returns, and the world stays. *)
Lemma build_unreadable idx w :
  (forall p, fs w p = None) ->
  exists e, LaionHumanSD.build self idx w = (Raise e, w).
Proof.
  intros Hfs. unfold LaionHumanSD.build.
  destruct (list_getitem (LaionHumanSD.data self) idx) as [it|e];
    [|exists e; reflexivity].
  unfold bind at 1. unfold lift at 1. cbv beta iota.
  destruct (dict_getitem it "img_path") as [p|e];
    [|exists e; reflexivity].
  unfold bind at 1. unfold lift at 1. cbv beta iota.
  exists OSError. apply bind_fail. unfold PIL.open. now rewrite Hfs.
Qed.

End LaionHumanSD_more.

(** X6: in the control-enabled LaionHumanSD, when the k records from
    idx on fail one after the other and the next one builds, and the call
    depth left is at least k, [__getitem__(idx)] is the sample made of
    that next record: failing records are passed over in silence. *)
Theorem getitem_first_good_record {num T} `{PyFloat num}
    (self : dataset_laionhuman_w_control.LaionHumanSD.t num T)
    (k depth : nat) (idx idx' : Z) (w w1 w2 : world)
    (b : picture * picture * option picture * string) :
  dataset_laionhuman_w_control.LaionHumanSD.data self <> [] ->
  skipped (dataset_laionhuman_w_control.LaionHumanSD.build self)
    (Z.of_nat (length (dataset_laionhuman_w_control.LaionHumanSD.data self)))
    k idx w = Some (idx', w1) ->
  dataset_laionhuman_w_control.LaionHumanSD.build self idx' w1 = (Ok b, w2) ->
  dataset_laionhuman_w_control.LaionHumanSD.getitem self (k + depth) idx w
  = dataset_laionhuman_w_control.LaionHumanSD.finish self b w2.
Proof.
  intros Hd Hs Hb. unfold dataset_laionhuman_w_control.LaionHumanSD.getitem.
  rewrite (try_next_skipped _ _ _ k) with (idx' := idx') (w' := w1).
  - now apply try_next_returns.
  - destruct (dataset_laionhuman_w_control.LaionHumanSD.data self);
      [contradiction|simpl; lia].
  - exact Hs.
Qed.

Lemma getitem_first_good_record_witness :
  exists s w',
    dataset_laionhuman_w_control.LaionHumanSD.getitem
      (laion_ds three_records (transforms.SizePair 512 512) false "canny")
      (2 + 0) 0 world_torch = (Ok s, w') /\
    dataset_laionhuman_w_control.LaionHumanSD.text_input_ids s = "a dog".
Proof.
  destruct (dataset_laionhuman_w_control.LaionHumanSD.build
              (laion_ds three_records (transforms.SizePair 512 512) false "canny")
              2 world_torch) as [[b|e] w2] eqn:Eb;
    [|vm_compute in Eb; discriminate].
  rewrite (getitem_first_good_record
             (laion_ds three_records (transforms.SizePair 512 512) false "canny")
             2 0 0 2 world_torch world_torch w2 b);
    [|discriminate|vm_compute; reflexivity|exact Eb].
  vm_compute in Eb. injection Eb as <- <-.
  eexists _, _. split; [vm_compute; reflexivity|reflexivity].
Defined.

(** X7: on an empty index both LaionHumanSD classes raise
    ZeroDivisionError: the IndexError of [self.data[idx]] is caught and
    the handler computes [(idx + 1) % 0]. *)
Theorem LaionHumanSD_empty_dataset :
  (forall num T C (F : PyFloat num) (self : dataset2.LaionHumanSD.t num T C)
          depth idx w,
      dataset2.LaionHumanSD.data self = [] ->
      dataset2.LaionHumanSD.getitem self depth idx w
      = (Raise ZeroDivisionError, w)) /\
  (forall num T (F : PyFloat num)
          (self : dataset_laionhuman_w_control.LaionHumanSD.t num T) depth idx w,
      dataset_laionhuman_w_control.LaionHumanSD.data self = [] ->
      dataset_laionhuman_w_control.LaionHumanSD.getitem self depth idx w
      = (Raise ZeroDivisionError, w)).
Proof.
  split.
  - intros num T C F self depth idx w Hd.
    unfold dataset2.LaionHumanSD.getitem. rewrite try_next_unfold.
    unfold dataset2.LaionHumanSD.build at 1.
    rewrite (bind_fail _ _ w IndexError w).
    + now rewrite Hd.
    + unfold lift. rewrite list_getitem_out_of_range; [reflexivity|].
      rewrite Hd. simpl. lia.
  - intros num T F self depth idx w Hd.
    unfold dataset_laionhuman_w_control.LaionHumanSD.getitem.
    rewrite try_next_unfold.
    rewrite (build_index_error self idx w).
    + now rewrite Hd.
    + apply list_getitem_out_of_range. rewrite Hd. simpl. lia.
Qed.

Lemma LaionHumanSD_empty_dataset_witness :
  dataset_laionhuman_w_control.LaionHumanSD.getitem
    (laion_ds [] (transforms.SizePair 512 512) false "canny") 7 0 world0
  = (Raise ZeroDivisionError, world0).
Proof.
  apply (proj2 LaionHumanSD_empty_dataset Q string _
           (laion_ds [] (transforms.SizePair 512 512) false "canny") 7%nat 0 world0).
  reflexivity.
Defined.

(** X8: in the control-enabled LaionHumanSD an index outside [-n, n) is
    no error: its IndexError is caught like any other, and the call
    answers for index [(idx + 1) mod n]. *)
Theorem getitem_index_out_of_range {num T} `{PyFloat num}
    (self : dataset_laionhuman_w_control.LaionHumanSD.t num T)
    (depth : nat) (idx : Z) (w : world) :
  let n := Z.of_nat
             (length (dataset_laionhuman_w_control.LaionHumanSD.data self)) in
  0 < n -> (n <= idx \/ idx < - n) ->
  dataset_laionhuman_w_control.LaionHumanSD.getitem self (S depth) idx w
  = dataset_laionhuman_w_control.LaionHumanSD.getitem self depth
      ((idx + 1) mod n) w.
Proof.
  intros n Hn Hidx. unfold dataset_laionhuman_w_control.LaionHumanSD.getitem.
  apply (try_next_raise _ _ _ _ _ _ IndexError); [lia|].
  apply build_index_error. now apply list_getitem_out_of_range.
Qed.

Lemma getitem_index_out_of_range_witness :
  dataset_laionhuman_w_control.LaionHumanSD.getitem
    (laion_ds two_records (transforms.SizePair 512 512) false "canny")
    1 2 world_torch
  = dataset_laionhuman_w_control.LaionHumanSD.getitem
      (laion_ds two_records (transforms.SizePair 512 512) false "canny")
      0 ((2 + 1) mod 2) world_torch.
Proof.
  apply (getitem_index_out_of_range
           (laion_ds two_records (transforms.SizePair 512 512) false "canny")
           0 2 world_torch); simpl; lia.
Defined.

(** X9: when no picture of the index decodes, the control-enabled
    LaionHumanSD never returns: at any call depth and index the caller
    gets RecursionError, and no draw has been taken. *)
Theorem getitem_all_unreadable {num T} `{PyFloat num}
    (self : dataset_laionhuman_w_control.LaionHumanSD.t num T)
    (depth : nat) (idx : Z) (w : world) :
  dataset_laionhuman_w_control.LaionHumanSD.data self <> [] ->
  (forall p, fs w p = None) ->
  dataset_laionhuman_w_control.LaionHumanSD.getitem self depth idx w
  = (Raise RecursionError, w).
Proof.
  intros Hd Hfs. apply try_next_all_raise_here.
  - destruct (dataset_laionhuman_w_control.LaionHumanSD.data self);
      [contradiction|simpl; lia].
  - intros i. now apply build_unreadable.
Qed.

Lemma getitem_all_unreadable_witness :
  dataset_laionhuman_w_control.LaionHumanSD.getitem
    (laion_ds two_records (transforms.SizePair 512 512) true "canny")
    9 0 world_bare
  = (Raise RecursionError, world_bare).
Proof.
  apply (getitem_all_unreadable
           (laion_ds two_records (transforms.SizePair 512 512) true "canny")
           9 0 world_bare); [discriminate|reflexivity].
Defined.

(** ** Shape of the LaionHumanSD samples *)

Lemma get_params_size img th tw w i j h wd w' :
  transforms.get_params img (th, tw) w = (Ok (i, j, h, wd), w') ->
  h = th /\ wd = tw.
Proof.
  unfold transforms.get_params.
  destruct ((height img <? th) || (width img <? tw)); [discriminate|].
  destruct ((width img =? tw) && (height img =? th)) eqn:Q.
  - apply andb_prop in Q as (Q1 & Q2). apply Z.eqb_eq in Q1, Q2.
    intros E. injection E as _ _ <- <- _. auto.
  - intros E. apply bind_ok in E as (i0 & w1 & _ & E).
    apply bind_ok in E as (j0 & w2 & _ & E).
    apply ret_ok in E as (E & _). injection E as _ _ -> ->. auto.
Qed.

Lemma crop_inv img top left h w out :
  transforms.crop img top left h w = Ok out ->
  width out = w /\ height out = h /\ range out = range img.
Proof.
  unfold transforms.crop. destruct ((h <? 0) || (w <? 0)); [discriminate|].
  intros E. injection E as <-. auto.
Qed.

Lemma RandomCrop_size size img w out w' :
  transforms.RandomCrop size img w = (Ok out, w') ->
  width out = snd (transforms.setup_size size) /\
  height out = fst (transforms.setup_size size) /\
  range out = range img.
Proof.
  unfold transforms.RandomCrop.
  destruct (transforms.setup_size size) as [th tw]. intros E.
  apply bind_ok in E as ([[[i j] h] wd] & w1 & Ep & E).
  apply get_params_size in Ep as (-> & ->).
  apply lift_ok in E as (E & _). now apply crop_inv in E.
Qed.

Section LaionHumanSD_shape.
Import dataset_laionhuman_w_control.
Context {num T : Type} `{PyFloat num}.
Variable self : LaionHumanSD.t num T.

Lemma transform_shape raw w out w' :
  LaionHumanSD.transform self raw w = (Ok out, w') ->
  width out = snd (transforms.setup_size (LaionHumanSD.size self)) /\
  height out = fst (transforms.setup_size (LaionHumanSD.size self)) /\
  range out = Signed.
Proof.
  unfold LaionHumanSD.transform. intros E.
  apply bind_ok in E as (r & w1 & _ & E).
  apply bind_ok in E as (c & w2 & Ec & E).
  apply ret_ok in E as (-> & _).
  apply RandomCrop_size in Ec as (? & ? & _). simpl. auto.
Qed.

Lemma control_transform_shape ci w out w' :
  LaionHumanSD.control_transform self ci w = (Ok out, w') ->
  width out = snd (transforms.setup_size (LaionHumanSD.size self)) /\
  height out = fst (transforms.setup_size (LaionHumanSD.size self)) /\
  range out = Unit.
Proof.
  unfold LaionHumanSD.control_transform. destruct ci as [ci|]; [|discriminate].
  intros E.
  apply bind_ok in E as (r & w1 & _ & E).
  apply bind_ok in E as (c & w2 & Ec & E). apply lift_ok in Ec as (Ec & _).
  apply ret_ok in E as (-> & _).
  apply CenterCrop_size in Ec as (? & ?). simpl. auto.
Qed.

End LaionHumanSD_shape.

(** X10: whatever [size] is, a number or an (H, W) pair, the pictures of
    a sample of the control-enabled LaionHumanSD all have that size;
    image and reference are normalized to [-1, 1], the control map, when
    there is one, is left in [0, 1]. *)
Theorem LaionHumanSD_sample_shape {num T} `{PyFloat num}
    (self : dataset_laionhuman_w_control.LaionHumanSD.t num T)
    (depth : nat) (idx : Z) (w : world)
    (s : dataset_laionhuman_w_control.LaionHumanSD.sample T) (w' : world) :
  dataset_laionhuman_w_control.LaionHumanSD.getitem self depth idx w = (Ok s, w') ->
  let hw := transforms.setup_size
              (dataset_laionhuman_w_control.LaionHumanSD.size self) in
  let shaped (p : picture) (r : value_range) :=
    width p = snd hw /\ height p = fst hw /\ range p = r in
  shaped (dataset_laionhuman_w_control.LaionHumanSD.image s) Signed /\
  shaped (dataset_laionhuman_w_control.LaionHumanSD.reference s) Signed /\
  (forall c, dataset_laionhuman_w_control.LaionHumanSD.control_image s = Some c ->
             shaped c Unit).
Proof.
  intros E hw shaped. subst hw shaped. cbv beta.
  apply getitem_ok in E as (idx' & w1 & img & ref & ctl & prompt & w3 & Eb & Ef).
  apply finish_ok in Ef as (-> & -> & -> & _).
  apply build_ok in Eb
    as (it & path & w0 & ht & w2 & _ & _ & _ & _ & Ei & Er & Hctl).
  apply transform_shape in Ei, Er.
  split; [exact Ei|]. split; [exact Er|].
  intros c ->. destruct (dataset_laionhuman_w_control.LaionHumanSD.use_control self).
  - destruct Hctl as (ci & c' & Ec & Ect & _). injection Ec as ->.
    now apply control_transform_shape in Ect.
  - discriminate.
Qed.

Lemma LaionHumanSD_sample_shape_witness :
  exists s c w',
    dataset_laionhuman_w_control.LaionHumanSD.getitem
      (laion_ds [laion_item "wide.png" (Some "a dog")]
         (transforms.SizeInt 512) true "canny")
      0 0 world_torch = (Ok s, w') /\
    dataset_laionhuman_w_control.LaionHumanSD.control_image s = Some c /\
    width (dataset_laionhuman_w_control.LaionHumanSD.image s) = 512 /\
    height (dataset_laionhuman_w_control.LaionHumanSD.image s) = 512 /\
    width c = 512 /\ height c = 512 /\ range c = Unit.
Proof.
  destruct (dataset_laionhuman_w_control.LaionHumanSD.getitem
              (laion_ds [laion_item "wide.png" (Some "a dog")]
                 (transforms.SizeInt 512) true "canny")
              0 0 world_torch) as [[s|e] w'] eqn:E;
    [|vm_compute in E; discriminate].
  destruct (dataset_laionhuman_w_control.LaionHumanSD.control_image s)
    as [c|] eqn:Ec; [|vm_compute in E; injection E as <- _; discriminate].
  exists s, c, w'. split; [reflexivity|]. split; [exact Ec|].
  destruct (LaionHumanSD_sample_shape _ 0 0 world_torch s w' E)
    as ((Hiw & Hih & _) & _ & Hc).
  destruct (Hc c Ec) as (Hcw & Hch & Hcr).
  repeat split; assumption.
Defined.

(** ** dataset2.LaionHumanSD *)

Section dataset2_LaionHumanSD.
Import dataset2.
Context {num T C : Type} `{PyFloat num}.
Variable self : LaionHumanSD.t num T C.

Lemma keeps_world_build2 idx : keeps_world (LaionHumanSD.build self idx).
Proof.
  unfold LaionHumanSD.build.
  apply keeps_world_bind; [apply keeps_world_lift|]. intros it.
  apply keeps_world_bind; [apply keeps_world_lift|]. intros p.
  apply keeps_world_bind; [apply keeps_world_open|]. intros raw.
  apply keeps_world_bind; [apply keeps_world_lift|]. intros prompt.
  apply keeps_world_bind.
  { unfold LaionHumanSD.transform.
    apply keeps_world_bind; [apply keeps_world_lift|]. intros r.
    apply keeps_world_bind; [apply keeps_world_lift|]. intros c.
    apply keeps_world_ret. }
  intros image.
  apply keeps_world_bind; [apply keeps_world_lift|]. intros clip.
  apply keeps_world_ret.
Qed.

Lemma transform2_shape raw w out w' :
  LaionHumanSD.transform self raw w = (Ok out, w') ->
  width out = snd (transforms.setup_size (LaionHumanSD.size self)) /\
  height out = fst (transforms.setup_size (LaionHumanSD.size self)) /\
  range out = Signed.
Proof.
  unfold LaionHumanSD.transform. intros E.
  apply bind_ok in E as (r & w1 & _ & E).
  apply bind_ok in E as (c & w2 & Ec & E). apply lift_ok in Ec as (Ec & _).
  apply ret_ok in E as (-> & _).
  apply CenterCrop_size in Ec as (? & ?). simpl. auto.
Qed.

End dataset2_LaionHumanSD.

(** X11: a sample of dataset2.LaionHumanSD costs exactly one draw of
    Python's generator and none of torch's, however many records were
    passed over; its image has the size asked for and is normalized to
    [-1, 1]; drop_image_embed is 0 or 1. *)
Theorem dataset2_getitem_sample {num T C} `{PyFloat num}
    (self : dataset2.LaionHumanSD.t num T C)
    (depth : nat) (idx : Z) (w : world)
    (s : dataset2.LaionHumanSD.sample T C) (w' : world) :
  dataset2.LaionHumanSD.getitem self depth idx w = (Ok s, w') ->
  (fs w' = fs w /\ torch_rng w' = torch_rng w /\
   forall n, py_rng w' n = py_rng w (S n)) /\
  (width (dataset2.LaionHumanSD.image s)
   = snd (transforms.setup_size (dataset2.LaionHumanSD.size self)) /\
   height (dataset2.LaionHumanSD.image s)
   = fst (transforms.setup_size (dataset2.LaionHumanSD.size self)) /\
   range (dataset2.LaionHumanSD.image s) = Signed) /\
  (dataset2.LaionHumanSD.drop_image_embed s = 0 \/
   dataset2.LaionHumanSD.drop_image_embed s = 1).
Proof.
  intros E. unfold dataset2.LaionHumanSD.getitem in E.
  apply try_next_ok_here in E as (idx' & [[img prompt] clip] & Eb & Ef);
    [|apply keeps_world_build2].
  unfold dataset2.LaionHumanSD.finish, bind, random_random, py_draw, ret in Ef.
  simpl in Ef.
  destruct (conditional_dropout _ _ _ _ _) as [p d] eqn:Ed.
  injection Ef as <- <-. simpl.
  split; [auto|]. split.
  - unfold dataset2.LaionHumanSD.build in Eb.
    apply bind_ok in Eb as (it & w1 & _ & Eb).
    apply bind_ok in Eb as (pth & w2 & _ & Eb).
    apply bind_ok in Eb as (raw & w3 & _ & Eb).
    apply bind_ok in Eb as (pr & w4 & _ & Eb).
    apply bind_ok in Eb as (im & w5 & Et & Eb).
    apply bind_ok in Eb as (cl & w6 & _ & Eb).
    apply ret_ok in Eb as (Eb & _). injection Eb as -> _ _.
    now apply transform2_shape in Et.
  - unfold conditional_dropout in Ed.
    destruct (float_lt _ _); [injection Ed as _ <-; auto|].
    destruct (float_lt _ _); [injection Ed as _ <-; auto|].
    destruct (float_lt _ _); injection Ed as _ <-; auto.
Qed.

Lemma dataset2_getitem_sample_witness :
  exists s w',
    dataset2.LaionHumanSD.getitem (laion2_ds two_records) 1 0 (world_py (2 ^ 52))
    = (Ok s, w') /\
    torch_rng w' = torch_rng (world_py (2 ^ 52)) /\
    width (dataset2.LaionHumanSD.image s) = 512 /\
    dataset2.LaionHumanSD.text_input_ids s = "a dog".
Proof.
  destruct (dataset2.LaionHumanSD.getitem (laion2_ds two_records) 1 0
              (world_py (2 ^ 52))) as [[s|e] w'] eqn:E;
    [|vm_compute in E; discriminate].
  exists s, w'. split; [reflexivity|].
  destruct (dataset2_getitem_sample (laion2_ds two_records) 1 0
              (world_py (2 ^ 52)) s w' E) as ((_ & Ht & _) & (Hw & _) & _).
  split; [exact Ht|]. split; [exact Hw|].
  vm_compute in E. injection E as <- _. reflexivity.
Defined.

(** ** Building the index *)

(** X12: [construct_data] of LaionHumanSD, when it returns, keeps every
    record of the index, in the order of the file: record i carries its
    key under "key" and its path joined to the data root under
    "img_path", and any other field as it was. *)
Theorem construct_data_records (data_root : string) (data : json_object)
    (l : list item) :
  LaionHumanSD_index.construct_data data_root data = Ok l ->
  length l = length data /\
  forall (i : nat) key each, data !! i = Some (key, each) ->
    exists p each',
      each !! "img_path" = Some p /\ l !! i = Some each' /\
      each' !! "key" = Some key /\
      each' !! "img_path" = Some (path_join data_root p) /\
      forall k, k <> "key" -> k <> "img_path" -> each' !! k = each !! k.
Proof.
  revert l. induction data as [|[key0 each0] rest IH]; intros l E.
  - simpl in E. injection E as <-. split; [reflexivity|].
    intros i key each Hi. discriminate.
  - simpl in E. unfold dict_getitem in E.
    rewrite lookup_insert_ne in E by discriminate.
    destruct (each0 !! "img_path") as [p0|] eqn:Ep; [|discriminate].
    destruct (LaionHumanSD_index.construct_data data_root rest) as [l'|]
      eqn:Er; [|discriminate].
    injection E as <-. destruct (IH l' eq_refl) as (Hlen & Hrec).
    split; [simpl; now rewrite Hlen|].
    intros [|i] key each Hi.
    + simpl in Hi. injection Hi as <- <-.
      exists p0, (<["img_path" := path_join data_root p0]> (<["key" := key0]> each0)).
      split; [assumption|]. split; [reflexivity|].
      split; [rewrite lookup_insert_ne by discriminate; apply lookup_insert_eq|].
      split; [apply lookup_insert_eq|].
      intros k Hk1 Hk2. now rewrite !lookup_insert_ne by congruence.
    + simpl in Hi. apply Hrec in Hi. exact Hi.
Qed.

Lemma construct_data_records_witness :
  exists l each',
    LaionHumanSD_index.construct_data "root" index_json = Ok l /\
    l !! 1%nat = Some each' /\
    each' !! "key" = Some "id1" /\
    each' !! "img_path" = Some "/abs/1.jpg" /\
    each' !! "prompt" = Some "a dog".
Proof.
  destruct (LaionHumanSD_index.construct_data "root" index_json) as [l|e] eqn:E;
    [|vm_compute in E; discriminate].
  destruct (construct_data_records "root" index_json l E) as (_ & Hrec).
  destruct (Hrec 1%nat "id1" {[ "img_path" := "/abs/1.jpg"; "prompt" := "a dog" ]}
              eq_refl) as (p & each' & Hp & Hl & Hk & Hi & Ho).
  vm_compute in Hp. injection Hp as <-.
  exists l, each'. split; [reflexivity|]. split; [exact Hl|].
  split; [exact Hk|]. split; [exact Hi|].
  rewrite Ho by discriminate. vm_compute. reflexivity.
Defined.

(** X13: [construct_data] of LaionHumanSD fails as a whole, with
    KeyError, as soon as one record of the index has no "img_path"; no
    partial index is returned. *)
Theorem construct_data_missing_path (data_root : string) (data : json_object)
    (i : nat) (key : string) (each : item) :
  data !! i = Some (key, each) -> each !! "img_path" = None ->
  LaionHumanSD_index.construct_data data_root data = Raise KeyError.
Proof.
  revert i. induction data as [|[key0 each0] rest IH]; intros i Hi Hp.
  - discriminate.
  - simpl. unfold dict_getitem. rewrite lookup_insert_ne by discriminate.
    destruct i as [|i].
    + simpl in Hi. injection Hi as -> ->. now rewrite Hp.
    + simpl in Hi. destruct (each0 !! "img_path"); [|reflexivity].
      now rewrite (IH i Hi Hp).
Qed.

Lemma construct_data_missing_path_witness :
  LaionHumanSD_index.construct_data "root"
    (index_json ++ [("id2", {[ "prompt" := "no path" ]})])
  = Raise KeyError.
Proof.
  apply (construct_data_missing_path "root"
           (index_json ++ [("id2", {[ "prompt" := "no path" ]})])
           2 "id2" {[ "prompt" := "no path" ]}); reflexivity.
Defined.

(** X14: [remove_not_exist] is [construct_data] followed by the filter
    on [os.path.exists] of the joined path: the same records, in the same
    order, less those whose file is not there, and the same failure. *)
Theorem remove_not_exist_filter (path_exists : string -> bool)
    (data_root : string) (data : json_object) :
  LaionHumanSD_index.remove_not_exist path_exists data_root data
  = match LaionHumanSD_index.construct_data data_root data with
    | Ok l => Ok (List.filter (record_exists path_exists) l)
    | Raise e => Raise e
    end.
Proof.
  induction data as [|[key each] rest IH]; [reflexivity|].
  cbn [LaionHumanSD_index.remove_not_exist LaionHumanSD_index.construct_data].
  destruct (dict_getitem (<["key":=key]> each) "img_path") as [p|e];
    [|reflexivity].
  rewrite IH.
  destruct (LaionHumanSD_index.construct_data data_root rest) as [l|e];
    [|reflexivity].
  cbn [List.filter].
  assert (Ex : record_exists path_exists
                 (<["img_path" := path_join data_root p]> (<["key" := key]> each))
               = path_exists (path_join data_root p))
    by (unfold record_exists; now rewrite lookup_insert_eq).
  now rewrite Ex.
Qed.

(** X15: [construct_data] of BaseDataset reads the files in the order
    given and the records of each in the order of its lines; one path
    given as a string is read as the list of that one path; a file that
    cannot be read fails the whole load. *)
Theorem jsonl_construct_data_concat (reader : string -> result (list item))
    (l1 l2 : list string) (s : string) :
  jsonl_index.construct_data reader (jsonl_index.Paths (l1 ++ l2))
  = match jsonl_index.construct_data reader (jsonl_index.Paths l1) with
    | Raise e => Raise e
    | Ok d1 =>
        match jsonl_index.construct_data reader (jsonl_index.Paths l2) with
        | Raise e => Raise e
        | Ok d2 => Ok (d1 ++ d2)
        end
    end /\
  jsonl_index.construct_data reader (jsonl_index.OnePath s) = reader s.
Proof.
  unfold jsonl_index.construct_data. split.
  - induction l1 as [|f l1 IH]; simpl.
    + now destruct (jsonl_index.read_files reader l2).
    + destruct (reader f) as [r|e]; [|reflexivity]. rewrite IH.
      destruct (jsonl_index.read_files reader l1) as [d1|e]; [|reflexivity].
      destruct (jsonl_index.read_files reader l2) as [d2|e]; [|reflexivity].
      now rewrite app_assoc.
  - simpl. destruct (reader s) as [r|e]; [|reflexivity]. now rewrite app_nil_r.
Qed.

(** ** More on the clip window *)

(** X16: when the video has at least [(sample_n_frames - 1) *
    sample_stride + 1] frames (and fewer than 2^53, where a double still
    tells two integers apart), the clip sampler returns exactly the
    frames [start_idx + i * sample_stride]: the stride is kept, and with
    a positive stride no frame is taken twice. *)
Theorem select_window_exact_stride {T}
    (self : dataset_laionhuman_w_control.BaseVideoDataset.t T)
    (video_length : Z) (w : world) :
  let n := dataset_laionhuman_w_control.BaseVideoDataset.sample_n_frames self in
  let stride := dataset_laionhuman_w_control.BaseVideoDataset.sample_stride self in
  1 <= n -> 0 <= stride -> (n - 1) * stride + 1 <= video_length ->
  video_length < 2 ^ 53 ->
  exists start_idx batch_index w',
    dataset_laionhuman_w_control.BaseVideoDataset.select_window self video_length w
    = (Ok ((n - 1) * stride + 1, start_idx, batch_index), w') /\
    Z.of_nat (length batch_index) = n /\
    (forall (i : nat) x, batch_index !! i = Some x ->
                         x = start_idx + Z.of_nat i * stride) /\
    (0 < stride -> NoDup batch_index).
Proof.
  intros n stride Hn Hs Hv Hb.
  destruct (select_window_closed self video_length w) as ((w' & E) & Hc & Hst);
    [nia|exact Hn|exact Hs|].
  fold n stride in E, Hc, Hst.
  rewrite Z.min_r in E, Hc, Hst by lia.
  set (start_idx := py_rng w 0%nat mod (video_length - ((n - 1) * stride + 1) + 1))
    in *.
  assert (Hlook : forall (i : nat) x,
            ((fun i : Z =>
                Qfloor (dataset_laionhuman_w_control.BaseVideoDataset.linspace_y
                          start_idx (start_idx + ((n - 1) * stride + 1) - 1) n i))
               <$> seqZ 0 n) !! i = Some x ->
            Z.of_nat i < n /\ x = start_idx + Z.of_nat i * stride).
  { intros i x Hi. apply (window_lookup self) in Hi as (Hin & ->).
    split; [exact Hin|].
    replace (start_idx + ((n - 1) * stride + 1) - 1)
      with (start_idx + (n - 1) * stride) by lia.
    apply linspace_y_exact; lia. }
  eexists start_idx, _, w'. split; [exact E|].
  split; [rewrite length_fmap, length_seqZ; lia|].
  split.
  - intros i x Hi. now apply Hlook in Hi.
  - intros Hpos. apply NoDup_alt. intros i j x Hi Hj.
    apply Hlook in Hi as (_ & ->). apply Hlook in Hj as (_ & Hj). nia.
Qed.

Lemma select_window_exact_stride_witness :
  exists batch_index w',
    dataset_laionhuman_w_control.BaseVideoDataset.select_window video_ds 100
      (world_py 5)
    = (Ok (93, 5, batch_index), w') /\
    batch_index !! 2%nat = Some 13 /\ NoDup batch_index.
Proof.
  destruct (select_window_exact_stride video_ds 100 (world_py 5))
    as (s & l & w' & E & _ & Hl & Hn);
    [simpl; lia|simpl; lia|simpl; lia|reflexivity|].
  assert (s = 5) as ->.
  { vm_compute in E. injection E as <- _ _. reflexivity. }
  exists l, w'. split; [exact E|]. split.
  - destruct (l !! 2%nat) as [x|] eqn:Ex.
    + now rewrite (Hl 2%nat x Ex).
    + vm_compute in E. injection E as <- _. discriminate.
  - apply Hn. simpl. lia.
Defined.

(** X17: every index the clip sampler returns names a frame of the
    video: it lies in [start_idx, start_idx + clip_length - 1], inside
    [0, video_length - 1].  numpy computes the indices in double
    precision: the bounds hold because rounding to the nearest double
    keeps the order, and leaves an integer below 2^53 as it is. *)
Theorem select_window_in_range {T}
    (self : dataset_laionhuman_w_control.BaseVideoDataset.t T)
    (video_length : Z) (w : world) :
  let n := dataset_laionhuman_w_control.BaseVideoDataset.sample_n_frames self in
  let stride := dataset_laionhuman_w_control.BaseVideoDataset.sample_stride self in
  1 <= video_length < 2 ^ 53 -> 1 <= n <= 2 ^ 53 -> 0 <= stride ->
  exists clip_length start_idx batch_index w',
    dataset_laionhuman_w_control.BaseVideoDataset.select_window self video_length w
    = (Ok (clip_length, start_idx, batch_index), w') /\
    (forall (i : nat) x, batch_index !! i = Some x ->
       0 <= start_idx <= x /\ x <= start_idx + clip_length - 1 /\
       x <= video_length - 1).
Proof.
  intros n stride Hv Hn Hs.
  destruct (select_window_closed self video_length w) as ((w' & E) & Hc & Hst);
    [lia|lia|exact Hs|].
  fold n stride in E, Hc, Hst.
  set (clip_length := Z.min video_length ((n - 1) * stride + 1)) in *.
  set (start_idx := py_rng w 0%nat mod (video_length - clip_length + 1)) in *.
  eexists clip_length, start_idx, _, w'. split; [exact E|].
  intros i x Hi. apply (window_lookup self) in Hi as (Hin & ->).
  pose proof (linspace_y_range start_idx (start_idx + clip_length - 1) n
                (Z.of_nat i)) as R.
  assert (H1 : n = 1 -> start_idx + clip_length - 1 = start_idx).
  { intros E1. subst clip_length. rewrite E1. lia. }
  fold n in R. lia.
Qed.

Lemma select_window_in_range_witness :
  exists clip_length start_idx batch_index w',
    dataset_laionhuman_w_control.BaseVideoDataset.select_window video50_ds 120
      (world_py 5)
    = (Ok (clip_length, start_idx, batch_index), w') /\
    (forall (i : nat) x, batch_index !! i = Some x -> 0 <= x <= 119).
Proof.
  destruct (select_window_in_range video50_ds 120 (world_py 5))
    as (c & s & l & w' & E & Hr); [simpl; lia|simpl; lia|simpl; lia|].
  exists c, s, l, w'. split; [exact E|].
  intros i x Hi. destruct (Hr i x Hi) as (H1 & _ & H2). lia.
Defined.

(** ** The video sample *)

Lemma mapM_Forall2 {A B} (f : A -> M B) (P : A -> B -> Prop) :
  (forall a w b w', f a w = (Ok b, w') -> P a b) ->
  forall l w bs w',
    dataset_laionhuman_w_control.BaseVideoDataset.mapM f l w = (Ok bs, w') ->
    Forall2 P l bs.
Proof.
  intros Hf. induction l as [|a l IH]; intros w bs w' E; simpl in E.
  - apply ret_ok in E as (-> & _). constructor.
  - apply bind_ok in E as (b & w1 & Eb & E).
    apply bind_ok in E as (bs' & w2 & Ebs & E).
    apply ret_ok in E as (-> & _).
    constructor; [eapply Hf; exact Eb|eapply IH; exact Ebs].
Qed.

Lemma Forall2_compose {A B C} (P : A -> B -> Prop) (Q : B -> C -> Prop)
    (l : list A) (k : list B) (m : list C) :
  Forall2 P l k -> Forall2 Q k m ->
  Forall2 (fun a c => exists b, P a b /\ Q b c) l m.
Proof.
  intros H. revert m. induction H as [|a b l k Hab _ IH]; intros m Hq.
  - inversion Hq. constructor.
  - inversion Hq as [|? c ? m' Hbc Hq']; subst. constructor; eauto.
Qed.

Lemma list_getitem_0 {A} (l : list A) (a : A) :
  list_getitem l 0 = Ok a -> head l = Some a.
Proof.
  unfold list_getitem. cbv zeta. change (0 <? 0) with false. cbv iota.
  destruct ((0 <? 0) || (Z.of_nat (length l) <=? 0)); [discriminate|].
  change (Z.to_nat 0) with 0%nat. rewrite head_lookup.
  destruct (l !! 0%nat); [|discriminate]. now intros E; injection E as <-.
Qed.

Lemma PIL_resize_source p w h out :
  PIL.resize p w h = Ok out -> source out = source p.
Proof.
  unfold PIL.resize. destruct ((width p =? w) && (height p =? h)).
  - now intros E; injection E as <-.
  - destruct ((w <? 1) || (h <? 1)); [discriminate|].
    now intros E; injection E as <-.
Qed.

Lemma Resize_source size p out :
  transforms.Resize size p = Ok out -> source out = source p.
Proof.
  unfold transforms.Resize.
  destruct (transforms.compute_resized_output_size _ _ _) as [[nh nw]|];
    [|discriminate].
  destruct ((nw <? 1) || (nh <? 1)); [discriminate|].
  now intros E; injection E as <-.
Qed.

Lemma crop_source p top left h w out :
  transforms.crop p top left h w = Ok out ->
  source out = source p /\ range out = range p.
Proof.
  unfold transforms.crop. destruct ((h <? 0) || (w <? 0)); [discriminate|].
  now intros E; injection E as <-.
Qed.

Lemma CenterCrop_source size p out :
  transforms.CenterCrop size p = Ok out ->
  source out = source p /\ range out = range p.
Proof.
  unfold transforms.CenterCrop.
  destruct (transforms.setup_size size) as [ch cw]. cbv zeta.
  destruct ((cw >? width p) || (ch >? height p)).
  - set (q := transforms.pad p _ _ _ _).
    destruct (true && (cw =? width q) && (ch =? height q)).
    + intros E. injection E as <-. auto.
    + intros E. apply crop_source in E as (-> & ->). auto.
  - simpl. apply crop_source.
Qed.

Section video_transforms.
Import dataset_laionhuman_w_control.
Context {T : Type}.
Variable self : BaseVideoDataset.t T.

Lemma video_image_transform_ok p out :
  BaseVideoDataset.image_transform self p = Ok out ->
  frame_of (source p) (BaseVideoDataset.short_size self) Signed out.
Proof.
  unfold BaseVideoDataset.image_transform.
  destruct (transforms.Resize _ p) as [r|] eqn:Er; [|discriminate].
  destruct (transforms.CenterCrop _ r) as [c|] eqn:Ec; [|discriminate].
  intros E. injection E as <-.
  apply Resize_source in Er. pose proof (CenterCrop_source _ _ _ Ec) as (Hs & _).
  apply CenterCrop_size in Ec as (Hw & Hh). simpl in Hw, Hh.
  repeat split; simpl; congruence.
Qed.

Lemma video_control_transform_ok p out :
  BaseVideoDataset.control_transform self p = Ok out ->
  frame_of (source p) (BaseVideoDataset.short_size self) Unit out.
Proof.
  unfold BaseVideoDataset.control_transform.
  destruct (transforms.Resize _ p) as [r|] eqn:Er; [|discriminate].
  destruct (transforms.CenterCrop _ r) as [c|] eqn:Ec; [|discriminate].
  intros E. injection E as <-.
  apply Resize_source in Er. pose proof (CenterCrop_source _ _ _ Ec) as (Hs & _).
  apply CenterCrop_size in Ec as (Hw & Hh). simpl in Hw, Hh.
  repeat split; simpl; congruence.
Qed.

End video_transforms.

(** X18: a sample of the video dataset is made of the frames the clip
    sampler chose: frame i of the video is the picture
    [<role_root>/images/<name>.png] and frame i of the control video the
    picture [<role_root>/<control_type>/<name>.png] with the same name,
    the 4-digit, 1-based number of the sampled index; the reference is
    made of the first sampled frame; every tensor is [sample_size] square,
    the video and the reference in [-1, 1], the control video in [0, 1]. *)
Theorem video_getitem_frames {T}
    (self : dataset_laionhuman_w_control.BaseVideoDataset.t T)
    (idx : Z) (w : world)
    (s : dataset_laionhuman_w_control.BaseVideoDataset.sample T) (w' : world) :
  dataset_laionhuman_w_control.BaseVideoDataset.getitem self idx w = (Ok s, w') ->
  let side := dataset_laionhuman_w_control.BaseVideoDataset.short_size self in
  let control_type :=
    dataset_laionhuman_w_control.BaseVideoDataset.control_type self in
  exists it role_root names clip_length start_idx batch_index,
    list_getitem (dataset_laionhuman_w_control.BaseVideoDataset.data self) idx
    = Ok it /\
    it !! "role_root" = Some role_root /\
    dirs w (role_root +:+ "/images") = Some names /\
    fst (dataset_laionhuman_w_control.BaseVideoDataset.select_window self
           (Z.of_nat (length names)) w)
    = Ok (clip_length, start_idx, batch_index) /\
    Forall2
      (fun i p =>
         frame_of (role_root +:+ "/images/" +:+ frame_name i +:+ ".png")
           side Signed p)
      batch_index (dataset_laionhuman_w_control.BaseVideoDataset.video s) /\
    Forall2
      (fun i p =>
         frame_of (role_root +:+ "/" +:+ control_type +:+ "/"
                     +:+ frame_name i +:+ ".png")
           side Unit p)
      batch_index
      (dataset_laionhuman_w_control.BaseVideoDataset.control_video s) /\
    (exists first,
        head batch_index = Some first /\
        frame_of (role_root +:+ "/images/" +:+ frame_name first +:+ ".png")
          side Signed
          (dataset_laionhuman_w_control.BaseVideoDataset.reference s)) /\
    dataset_laionhuman_w_control.BaseVideoDataset.text_input_ids s
    = dataset_laionhuman_w_control.BaseVideoDataset.tokenizer self
        (BaseDataset.prompt_of it).
Proof.
  intros E side control_type.
  unfold dataset_laionhuman_w_control.BaseVideoDataset.getitem in E.
  apply bind_ok in E as (it & w0 & Eit & E). apply lift_ok in Eit as (Eit & ->).
  apply bind_ok in E as (role_root & w0 & Er & E).
  apply lift_ok in Er as (Er & ->). apply dict_getitem_ok in Er.
  apply bind_ok in E as (names & w0 & El & E).
  assert (Hl : dirs w (role_root +:+ "/images") = Some names /\ w0 = w).
  { unfold dataset_laionhuman_w_control.BaseVideoDataset.listdir in El.
    destruct (dirs w (role_root +:+ "/images")); [|discriminate].
    injection El as -> ->. auto. }
  destruct Hl as (Hl & ->).
  apply bind_ok in E as ([[clip_length start_idx] batch_index] & w1 & Ew & E).
  apply bind_ok in E as (frames & w2 & Ef & E).
  apply (mapM_Forall2 _
           (fun i fr =>
              source (fst fr) = role_root +:+ "/images/" +:+ frame_name i +:+ ".png" /\
              source (snd fr) = role_root +:+ "/" +:+ control_type +:+ "/"
                                  +:+ frame_name i +:+ ".png")) in Ef.
  2:{ intros i wa [im ct] wb Ea.
      apply bind_ok in Ea as (im' & wc & Ei & Ea).
      apply bind_ok in Ea as (ct' & wd & Ec & Ea).
      apply ret_ok in Ea as (Ea & _). injection Ea as -> ->.
      apply open_ok in Ei as (? & ? & _ & -> & _).
      apply open_ok in Ec as (? & ? & _ & -> & _).
      split; reflexivity. }
  apply bind_ok in E as (ref0 & w3 & Eref & E). apply lift_ok in Eref as (Eref & ->).
  apply list_getitem_0 in Eref.
  cbv zeta in E.
  apply bind_ok in E as (ref1 & w3 & Eref1 & E).
  apply lift_ok in Eref1 as (Eref1 & ->). apply PIL_resize_source in Eref1.
  apply bind_ok in E as (imgs1 & w3 & Ei1 & E).
  apply (mapM_Forall2 _ (fun a b => source b = source a)) in Ei1.
  2:{ intros a wa b wb Ea. apply lift_ok in Ea as (Ea & _).
      now apply PIL_resize_source in Ea. }
  apply bind_ok in E as (ctls1 & w4 & Ec1 & E).
  apply (mapM_Forall2 _ (fun a b => source b = source a)) in Ec1.
  2:{ intros a wa b wb Ea. apply lift_ok in Ea as (Ea & _).
      now apply PIL_resize_source in Ea. }
  apply bind_ok in E as (ref2 & w5 & Eref2 & E).
  apply lift_ok in Eref2 as (Eref2 & ->).
  apply video_image_transform_ok in Eref2.
  apply bind_ok in E as (imgs2 & w5 & Ei2 & E).
  apply (mapM_Forall2 _ (fun a b => frame_of (source a) side Signed b)) in Ei2.
  2:{ intros a wa b wb Ea. apply lift_ok in Ea as (Ea & _).
      now apply video_image_transform_ok in Ea. }
  apply bind_ok in E as (ctls2 & w6 & Ec2 & E).
  apply (mapM_Forall2 _ (fun a b => frame_of (source a) side Unit b)) in Ec2.
  2:{ intros a wa b wb Ea. apply lift_ok in Ea as (Ea & _).
      now apply video_control_transform_ok in Ea. }
  apply ret_ok in E as (-> & _). simpl.
  exists it, role_root, names, clip_length, start_idx, batch_index.
  split; [exact Eit|]. split; [exact Er|]. split; [exact Hl|].
  split; [now rewrite Ew|].
  split; [|split; [|split; [|reflexivity]]].
  - assert (F1 : Forall2 (fun i a => source a = role_root +:+ "/images/"
                                        +:+ frame_name i +:+ ".png")
                   batch_index (fst <$> frames)).
    { apply Forall2_fmap_r. eapply Forall2_impl; [exact Ef|].
      intros i fr (H1 & _). exact H1. }
    pose proof (Forall2_compose _ _ _ _ _ (Forall2_compose _ _ _ _ _ F1 Ei1) Ei2)
      as F.
    eapply Forall2_impl; [exact F|].
    intros i p (b & (a & Ha & Hb) & (Hs & Hrest)).
    split; [|exact Hrest]. congruence.
  - assert (F1 : Forall2 (fun i a => source a = role_root +:+ "/" +:+ control_type
                                        +:+ "/" +:+ frame_name i +:+ ".png")
                   batch_index (snd <$> frames)).
    { apply Forall2_fmap_r. eapply Forall2_impl; [exact Ef|].
      intros i fr (_ & H2). exact H2. }
    pose proof (Forall2_compose _ _ _ _ _ (Forall2_compose _ _ _ _ _ F1 Ec1) Ec2)
      as F.
    eapply Forall2_impl; [exact F|].
    intros i p (b & (a & Ha & Hb) & (Hs & Hrest)).
    split; [|exact Hrest]. congruence.
  - destruct Ef as [|i0 [im0 ct0] bi frs (Hi0 & _) _]; [discriminate|].
    simpl in Eref. injection Eref as ->.
    exists i0. split; [reflexivity|].
    destruct Eref2 as (Hs & Hrest). split; [|exact Hrest].
    simpl in Hi0. congruence.
Qed.

Lemma video_getitem_frames_witness :
  exists s w' batch_index,
    dataset_laionhuman_w_control.BaseVideoDataset.getitem clip50_ds 0
      world_long_clip
    = (Ok s, w') /\
    batch_index !! 21%nat = Some 50 /\
    frame_name 50 = "0051" /\
    Forall2
      (fun i p =>
         frame_of ("role" +:+ "/images/" +:+ frame_name i +:+ ".png") 512 Signed p)
      batch_index (dataset_laionhuman_w_control.BaseVideoDataset.video s) /\
    Forall2
      (fun i p =>
         frame_of ("role" +:+ "/" +:+ "canny" +:+ "/" +:+ frame_name i +:+ ".png")
           512 Unit p)
      batch_index
      (dataset_laionhuman_w_control.BaseVideoDataset.control_video s).
Proof.
  destruct (dataset_laionhuman_w_control.BaseVideoDataset.getitem clip50_ds 0
              world_long_clip) as [[s|e] w'] eqn:E;
    [|vm_compute in E; discriminate].
  destruct (video_getitem_frames clip50_ds 0 world_long_clip s w' E)
    as (it & root & names & cl & st & bi & Hit & Hr & Hn & Hw & Hv & Hc & _).
  vm_compute in Hit. injection Hit as <-.
  vm_compute in Hr. injection Hr as <-.
  vm_compute in Hn. injection Hn as <-.
  vm_compute in Hw. injection Hw as <- <- <-.
  refine (ex_intro _ s (ex_intro _ w' (ex_intro _ _
            (conj eq_refl (conj _ (conj _ (conj Hv Hc))))))); reflexivity.
Defined.

(** ** Frame file names *)

Lemma pretty_N_char_digit (d : N) :
  (d < 10)%N -> (N.of_nat (nat_of_ascii (pretty_N_char d)) - 48 = d)%N.
Proof.
  intros H.
  assert (d = 0 \/ d = 1 \/ d = 2 \/ d = 3 \/ d = 4 \/ d = 5 \/ d = 6 \/ d = 7
          \/ d = 8 \/ d = 9)%N as Hd by lia.
  repeat (destruct Hd as [->|Hd]; [reflexivity|]). now subst d.
Qed.

Lemma pretty_N_char_not_sign (d : N) :
  (d < 10)%N -> pretty_N_char d <> "-"%char /\ pretty_N_char d <> "+"%char.
Proof.
  intros H.
  assert (d = 0 \/ d = 1 \/ d = 2 \/ d = 3 \/ d = 4 \/ d = 5 \/ d = 6 \/ d = 7
          \/ d = 8 \/ d = 9)%N as Hd by lia.
  repeat (destruct Hd as [->|Hd]; [split; discriminate|]).
  subst d. split; discriminate.
Qed.

(** Reading back what [pretty] wrote in front of [t]. *)
Lemma read_decimal_pretty_go (x : N) :
  forall t, read_decimal 0 (pretty_N_go x t) = read_decimal x t.
Proof.
  induction (N.lt_wf_0 x) as [x _ IH]. intros t.
  destruct (N.eq_dec x 0%N) as [->|Hx]; [now rewrite pretty_N_go_0|].
  rewrite pretty_N_go_step by lia.
  rewrite IH by (apply N.div_lt; lia).
  cbn [read_decimal].
  rewrite pretty_N_char_digit by (apply N.mod_lt; lia).
  f_equal. pose proof (N.div_mod x 10%N ltac:(lia)). lia.
Qed.

(** A positive number is written with a digit in front. *)
Lemma pretty_go_head (x : N) :
  (0 < x)%N ->
  forall t, exists d rest,
    (d < 10)%N /\ pretty_N_go x t = String (pretty_N_char d) rest.
Proof.
  induction (N.lt_wf_0 x) as [x _ IH]. intros Hx t.
  rewrite pretty_N_go_step by lia.
  destruct (N.eq_dec (x `div` 10)%N 0%N) as [E|Hq].
  - rewrite E, pretty_N_go_0. exists (x `mod` 10)%N, t.
    split; [apply N.mod_lt; lia|reflexivity].
  - apply IH; [apply N.div_lt; lia|now apply N.neq_0_lt_0].
Qed.

Lemma read_decimal_zeros (k : nat) (s : string) :
  read_decimal 0
    (dataset_laionhuman_w_control.BaseVideoDataset.zero_digits k +:+ s)
  = read_decimal 0 s.
Proof. induction k as [|k IH]; [reflexivity|exact IH]. Qed.

Lemma frame_name_read (idx : Z) :
  0 <= idx -> read_decimal 0 (frame_name idx) = Z.to_N (idx + 1).
Proof.
  intros H. unfold frame_name.
  destruct (idx + 1) as [|p|p] eqn:Ep; [lia| |lia].
  change (pretty (Z.pos p)) with (pretty_N_go (N.pos p) "").
  destruct (pretty_go_head (N.pos p) ltac:(lia) "") as (d & rest & Hd & Es).
  destruct (pretty_N_char_not_sign d Hd) as (Nm & Np).
  assert (Ez : dataset_laionhuman_w_control.BaseVideoDataset.zfill 4
                 (pretty_N_go (N.pos p) "")
               = dataset_laionhuman_w_control.BaseVideoDataset.zero_digits
                   (4 - String.length (pretty_N_go (N.pos p) ""))
                 +:+ pretty_N_go (N.pos p) "").
  { unfold dataset_laionhuman_w_control.BaseVideoDataset.zfill.
    rewrite Es. destruct (Ascii.eqb_spec (pretty_N_char d) "-"%char) as [E|_];
      [contradiction|].
    destruct (Ascii.eqb_spec (pretty_N_char d) "+"%char) as [E|_];
      [contradiction|].
    destruct (pretty_N_char d) as [[] [] [] [] [] [] [] []];
      try reflexivity; contradiction. }
  rewrite Ez, read_decimal_zeros, read_decimal_pretty_go. reflexivity.
Qed.

(** X19: the file name of a frame, [str(idx + 1).zfill(4)], reads back as
    [idx + 1]; so two different frame indices never share a file name. *)
Theorem frame_name_round_trip (i j : Z) :
  0 <= i -> 0 <= j ->
  Z.of_N (read_decimal 0 (frame_name i)) = i + 1 /\
  (frame_name i = frame_name j -> i = j).
Proof.
  intros Hi Hj. split.
  - rewrite frame_name_read by lia. lia.
  - intros E. apply (f_equal (read_decimal 0)) in E.
    rewrite !frame_name_read in E by lia. lia.
Qed.

Lemma frame_name_round_trip_witness :
  Z.of_N (read_decimal 0 (frame_name 41)) = 41 + 1 /\
  (frame_name 41 = frame_name 12345 -> 41 = 12345).
Proof. apply (frame_name_round_trip 41 12345); lia. Defined.

(** ** Failures of the video dataset *)

Lemma select_window_fs {T}
    (self : dataset_laionhuman_w_control.BaseVideoDataset.t T)
    (video_length : Z) (w : world) :
  fs (snd (dataset_laionhuman_w_control.BaseVideoDataset.select_window self
             video_length w)) = fs w.
Proof.
  unfold dataset_laionhuman_w_control.BaseVideoDataset.select_window,
    random_randint.
  destruct (_ <? 0); [reflexivity|].
  unfold bind, py_draw, ret, lift. simpl.
  destruct (dataset_laionhuman_w_control.BaseVideoDataset.linspace _ _ _);
    reflexivity.
Qed.

(** X20: the video dataset has no handler: an index outside [-n, n)
    raises IndexError, a record without "role_root" KeyError, an images
    directory that cannot be listed OSError, each reaching the caller,
    before any draw is taken. *)
Theorem video_getitem_errors {T}
    (self : dataset_laionhuman_w_control.BaseVideoDataset.t T)
    (idx : Z) (w : world) :
  let n := Z.of_nat
             (length (dataset_laionhuman_w_control.BaseVideoDataset.data self)) in
  (n <= idx \/ idx < - n ->
   dataset_laionhuman_w_control.BaseVideoDataset.getitem self idx w
   = (Raise IndexError, w)) /\
  (forall it,
      list_getitem (dataset_laionhuman_w_control.BaseVideoDataset.data self) idx
      = Ok it ->
      it !! "role_root" = None ->
      dataset_laionhuman_w_control.BaseVideoDataset.getitem self idx w
      = (Raise KeyError, w)) /\
  (forall it role_root,
      list_getitem (dataset_laionhuman_w_control.BaseVideoDataset.data self) idx
      = Ok it ->
      it !! "role_root" = Some role_root ->
      dirs w (role_root +:+ "/images") = None ->
      dataset_laionhuman_w_control.BaseVideoDataset.getitem self idx w
      = (Raise OSError, w)).
Proof.
  intros n. repeat split.
  - intros H. unfold dataset_laionhuman_w_control.BaseVideoDataset.getitem.
    apply bind_fail. unfold lift. now rewrite list_getitem_out_of_range.
  - intros it Hit Hr.
    unfold dataset_laionhuman_w_control.BaseVideoDataset.getitem.
    assert (E1 : lift (list_getitem
                         (dataset_laionhuman_w_control.BaseVideoDataset.data self)
                         idx) w = (Ok it, w))
      by (unfold lift; now rewrite Hit).
    step E1. apply bind_fail. unfold lift, dict_getitem. now rewrite Hr.
  - intros it role_root Hit Hr Hd.
    unfold dataset_laionhuman_w_control.BaseVideoDataset.getitem.
    assert (E1 : lift (list_getitem
                         (dataset_laionhuman_w_control.BaseVideoDataset.data self)
                         idx) w = (Ok it, w))
      by (unfold lift; now rewrite Hit).
    step E1.
    assert (E2 : lift (dict_getitem it "role_root") w = (Ok role_root, w))
      by (unfold lift, dict_getitem; now rewrite Hr).
    step E2. apply bind_fail.
    unfold dataset_laionhuman_w_control.BaseVideoDataset.listdir. now rewrite Hd.
Qed.

Lemma video_getitem_errors_witness :
  dataset_laionhuman_w_control.BaseVideoDataset.getitem clip_ds 3 world_clip
  = (Raise IndexError, world_clip) /\
  dataset_laionhuman_w_control.BaseVideoDataset.getitem clip_ds 0 world0
  = (Raise OSError, world0).
Proof.
  split.
  - apply (proj1 (video_getitem_errors clip_ds 3 world_clip)). left. simpl. lia.
  - apply (proj2 (proj2 (video_getitem_errors clip_ds 0 world0))
             {[ "role_root" := "role" ]} "role"); vm_compute; reflexivity.
Defined.

(** X21: the video dataset does not pass over a clip it cannot read:
    when the first sampled frame, the one at [start_idx], does not decode,
    [__getitem__] raises OSError (for a clip of fewer than 2^53 frames,
    where the double of [start_idx] is [start_idx]). *)
Theorem video_getitem_missing_frame {T}
    (self : dataset_laionhuman_w_control.BaseVideoDataset.t T)
    (idx : Z) (w : world) (it : item) (role_root : string)
    (names : list string) :
  let n := dataset_laionhuman_w_control.BaseVideoDataset.sample_n_frames self in
  let stride := dataset_laionhuman_w_control.BaseVideoDataset.sample_stride self in
  let video_length := Z.of_nat (length names) in
  let clip_length := Z.min video_length ((n - 1) * stride + 1) in
  let start_idx := py_rng w 0%nat mod (video_length - clip_length + 1) in
  list_getitem (dataset_laionhuman_w_control.BaseVideoDataset.data self) idx
  = Ok it ->
  it !! "role_root" = Some role_root ->
  dirs w (role_root +:+ "/images") = Some names ->
  names <> [] -> video_length < 2 ^ 53 -> 1 <= n -> 0 <= stride ->
  fs w (role_root +:+ "/images/" +:+ frame_name start_idx +:+ ".png") = None ->
  fst (dataset_laionhuman_w_control.BaseVideoDataset.getitem self idx w)
  = Raise OSError.
Proof.
  intros n stride video_length clip_length start_idx Hit Hr Hd Hne Hb Hn Hs Hf.
  assert (Hv : 1 <= video_length).
  { subst video_length. destruct names; [contradiction|simpl; lia]. }
  destruct (select_window_closed self video_length w Hv Hn Hs)
    as ((w1 & Ew) & Hc & Hst).
  fold n stride clip_length start_idx in Ew, Hc, Hst.
  pose proof (select_window_fs self video_length w) as Hfs.
  rewrite Ew in Hfs. simpl in Hfs.
  unfold dataset_laionhuman_w_control.BaseVideoDataset.getitem.
  assert (E1 : lift (list_getitem
                       (dataset_laionhuman_w_control.BaseVideoDataset.data self)
                       idx) w = (Ok it, w))
    by (unfold lift; now rewrite Hit).
  step E1.
  assert (E2 : lift (dict_getitem it "role_root") w = (Ok role_root, w))
    by (unfold lift, dict_getitem; now rewrite Hr).
  step E2.
  assert (E3 : dataset_laionhuman_w_control.BaseVideoDataset.listdir
                 (role_root +:+ "/images") w = (Ok names, w))
    by (unfold dataset_laionhuman_w_control.BaseVideoDataset.listdir;
        now rewrite Hd).
  step E3. fold video_length. step Ew.
  rewrite (seqZ_cons 0 n) by lia. rewrite fmap_cons.
  cbn [dataset_laionhuman_w_control.BaseVideoDataset.mapM].
  rewrite linspace_y_0 by lia.
  erewrite bind_fail; [reflexivity|].
  apply bind_fail. apply bind_fail.
  unfold PIL.open. fold (frame_name start_idx). rewrite Hfs, Hf. reflexivity.
Qed.

Lemma video_getitem_missing_frame_witness :
  fst (dataset_laionhuman_w_control.BaseVideoDataset.getitem clip_ds 0
         {| fs := fun _ => None; dirs := dirs world_clip;
            torch_rng := fun _ => 0; py_rng := fun _ => 0 |})
  = Raise OSError.
Proof.
  apply (video_getitem_missing_frame clip_ds 0
           {| fs := fun _ => None; dirs := dirs world_clip;
              torch_rng := fun _ => 0; py_rng := fun _ => 0 |}
           {[ "role_root" := "role" ]} "role" clip_names);
    try (vm_compute; reflexivity); try discriminate; simpl; lia.
Defined.

(** ** A readable record is returned *)

Lemma Resize_pair_returns (h wd : Z) (p : picture) :
  1 <= h -> 1 <= wd ->
  exists r, transforms.Resize (transforms.SizePair h wd) p = Ok r /\
            width r = wd /\ height r = h /\ source r = source p.
Proof.
  intros Hh Hw. unfold transforms.Resize. simpl.
  destruct (Z.ltb_spec wd 1); [lia|]. destruct (Z.ltb_spec h 1); [lia|].
  simpl. eexists. split; [reflexivity|]. auto.
Qed.

Section LaionHumanSD_returns.
Import dataset_laionhuman_w_control.
Context {num T : Type} `{PyFloat num}.
Variable self : LaionHumanSD.t num T.
Variables h wd : Z.
Hypothesis size_pair : LaionHumanSD.size self = transforms.SizePair h wd.
Hypothesis h_pos : 1 <= h.
Hypothesis wd_pos : 1 <= wd.

Lemma transform_pair_returns raw w :
  exists out, LaionHumanSD.transform self raw w = (Ok out, w) /\
              source out = source raw.
Proof.
  destruct (Resize_pair_returns h wd raw h_pos wd_pos) as (r & Er & Hrw & Hrh & Hrs).
  destruct (crop_ok r 0 0 h wd) as (c & Ec & _); [lia|lia|].
  pose proof (crop_source _ _ _ _ _ _ Ec) as (Hcs & _).
  exists (transforms.Normalize (transforms.ToTensor c)).
  split; [|simpl; congruence].
  unfold LaionHumanSD.transform. rewrite size_pair.
  assert (E1 : lift (transforms.Resize (transforms.SizePair h wd) raw) w = (Ok r, w))
    by (unfold lift; now rewrite Er).
  step E1.
  assert (E2 : transforms.RandomCrop (transforms.SizePair h wd) r w = (Ok c, w)).
  { unfold transforms.RandomCrop. simpl transforms.setup_size.
    pose proof (get_params_exact r w) as G. rewrite Hrw, Hrh in G.
    step G. unfold lift. now rewrite Ec. }
  step E2. reflexivity.
Qed.

Lemma control_transform_pair_returns ci w :
  exists out, LaionHumanSD.control_transform self (Some ci) w = (Ok out, w) /\
              source out = source ci.
Proof.
  destruct (Resize_pair_returns h wd ci h_pos wd_pos) as (r & Er & Hrw & Hrh & Hrs).
  destruct (crop_ok r 0 0 h wd) as (c & Ec & _); [lia|lia|].
  pose proof (crop_source _ _ _ _ _ _ Ec) as (Hcs & _).
  exists (transforms.ToTensor c). split; [|simpl; congruence].
  unfold LaionHumanSD.control_transform. rewrite size_pair.
  unfold bind, lift, ret. rewrite Er, (CenterCrop_exact _ _ _ Hrw Hrh), Ec.
  reflexivity.
Qed.

End LaionHumanSD_returns.

(** X22: with [size] an (H, W) pair of positive sides, and control
    either off or canny, the control-enabled LaionHumanSD returns the
    very record asked for whenever that record has a prompt and a picture
    that decodes: image, reference and control map are made of its file,
    no retry takes place and torch's generator is left alone. *)
Theorem LaionHumanSD_getitem_returns {num T} `{PyFloat num}
    (self : dataset_laionhuman_w_control.LaionHumanSD.t num T)
    (h wd : Z) (depth : nat) (idx : Z) (w : world)
    (it : item) (path prompt : string) (size_on_disk : Z * Z) :
  dataset_laionhuman_w_control.LaionHumanSD.size self
  = transforms.SizePair h wd ->
  1 <= h -> 1 <= wd ->
  (dataset_laionhuman_w_control.LaionHumanSD.use_control self = false \/
   dataset_laionhuman_w_control.LaionHumanSD.control_type self = "canny") ->
  list_getitem (dataset_laionhuman_w_control.LaionHumanSD.data self) idx = Ok it ->
  it !! "img_path" = Some path -> fs w path = Some size_on_disk ->
  it !! "prompt" = Some prompt ->
  exists s w',
    dataset_laionhuman_w_control.LaionHumanSD.getitem self depth idx w
    = (Ok s, w') /\
    torch_rng w' = torch_rng w /\
    source (dataset_laionhuman_w_control.LaionHumanSD.image s) = path /\
    source (dataset_laionhuman_w_control.LaionHumanSD.reference s) = path /\
    match dataset_laionhuman_w_control.LaionHumanSD.control_image s with
    | Some c =>
        dataset_laionhuman_w_control.LaionHumanSD.use_control self = true /\
        source c = path
    | None =>
        dataset_laionhuman_w_control.LaionHumanSD.use_control self = false
    end.
Proof.
  intros Hsize Hh Hw Hctl Hit Hp Hf Hpr. destruct size_on_disk as [w0 h0].
  set (raw := mk_picture path w0 h0).
  destruct (transform_pair_returns self h wd Hsize Hh Hw raw w) as (im & Eim & Hims).
  destruct (control_transform_pair_returns self h wd Hsize Hh Hw
              (dataset_laionhuman_w_control.LaionHumanSD.canny raw) w)
    as (ct & Ect & Hcts).
  assert (Eb : exists ctl,
             dataset_laionhuman_w_control.LaionHumanSD.build self idx w
             = (Ok (im, im, ctl, prompt), w) /\
             match ctl with
             | Some c =>
                 dataset_laionhuman_w_control.LaionHumanSD.use_control self = true
                 /\ source c = path
             | None =>
                 dataset_laionhuman_w_control.LaionHumanSD.use_control self = false
             end).
  { unfold dataset_laionhuman_w_control.LaionHumanSD.build.
    assert (E1 : lift (list_getitem
                         (dataset_laionhuman_w_control.LaionHumanSD.data self) idx) w
                 = (Ok it, w)) by (unfold lift; now rewrite Hit).
    assert (E2 : lift (dict_getitem it "img_path") w = (Ok path, w))
      by (unfold lift, dict_getitem; now rewrite Hp).
    assert (E3 : PIL.open path w = (Ok raw, w))
      by (unfold PIL.open; now rewrite Hf).
    assert (E4 : lift (dict_getitem it "prompt") w = (Ok prompt, w))
      by (unfold lift, dict_getitem; now rewrite Hpr).
    destruct (dataset_laionhuman_w_control.LaionHumanSD.use_control self) eqn:Hu.
    - destruct Hctl as [Hc|Hc]; [discriminate|].
      exists (Some ct). split; [|split; [reflexivity|exact Hcts]].
      step E1. step E2. step E3. step E4. step Eim. step Eim.
      rewrite Hc, String.eqb_refl.
      unfold bind, ret. cbv beta iota. rewrite Ect. reflexivity.
    - exists None. split; [|reflexivity].
      step E1. step E2. step E3. step E4. step Eim. step Eim. reflexivity. }
  destruct Eb as (ctl & Eb & Hc).
  unfold dataset_laionhuman_w_control.LaionHumanSD.getitem.
  rewrite (try_next_returns _ _ _ _ _ _ _ _ Eb).
  unfold dataset_laionhuman_w_control.LaionHumanSD.finish, bind, random_random,
    py_draw, ret. simpl.
  destruct (conditional_dropout _ _ _ _ _) as [p d].
  eexists _, _. split; [reflexivity|]. simpl.
  split; [reflexivity|]. split; [exact Hims|]. split; [exact Hims|exact Hc].
Qed.

Lemma LaionHumanSD_getitem_returns_witness :
  exists s w',
    dataset_laionhuman_w_control.LaionHumanSD.getitem
      (laion_ds two_records (transforms.SizePair 512 512) true "canny")
      0 1 world_torch = (Ok s, w') /\
    source (dataset_laionhuman_w_control.LaionHumanSD.image s) = "wide.png".
Proof.
  destruct (LaionHumanSD_getitem_returns
              (laion_ds two_records (transforms.SizePair 512 512) true "canny")
              512 512 0 1 world_torch
              (laion_item "wide.png" (Some "a dog")) "wide.png" "a dog" (1024, 512))
    as (s & w' & E & _ & Hs & _);
    try (vm_compute; reflexivity); try lia; [right; reflexivity|].
  exists s, w'. split; assumption.
Defined.
